(** * Ohio legal corpus pipeline: citation graph, enrichment, LMDB tables

    A shallow embedding of the parts of the repository that decide the
    properties stated at the end of this file:

    - [auto_enricher.py] (ohio_case_law_old/lmdb): the rule-based enricher;
    - [citation_mapper.py] (ohio_revised/citation_analysis): reference
      extraction, chain construction and the files it saves;
    - [build_comprehensive_lmdb.py] (ohio_administration/lmdb): the five
      LMDB tables;
    - [legal_chain_retriever.py] (archive): the read side.

    Python [str] values are modelled as Rocq strings (sequences of 8-bit
    characters, read as code points below 256), Python [int] as [Z], Python
    [float] as the kernel's binary64 [float], a [dict] as a [gmap], a [set]
    of strings as a [gset string], a JSON object of fixed shape as a record.
    An LMDB table is the finite map from its keys to the (decoded) values
    that were put. *)

From Stdlib Require Import ZArith List String Ascii Bool Lia.
From Stdlib Require Import Floats Uint63 DecimalString DecimalNat.
From stdpp Require Import base option strings list gmap sorting.

Local Open Scope string_scope.
Local Open Scope Z_scope.

(** ** Python string operations *)

Module PyStr.

(** [c.isspace()] for a code point below 256: tab, line feed, vertical
    tab, form feed, carriage return, the four separators 0x1c-0x1f, the
    space, next line (0x85) and the no-break space (0xa0). *)
Definition isspace (c : ascii) : bool :=
  let n := nat_of_ascii c in
  ((9 <=? n)%nat && (n <=? 13)%nat) || ((28 <=? n)%nat && (n <=? 32)%nat)
  || (n =? 133)%nat || (n =? 160)%nat.

(** A decimal digit, as [\d] matches it (below 256: the ten ASCII digits). *)
Definition isdigit (c : ascii) : bool :=
  let n := nat_of_ascii c in (48 <=? n)%nat && (n <=? 57)%nat.

(** [c.lower()] for a code point below 256: the letters A-Z and the
    Latin-1 capitals 0xc0-0xde (the multiplication sign 0xd7 apart) move
    up by 32. *)
Definition lower_char (c : ascii) : ascii :=
  let n := nat_of_ascii c in
  if ((65 <=? n)%nat && (n <=? 90)%nat)
     || ((192 <=? n)%nat && (n <=? 222)%nat && negb (n =? 215)%nat)
  then ascii_of_nat (n + 32) else c.

(** [s.lower()] *)
Fixpoint lower (s : string) : string :=
  match s with
  | EmptyString => EmptyString
  | String c s' => String (lower_char c) (lower s')
  end.

(** [s.startswith(p)] *)
Fixpoint startswith (p s : string) : bool :=
  match p, s with
  | EmptyString, _ => true
  | String a p', String b s' => Ascii.eqb a b && startswith p' s'
  | String _ _, EmptyString => false
  end.

(** [sub in s] : [sub] occurs in [s] as a contiguous substring. *)
Fixpoint contains (sub s : string) : bool :=
  startswith sub s ||
  match s with
  | EmptyString => false
  | String _ s' => contains sub s'
  end.

(** [s.lstrip()], [s.rstrip()], [s.strip()] *)
Fixpoint lstrip (s : string) : string :=
  match s with
  | EmptyString => EmptyString
  | String c s' => if isspace c then lstrip s' else s
  end.

Fixpoint rstrip (s : string) : string :=
  match s with
  | EmptyString => EmptyString
  | String c s' =>
      match rstrip s' with
      | EmptyString => if isspace c then EmptyString else String c EmptyString
      | r => String c r
      end
  end.

Definition strip (s : string) : string := rstrip (lstrip s).

(** [s.split(sep)] for a one-character separator: the pieces between the
    occurrences of [sep], always at least one piece. *)
Fixpoint split_char (sep : ascii) (s : string) : list string :=
  match s with
  | EmptyString => [EmptyString]
  | String c s' =>
      if Ascii.eqb c sep then EmptyString :: split_char sep s'
      else match split_char sep s' with
           | [] => [String c EmptyString]
           | w :: ws => String c w :: ws
           end
  end.

(** [s.split()] : the maximal runs of non-space characters. [cur] is the
    word being read, reversed; [None] between words. *)
Fixpoint split_ws_go (cur : option string) (s : string) : list string :=
  match s with
  | EmptyString =>
      match cur with Some w => [String.rev w] | None => [] end
  | String c s' =>
      if isspace c then
        match cur with
        | Some w => String.rev w :: split_ws_go None s'
        | None => split_ws_go None s'
        end
      else
        match cur with
        | Some w => split_ws_go (Some (String c w)) s'
        | None => split_ws_go (Some (String c EmptyString)) s'
        end
  end.

Definition split_ws (s : string) : list string := split_ws_go None s.

(** [s.replace(old, new)] for a non-empty [old]: occurrences are replaced
    from the left and do not overlap. [skip] counts the characters of a
    matched occurrence that are still to be dropped. *)
Fixpoint replace_go (old new : string) (skip : nat) (s : string) : string :=
  match s with
  | EmptyString => EmptyString
  | String c s' =>
      match skip with
      | S k => replace_go old new k s'
      | O =>
          if startswith old s
          then new ++ replace_go old new (String.length old - 1) s'
          else String c (replace_go old new 0 s')
      end
  end.

Definition replace (old new s : string) : string := replace_go old new 0 s.

(** [s[:n]] *)
Fixpoint take (n : nat) (s : string) : string :=
  match n, s with
  | S k, String c s' => String c (take k s')
  | _, _ => EmptyString
  end.

(** [sep.join(l)] *)
Fixpoint join (sep : string) (l : list string) : string :=
  match l with
  | [] => EmptyString
  | [x] => x
  | x :: xs => x ++ sep ++ join sep xs
  end.

(** [str(n)] for a non-negative integer, as an f-string prints it. *)
Definition of_nat (n : nat) : string := NilEmpty.string_of_uint (Nat.to_uint n).

Definition of_Z (z : Z) : string := NilZero.string_of_int (Z.to_int z).

(** [re.search(pat, text)] for a pattern that is a literal (no
    metacharacter): the literal occurs in the text. *)
Definition re_search (pat text : string) : bool := contains pat text.

(** [re.search(pat, text, re.IGNORECASE)] for a literal pattern: the
    comparison is made character by character, up to letter case. *)
Definition re_search_ignorecase (pat text : string) : bool :=
  contains (lower pat) (lower text).

End PyStr.

(** ** auto_enricher.py *)

Module Enricher.

(** The fields of [EnrichmentData] that the properties below speak of.
    [practice_areas], [key_terms] and [offense_degree] are computed from
    the text independently of these and are left out. *)
Record EnrichmentData := {
  summary : string;
  legal_type : string;
  complexity : Z;
  offense_level : option string
}.

Definition CRIMINAL_PATTERNS : list string :=
  ["felony"; "misdemeanor"; "imprisonment"; "imprisoned";
   "convicted"; "guilty"; "offense"; "violation"; "penalty"].

(** [any(word in title for word in words)] *)
Definition any_in (words : list string) (title : string) : bool :=
  existsb (fun word => PyStr.contains word title) words.

Definition _generate_summary (header : string) : string :=
  if negb (PyStr.contains "|" header) then PyStr.strip header
  else
    let parts := PyStr.split_char "|" header in
    if (length parts <? 2)%nat then PyStr.strip header
    else
      let title_part := PyStr.strip (nth 1 parts "") in
      let title_lower := PyStr.lower title_part in
      if any_in ["definition"; "definitions"; "defined"] title_lower
      then "Defines " ++ title_lower
      else if any_in ["penalty"; "penalties"; "punishment"] title_lower
      then "Establishes penalties for " ++ title_lower
      else if any_in ["procedure"; "process"; "filing"] title_lower
      then "Describes procedure for " ++ title_lower
      else "Relates to " ++ title_lower.

Definition _classify_legal_type (text header : string) : string :=
  let text_lower := PyStr.lower text in
  let header_lower := PyStr.lower header in
  let criminal_matches :=
    length (filter (fun pattern => PyStr.re_search pattern text_lower = true)
                   CRIMINAL_PATTERNS) in
  if (2 <=? criminal_matches)%nat then "criminal_statute"
  else if PyStr.contains "as used in" text_lower
          || PyStr.contains "definition" header_lower
  then "definitional"
  else if any_in ["procedure"; "process"; "filing"; "hearing"; "motion"] text_lower
  then "procedural"
  else "civil_statute".

Definition _extract_offense_level (text : string) : option string :=
  if PyStr.re_search_ignorecase "felony" text then Some "felony"
  else if PyStr.re_search_ignorecase "misdemeanor" text then Some "misdemeanor"
  else if PyStr.re_search_ignorecase "minor misdemeanor" text
  then Some "minor_misdemeanor"
  else None.

Definition _calculate_complexity
    (word_count paragraph_count citation_count : Z) : Z :=
  let score := 5 in
  let score :=
    if word_count >? 1000 then score + 2
    else if word_count >? 500 then score + 1
    else if word_count <? 100 then score - 1
    else score in
  let score :=
    if paragraph_count >? 15 then score + 2
    else if paragraph_count >? 10 then score + 1
    else score in
  let score :=
    if citation_count >? 10 then score + 2
    else if citation_count >? 5 then score + 1
    else if citation_count =? 0 then score - 1
    else score in
  Z.max 1 (Z.min 10 score).

(** [enrich_section]: the enrichment computed from a section's header,
    paragraphs and counts, and from the citation count the caller passes. *)
Definition enrich_section
    (header : string) (paragraphs : list string)
    (word_count paragraph_count citation_count : Z) : EnrichmentData :=
  let full_text := PyStr.lower (PyStr.join (String "010" EmptyString) paragraphs) in
  let legal := _classify_legal_type full_text header in
  {| summary := _generate_summary header;
     legal_type := legal;
     complexity := _calculate_complexity word_count paragraph_count citation_count;
     offense_level :=
       if String.eqb legal "criminal_statute"
       then _extract_offense_level full_text else None |}.

(** The complexity score as the specification words it: start at 5, three
    independent adjustments, then clamp into [1,10]. *)
Definition word_adjustment (w : Z) : Z :=
  if w >? 1000 then 2 else if w >? 500 then 1 else if w <? 100 then -1 else 0.
Definition paragraph_adjustment (p : Z) : Z :=
  if p >? 15 then 2 else if p >? 10 then 1 else 0.
Definition citation_adjustment (c : Z) : Z :=
  if c >? 10 then 2 else if c >? 5 then 1 else if c =? 0 then -1 else 0.
Definition clamp (lo hi x : Z) : Z :=
  if x <? lo then lo else if hi <? x then hi else x.
Definition complexity_formula (w p c : Z) : Z :=
  clamp 1 10 (5 + word_adjustment w + paragraph_adjustment p + citation_adjustment c).

(** *** Practice areas *)

(** The dict [PRACTICE_AREA_KEYWORDS], in the order of its keys. *)
Definition PRACTICE_AREA_KEYWORDS : list (string * list string) :=
  [("criminal_law",
    ["felony"; "misdemeanor"; "imprisonment"; "convicted"; "offense";
     "guilty"; "crime"; "criminal"; "penal"; "defendant"; "prosecution";
     "sentence"; "jail"; "prison"; "punish"]);
   ("family_law",
    ["marriage"; "divorce"; "custody"; "child support"; "adoption";
     "spouse"; "parent"; "guardian"; "domestic"; "alimony"; "visitation"]);
   ("property_law",
    ["property"; "real estate"; "conveyance"; "deed"; "mortgage";
     "landlord"; "tenant"; "lease"; "title"; "easement"; "lien"]);
   ("business_law",
    ["corporation"; "llc"; "partnership"; "business"; "commercial";
     "contract"; "enterprise"; "company"; "shareholder"; "entity"]);
   ("tax_law",
    ["tax"; "revenue"; "assessment"; "levy"; "taxation"; "taxable";
     "income tax"; "sales tax"; "property tax"]);
   ("employment_law",
    ["employment"; "employee"; "employer"; "workplace"; "labor";
     "wage"; "worker"; "compensation"; "unemployment"; "benefits"]);
   ("administrative_law",
    ["agency"; "regulation"; "administrative"; "rule"; "board";
     "commission"; "department"; "licensing"; "permit"]);
   ("civil_procedure",
    ["complaint"; "summons"; "pleading"; "discovery"; "trial";
     "judgment"; "appeal"; "motion"; "filing"])].

(** [sum(1 for keyword in keywords if keyword in text)] *)
Definition keyword_matches (keywords : list string) (text : string) : nat :=
  length (filter (fun keyword => PyStr.contains keyword text = true) keywords).

(** The first loop of [_identify_practice_areas]. *)
Definition keyword_areas (text : string) : list string :=
  foldl (fun areas entry =>
           if (2 <=? keyword_matches entry.2 text)%nat
           then (areas ++ [entry.1])%list else areas)
        [] PRACTICE_AREA_KEYWORDS.

(** The white space that [int] removes around a numeral, for code points
    below 256: tab to carriage return, the space, next line and the
    no-break space (the separators 0x1c-0x1f are not removed). *)
Definition int_space (c : ascii) : bool :=
  let n := nat_of_ascii c in
  ((9 <=? n)%nat && (n <=? 13)%nat) || (n =? 32)%nat || (n =? 133)%nat || (n =? 160)%nat.

Fixpoint int_lstrip (s : string) : string :=
  match s with
  | EmptyString => EmptyString
  | String c s' => if int_space c then int_lstrip s' else s
  end.

Fixpoint int_rstrip (s : string) : string :=
  match s with
  | EmptyString => EmptyString
  | String c s' =>
      match int_rstrip s' with
      | EmptyString => if int_space c then EmptyString else String c EmptyString
      | r => String c r
      end
  end.

(** The digits of a numeral, single underscores allowed between two
    digits: the value read so far, the number of digits read, and whether
    the last character was a digit. *)
Fixpoint int_digits (s : string) (value : Z) (digits : nat) (after_digit : bool)
    : option (Z * nat) :=
  match s with
  | EmptyString => if after_digit then Some (value, digits) else None
  | String c s' =>
      if PyStr.isdigit c
      then int_digits s' (10 * value + (Z.of_nat (nat_of_ascii c) - 48)) (S digits) true
      else if Ascii.eqb c "_" && after_digit
      then int_digits s' value digits false
      else None
  end.

(** [int(s)] for a string: [None] is [ValueError]. A numeral of more than
    4300 digits is refused ([sys.int_info.default_max_str_digits]). *)
Definition int_of_str (s : string) : option Z :=
  let body := int_rstrip (int_lstrip s) in
  let '(negative, numeral) :=
    match body with
    | String "+" rest => (false, rest)
    | String "-" rest => (true, rest)
    | _ => (false, body)
    end in
  match int_digits numeral 0 0 false with
  | Some (value, digits) =>
      if (4300 <? digits)%nat then None
      else Some (if negative then - value else value)
  | None => None
  end.

(** [int(section_num.split('.')[0]) if '.' in section_num else int(section_num)] *)
Definition title_number (section_num : string) : option Z :=
  if PyStr.contains "." section_num
  then int_of_str (nth 0 (PyStr.split_char "." section_num) "")
  else int_of_str section_num.

(** [if lo <= title_num < hi: if area not in areas: areas.append(area)] *)
Definition add_title_area (lo hi : Z) (area : string) (title_num : Z)
    (areas : list string) : list string :=
  if (lo <=? title_num) && (title_num <? hi)
  then if bool_decide (area ∈ areas) then areas else (areas ++ [area])%list
  else areas.

Definition _identify_practice_areas (text section_num : string) : list string :=
  let areas := keyword_areas text in
  let areas :=
    match title_number section_num with
    | Some title_num =>
        add_title_area 1700 1800 "business_law" title_num
          (add_title_area 5500 5800 "tax_law" title_num
             (add_title_area 3100 3200 "family_law" title_num
                (add_title_area 2900 3000 "criminal_law" title_num areas)))
    | None => areas
    end in
  match areas with
  | [] => ["general"]
  | _ => areas
  end.

(** *** Offense degree *)

(** [re.search(prefix + '(' + '|'.join(words) + ') degree', text,
    re.IGNORECASE)] for literal [prefix] and [words]: the word of the
    leftmost match, in lower case. *)
Fixpoint search_degree (prefix : string) (words : list string) (text_lower : string)
    : option string :=
  match find (fun word => PyStr.startswith (prefix ++ word ++ " degree") text_lower)
             words with
  | Some word => Some word
  | None =>
      match text_lower with
      | EmptyString => None
      | String _ rest => search_degree prefix words rest
      end
  end.

(** The two dicts [degree_map] and [degree_map.get(word)]. *)
Definition felony_degree_map : list (string * string) :=
  [("first", "F1"); ("second", "F2"); ("third", "F3"); ("fourth", "F4"); ("fifth", "F5")].

Definition misdemeanor_degree_map : list (string * string) :=
  [("first", "M1"); ("second", "M2"); ("third", "M3"); ("fourth", "M4")].

Definition degree_map_get (degree_map : list (string * string)) (word : string)
    : option string :=
  snd <$> find (fun entry => String.eqb entry.1 word) degree_map.

Definition _extract_offense_degree (text : string) : option string :=
  match search_degree "felony of the " ["first"; "second"; "third"; "fourth"; "fifth"]
          (PyStr.lower text) with
  | Some word => degree_map_get felony_degree_map word
  | None =>
      match search_degree "misdemeanor of the " ["first"; "second"; "third"; "fourth"]
              (PyStr.lower text) with
      | Some word => degree_map_get misdemeanor_degree_map word
      | None => None
      end
  end.

End Enricher.

(** ** citation_mapper.py *)

Module CitationMapper.

(** *** Floats

    Python's [float] is IEEE 754 binary64, as is the kernel's [float];
    sums, differences, quotients and comparisons below are the kernel's. *)

Definition float_of_Z (z : Z) : float := PrimFloat.of_uint63 (Uint63.of_Z z).

(** The value of a string of decimal digits; [None] on any other
    character or on the empty string. *)
Fixpoint digits_value (acc : Z) (s : string) : option Z :=
  match s with
  | EmptyString => Some acc
  | String c s' =>
      if PyStr.isdigit c
      then digits_value (10 * acc + Z.of_nat (nat_of_ascii c) - 48) s'
      else None
  end.

Definition decimal_digits (s : string) : option Z :=
  match s with
  | EmptyString => None
  | _ => digits_value 0 s
  end.

(** [float(s)] on a group of the range pattern, which has the shape
    digits, dot, digits. Python returns the binary64 value nearest to the
    decimal; for a literal of at most 15 digits both the digit string read
    as an integer and the power of ten are exact in binary64, so their
    (correctly rounded) quotient is that value. Other strings are outside
    this model: [None]. *)
Definition py_float (s : string) : option float :=
  match PyStr.split_char "." s with
  | [ip; fp] =>
      match decimal_digits ip, decimal_digits fp with
      | Some i, Some f =>
          if (String.length ip + String.length fp <=? 15)%nat
          then
            let scale := 10 ^ Z.of_nat (String.length fp) in
            Some (PrimFloat.div (float_of_Z (i * scale + f)) (float_of_Z scale))
          else None
      | _, _ => None
      end
  | _ => None
  end.

(** [int(x)] for a finite float: truncation toward zero. (On an infinity
    or a NaN Python raises; neither arises from the literals of
    [py_float] in the loop below.) *)
Definition py_int (x : float) : Z :=
  match Prim2SF x with
  | S754_finite s m e =>
      let v := if 0 <=? e then Z.pos m * 2 ^ e else Z.pos m / 2 ^ (- e) in
      if s then - v else v
  | _ => 0
  end.

(** [x == n] for a float and an integer: Python compares the exact values. *)
Definition float_eq_int (x : float) (n : Z) : bool :=
  match Prim2SF x with
  | S754_zero _ => n =? 0
  | S754_finite s m e =>
      let sm := if s then Z.neg m else Z.pos m in
      if 0 <=? e then sm * 2 ^ e =? n else sm =? n * 2 ^ (- e)
  | _ => false
  end.

(** The float that the literal [0.01] denotes. *)
Definition one_hundredth : float := 0x1.47ae147ae147bp-7%float.

(** *** Reference extraction *)

(** An element of [re.findall]'s result: the group for a pattern with one
    group, the tuple of groups for the range pattern (a group that took no
    part in the match is the empty string). *)
Inductive re_match :=
| MatchStr (s : string)
| MatchTuple (g0 g1 : string).

Definition reference_patterns : list string :=
  ["[Ss]ections?\s+(\d+\.\d+)(?:\s+to\s+(\d+\.\d+))?";
   "division\s*\([A-Z]\d*\)\s+of\s+section\s+(\d+\.\d+)";
   "(?:Chapter\s+)?(\d{3,4})\.\s+of\s+the\s+Revised\s+Code";
   "(?<![.\d])(\d{3,4}\.\d+)(?![.\d])"].

(** The loop [while current <= end_num] of the range expansion. [None]
    when [fuel] iterations did not reach the end of the loop. *)
Fixpoint expand_range (fuel : nat) (current end_num : float)
    (references : gset string) : option (gset string) :=
  if PrimFloat.leb current end_num then
    match fuel with
    | O => None
    | S fuel' =>
        let references :=
          if float_eq_int current (py_int current)
          then {[ PyStr.of_Z (py_int current) ++ ".01" ]} ∪ references
          else references in
        expand_range fuel' (PrimFloat.add current one_hundredth) end_num references
    end
  else Some references.

(** The body of the loop over the matches of one pattern. The [except
    ValueError] branch is never taken on groups of the range pattern; a
    group outside the domain of [py_float] gives [None] here. *)
Definition add_match (fuel : nat) (m : re_match) (references : gset string)
    : option (gset string) :=
  match m with
  | MatchTuple g0 g1 =>
      if negb (String.eqb g1 "") then
        let start_section := g0 in
        let end_section := g1 in
        let references := {[ end_section ]} ∪ ({[ start_section ]} ∪ references) in
        match py_float start_section, py_float end_section with
        | Some start_num, Some end_num =>
            if PrimFloat.leb (PrimFloat.sub end_num start_num) 20%float
            then expand_range fuel start_num end_num references
            else Some references
        | _, _ => None
        end
      else Some ({[ g0 ]} ∪ references)
  | MatchStr s => Some ({[ s ]} ∪ references)
  end.

Fixpoint add_matches (fuel : nat) (ms : list re_match) (references : gset string)
    : option (gset string) :=
  match ms with
  | [] => Some references
  | m :: ms' =>
      match add_match fuel m references with
      | Some references' => add_matches fuel ms' references'
      | None => None
      end
  end.

(** The chapter of a section number: the digits before the dot. *)
Definition chapter_prefix (section : string) : string :=
  hd "" (PyStr.split_char "." section).

(** [re.match(r'^\d{3,4}\.\d+$', ref)] on a stripped string. *)
Fixpoint leading_digits (s : string) : nat :=
  match s with
  | String c s' => if PyStr.isdigit c then S (leading_digits s') else O
  | EmptyString => O
  end.

Fixpoint drop (n : nat) (s : string) : string :=
  match n, s with
  | S k, String _ s' => drop k s'
  | _, _ => s
  end.

Definition valid_section_format (ref : string) : bool :=
  let n := leading_digits ref in
  ((n =? 3)%nat || (n =? 4)%nat) &&
  match drop n ref with
  | String "." rest =>
      negb (String.eqb rest "") && (leading_digits rest =? String.length rest)%nat
  | _ => false
  end.

Section WithRegex.

(** [re.findall(pattern, text, re.IGNORECASE)] *)
Variable findall : string -> string -> list re_match.

Fixpoint scan_patterns (fuel : nat) (patterns : list string) (text : string)
    (references : gset string) : option (gset string) :=
  match patterns with
  | [] => Some references
  | pattern :: rest =>
      match add_matches fuel (findall pattern text) references with
      | Some references' => scan_patterns fuel rest text references'
      | None => None
      end
  end.

Definition extract_cross_references (fuel : nat) (text : string)
    : option (gset string) :=
  match scan_patterns fuel reference_patterns text ∅ with
  | Some references =>
      Some (filter (fun ref => valid_section_format ref = true)
                   (set_map (D := gset string) PyStr.strip references))
  | None => None
  end.

End WithRegex.

(** *** Chain construction *)

(** The three variables of the loop of [_build_reference_chain]. *)
Record chain_state := {
  queue : list string;
  visited : gset string;
  chain : list string
}.

(** [for ref in list(refs)[:3]: if ref not in visited and ref in
    citation_map: queue.append(ref)] *)
Definition enqueue_refs (citation_map : gmap string (list string))
    (visited : gset string) (refs : list string) (queue : list string)
    : list string :=
  foldl (fun q ref =>
           if bool_decide (ref ∉ visited) && bool_decide (is_Some (citation_map !! ref))
           then (q ++ [ref])%list else q)
        queue (take 3 refs).

(** One iteration of [while queue and len(chain) < max_size]; [None] when
    the loop condition is false. The value of a key of [citation_map] is
    the list of its references in iteration order ([list(refs)]). *)
Definition chain_step (citation_map : gmap string (list string)) (max_size : Z)
    (st : chain_state) : option chain_state :=
  match queue st with
  | [] => None
  | current :: rest =>
      if Z.of_nat (length (chain st)) <? max_size then
        if bool_decide (current ∈ visited st) then
          Some {| queue := rest; visited := visited st; chain := chain st |}
        else
          let chain' := (chain st ++ [current])%list in
          let visited' := {[ current ]} ∪ visited st in
          let refs := default [] (citation_map !! current) in
          Some {| queue := enqueue_refs citation_map visited' refs rest;
                  visited := visited';
                  chain := chain' |}
      else None
  end.

(** The loop, run for at most [fuel] iterations: [Some] of the state in
    which the loop condition is false, [None] if it was not reached. *)
Fixpoint chain_loop (citation_map : gmap string (list string)) (max_size : Z)
    (fuel : nat) (st : chain_state) : option chain_state :=
  match chain_step citation_map max_size st with
  | None => Some st
  | Some st' =>
      match fuel with
      | O => None
      | S fuel' => chain_loop citation_map max_size fuel' st'
      end
  end.

(** Every iteration either appends to the chain, and then at most three
    ids to the queue, or removes one id from the queue: this many
    iterations are enough (see [chain_loop_terminates]). *)
Definition chain_fuel (max_size : Z) : nat := 4 * Z.to_nat max_size + 1.

Definition _build_reference_chain (start_section : string)
    (citation_map : gmap string (list string)) (max_size : Z)
    : option (list string) :=
  chain <$> chain_loop citation_map max_size (chain_fuel max_size)
              {| queue := [start_section]; visited := ∅; chain := [] |}.

(** The quantity that decreases at every iteration of the loop, and the
    invariant that ties the chain to the visited set. *)
Definition chain_measure (max_size : Z) (st : chain_state) : nat :=
  4 * (Z.to_nat max_size - length (chain st)) + length (queue st).

Definition chain_invariant (st : chain_state) : Prop :=
  NoDup (chain st) /\ forall x, x ∈ chain st <-> x ∈ visited st.

(** The forward map of the chain scenario of the specification. *)
Definition scenario_forward_map : gmap string (list string) :=
  list_to_map
    [("A", ["B"; "C"]); ("B", ["D"; "E"]); ("C", ["F"]); ("D", ["G"; "H"]);
     ("E", []); ("F", ["I"]); ("G", []); ("H", []); ("I", [])].

(** [t] is one of the references of the key [s] of the forward map. *)
Definition cites (citation_map : gmap string (list string)) (s t : string) : Prop :=
  exists refs, citation_map !! s = Some refs /\ t ∈ refs.

(** The invariant of the loop behind the containment of a chain: every id
    in the queue or in the chain is reached from the start section through
    the forward map, every id but the start is a key of the map, and the
    chain, once it is not empty, begins with the start section. *)
Definition chain_containment_invariant (citation_map : gmap string (list string))
    (start : string) (st : chain_state) : Prop :=
  (forall x, x ∈ queue st \/ x ∈ chain st ->
     rtc (cites citation_map) start x /\ (x = start \/ is_Some (citation_map !! x)))
  /\ (chain st = [] /\ queue st = [start] /\ visited st = ∅
      \/ head (chain st) = Some start).

(** *** Saved files *)

(** A line of [complex_chains.jsonl] ([created_at], a timestamp, apart). *)
Record chain_data := {
  chain_id : string;
  primary_section : string;
  chain_sections : list string;
  estimated_complexity : Z
}.

(** [for i, chain in enumerate(analysis.complex_chains)], from index [i];
    [None] when [chain[0]] raises IndexError. *)
Fixpoint complex_chain_lines (i : nat) (complex_chains : list (list string))
    : option (list chain_data) :=
  match complex_chains with
  | [] => Some []
  | chain :: rest =>
      match chain with
      | [] => None
      | first :: _ =>
          match complex_chain_lines (S i) rest with
          | Some lines =>
              Some ({| chain_id := "complex_" ++ PyStr.of_nat i;
                       primary_section := first;
                       chain_sections := chain;
                       estimated_complexity := Z.of_nat (length chain) |} :: lines)
          | None => None
          end
      end
  end.

(** What [save_results] writes to [citation_map.json] and to
    [complex_chains.jsonl]. [list(v)] lists a set in its iteration order,
    which the model takes to be that of [elements]. *)
Record saved_files := {
  citation_map_file : gmap string (list string);
  complex_chains_file : list chain_data
}.

Definition save_results (citation_map : gmap string (gset string))
    (complex_chains : list (list string)) : option saved_files :=
  match complex_chain_lines 0 complex_chains with
  | Some lines =>
      Some {| citation_map_file := elements <$> citation_map;
              complex_chains_file := lines |}
  | None => None
  end.

(** *** Citation analysis *)

(** The fields of [CitationAnalysis] but [avg_references_per_section] (a
    float quotient of two of the counts below) and [processing_manifest]
    (the three lists once more). *)
Record CitationAnalysis := {
  total_sections : Z;
  sections_with_references : Z;
  total_references : Z;
  max_references : Z;
  most_referenced_section : string;
  isolated_sections : list string;
  complex_chains : list (list string);
  simple_pairs : list (list string)
}.

(** [reference_counts[ref] = reference_counts.get(ref, 0) + 1] on a dict
    kept as the list of its items in insertion order. *)
Fixpoint count_reference (ref : string) (reference_counts : list (string * Z))
    : list (string * Z) :=
  match reference_counts with
  | [] => [(ref, 1)]
  | (r, n) :: rest =>
      if String.eqb r ref then (r, n + 1) :: rest
      else (r, n) :: count_reference ref rest
  end.

(** [max(items, key=lambda x: x[1])]: the first item whose count no other
    item exceeds. *)
Fixpoint first_max (best : string * Z) (items : list (string * Z)) : string * Z :=
  match items with
  | [] => best
  | x :: rest => first_max (if best.2 <? x.2 then x else best) rest
  end.

(** The body of the loop that builds the chains: the accumulator is
    ([visited_global], [simple_pairs], [complex_chains]). *)
Definition analyze_section (citation_map : gmap string (list string))
    (acc : gset string * list (list string) * list (list string))
    (item : string * list string)
    : option (gset string * list (list string) * list (list string)) :=
  let '(visited_global, simple, complex) := acc in
  let '(section, refs) := item in
  if bool_decide (section ∉ visited_global) && negb (bool_decide (refs = [])) then
    match _build_reference_chain section citation_map 8 with
    | Some chain =>
        let visited_global := visited_global ∪ list_to_set chain in
        if (4 <=? length chain)%nat
        then Some (visited_global, simple, (complex ++ [chain])%list)
        else if (2 <=? length chain)%nat
        then Some (visited_global, (simple ++ [chain])%list, complex)
        else Some (visited_global, simple, complex)
    | None => None
    end
  else Some acc.

Fixpoint analyze_sections (citation_map : gmap string (list string))
    (acc : gset string * list (list string) * list (list string))
    (items : list (string * list string))
    : option (gset string * list (list string) * list (list string)) :=
  match items with
  | [] => Some acc
  | item :: rest =>
      match analyze_section citation_map acc item with
      | Some acc' => analyze_sections citation_map acc' rest
      | None => None
      end
  end.

(** [analyze_citation_patterns]. The dict [citation_map] is given by its
    items in insertion order (their keys are distinct), each set of
    references by the list of its elements in iteration order. [None] only
    if a chain construction ran out of fuel. *)
Definition analyze_citation_patterns (items : list (string * list string))
    : option CitationAnalysis :=
  let citation_map : gmap string (list string) := list_to_map items in
  let reference_counts :=
    foldl (fun counts item => foldl (fun c ref => count_reference ref c) counts item.2)
          [] items in
  let most_referenced :=
    match reference_counts with
    | [] => ("None", 0)
    | x :: rest => first_max x rest
    end in
  match analyze_sections citation_map (∅, [], []) items with
  | Some (_, simple, complex) =>
      Some {| total_sections := Z.of_nat (length items);
              sections_with_references :=
                Z.of_nat (length (filter (fun item => item.2 <> []) items));
              total_references :=
                foldr (fun item acc => Z.of_nat (length item.2) + acc) 0 items;
              max_references :=
                foldr (fun item acc => Z.max (Z.of_nat (length item.2)) acc) 0 items;
              most_referenced_section := most_referenced.1;
              isolated_sections := (filter (fun item => item.2 = []) items).*1;
              complex_chains := complex;
              simple_pairs := simple |}
  | None => None
  end.

(** *** Section numbers of headers *)

Fixpoint leading_spaces (s : string) : nat :=
  match s with
  | String c s' => if PyStr.isspace c then S (leading_spaces s') else O
  | EmptyString => O
  end.

(** A match of [Section\s+(\d+\.\d+)] that starts at the head of [s]: its
    group. Each repetition takes the longest run (a shorter run of spaces
    is followed by a space, a shorter run of digits by a digit, where the
    pattern wants a digit or the dot). *)
Definition section_number_at (s : string) : option string :=
  if PyStr.startswith "Section" s then
    let after_word := drop 7 s in
    let spaces := leading_spaces after_word in
    let after_spaces := drop spaces after_word in
    let digits := leading_digits after_spaces in
    match drop digits after_spaces with
    | String "." after_dot =>
        let decimals := leading_digits after_dot in
        if (0 <? spaces)%nat && (0 <? digits)%nat && (0 <? decimals)%nat
        then Some (PyStr.take digits after_spaces ++ "." ++ PyStr.take decimals after_dot)
        else None
    | _ => None
    end
  else None.

(** [re.search(r'Section\s+(\d+\.\d+)', header)]: the group of the leftmost
    match, [None] when there is none. *)
Fixpoint extract_section_number (header : string) : option string :=
  match section_number_at header with
  | Some section => Some section
  | None =>
      match header with
      | EmptyString => None
      | String _ rest => extract_section_number rest
      end
  end.

End CitationMapper.

(** ** Keys of an LMDB table *)

Module LMDB.

(** The number of bytes of [key.encode()] (UTF-8) for code points below
    256: one byte for a code point below 128, two from 128 on. *)
Fixpoint utf8_length (s : string) : nat :=
  match s with
  | EmptyString => 0%nat
  | String c s' =>
      ((if (nat_of_ascii c <? 128)%nat then 1 else 2) + utf8_length s')%nat
  end.

(** A key that LMDB accepts has from 1 to 511 bytes; on any other key
    [txn.put] and [txn.get] raise [lmdb.BadValsizeError]. *)
Definition valid_key (key : string) : bool :=
  (0 <? utf8_length key)%nat && (utf8_length key <=? 511)%nat.

End LMDB.

(** ** build_comprehensive_lmdb.py *)

Module LMDBBuilder.

(** A line of the corpus file after [json.loads], with the defaults of
    the [doc.get] calls applied. *)
Record doc := {
  doc_url : string;
  doc_url_hash : string;
  doc_header : string;
  doc_paragraphs : list string
}.

(** The value stored in the primary table ([scraped_date], the time of
    the build, apart). *)
Record OhioSectionDict := {
  section_number : string;
  url : string;
  url_hash : string;
  header : string;
  section_title : string;
  paragraphs : list string;
  full_text : string;
  word_count : Z;
  paragraph_count : Z;
  has_citations : bool;
  citation_count : Z;
  in_complex_chain : bool;
  is_clickable : bool;
  enrichment : option Enricher.EnrichmentData
}.

(** An entry of a record of [citation_contexts.jsonl]. *)
Record citation_context := {
  ctx_target : string;
  ctx_relationship : string;
  ctx_context : string;
  ctx_position : Z
}.

Record ReferenceDetailDict := {
  ref_section : string;
  ref_title : string;
  ref_url : string;
  ref_url_hash : string;
  ref_relationship : string;
  ref_context : string;
  ref_position : Z
}.

Record CitationDataDict := {
  cit_section : string;
  direct_references : list string;
  reference_count : Z;
  references_details : list ReferenceDetailDict
}.

Record CitingDetailDict := {
  citing_section : string;
  citing_title : string;
  citing_url : string
}.

Record ReverseCitationDataDict := {
  rev_section : string;
  cited_by : list string;
  cited_by_count : Z;
  citing_details : list CitingDetailDict
}.

(** A line of [complex_chains.jsonl] as the builder reads it;
    [estimated_complexity] is read with [.get] and may be absent. *)
Record chain_line := {
  line_chain_id : string;
  line_primary_section : string;
  line_chain_sections : list string;
  line_estimated_complexity : option Z
}.

Definition read_chain_line (c : CitationMapper.chain_data) : chain_line :=
  {| line_chain_id := CitationMapper.chain_id c;
     line_primary_section := CitationMapper.primary_section c;
     line_chain_sections := CitationMapper.chain_sections c;
     line_estimated_complexity := Some (CitationMapper.estimated_complexity c) |}.

Record ChainSectionDict := {
  item_section : string;
  item_title : string;
  item_url : string;
  item_url_hash : string;
  item_full_text : string;
  item_word_count : Z
}.

Record CitationChainDict := {
  chain_id : string;
  primary_section : string;
  chain_sections : list string;
  chain_depth : Z;
  references_count : Z;
  complete_chain : list ChainSectionDict
}.

(** The builder object: the data held in memory and the four tables
    written here (the metadata table holds counts and copies of fields of
    the primary table and is left out). *)
Record builder := {
  citation_map : gmap string (list string);
  chains_map : gmap string chain_line;
  sections_data : gmap string OhioSectionDict;
  citation_contexts_map : gmap string (list citation_context);
  reverse_citation_map : gmap string (gset string);
  enable_enrichment : bool;
  sections_db : gmap string OhioSectionDict;
  citations_db : gmap string CitationDataDict;
  reverse_citations_db : gmap string ReverseCitationDataDict;
  chains_db : gmap string CitationChainDict
}.

(** [ComprehensiveLMDBBuilder(...)] followed by [open_databases()]. *)
Definition new_builder (enable : bool) : builder :=
  {| citation_map := ∅; chains_map := ∅; sections_data := ∅;
     citation_contexts_map := ∅; reverse_citation_map := ∅;
     enable_enrichment := enable;
     sections_db := ∅; citations_db := ∅; reverse_citations_db := ∅;
     chains_db := ∅ |}.

(** [for key, value in d.items()]: the loop body is folded over the
    entries of the dict. The order of [map_to_list] stands for the
    insertion order of the dict; the loops below put one value per entry
    key or add to sets, and what is proved of them holds in any order. *)
Definition for_items {V S : Type} (d : gmap string V)
    (body : S -> string -> V -> S) (init : S) : S :=
  foldl (fun acc kv => body acc kv.1 kv.2) init (map_to_list d).

(** [if ref not in m: m[ref] = set()] then [m[ref].add(section)] *)
Definition add_citing (section : string) (m : gmap string (gset string))
    (ref : string) : gmap string (gset string) :=
  <[ ref := {[ section ]} ∪ default ∅ (m !! ref) ]> m.

Definition build_reverse_map (citation_map : gmap string (list string))
    : gmap string (gset string) :=
  for_items citation_map
    (fun m section references => foldl (add_citing section) m references) ∅.

Definition load_citation_data
    (citation_map_json : gmap string (list string))
    (chain_lines : list chain_line)
    (context_records : list (string * list citation_context))
    (b : builder) : builder :=
  {| citation_map := citation_map_json;
     chains_map :=
       foldl (fun m c => <[ line_chain_id c := c ]> m) (chains_map b) chain_lines;
     sections_data := sections_data b;
     citation_contexts_map :=
       foldl (fun m r => <[ r.1 := r.2 ]> m) (citation_contexts_map b) context_records;
     reverse_citation_map :=
       for_items citation_map_json
         (fun m section references => foldl (add_citing section) m references)
         (reverse_citation_map b);
     enable_enrichment := enable_enrichment b;
     sections_db := sections_db b;
     citations_db := citations_db b;
     reverse_citations_db := reverse_citations_db b;
     chains_db := chains_db b |}.

(** [sum(len(p.split()) for p in paragraphs)] *)
Definition count_words (paragraphs : list string) : Z :=
  foldr (fun p acc => Z.of_nat (length (PyStr.split_ws p)) + acc) 0 paragraphs.

Definition newline : string := String "010" EmptyString.

(** The section record built for one corpus line whose header has a
    pipe, enrichment included. *)
Definition make_section (b : builder) (d : doc) : OhioSectionDict :=
  let header := doc_header d in
  let header_parts := PyStr.split_char "|" header in
  let section_num :=
    PyStr.strip (PyStr.replace "Rule " ""
                   (PyStr.replace "Section " "" (nth 0 header_parts ""))) in
  let section_title :=
    if (1 <? length header_parts)%nat
    then PyStr.strip (nth 1 header_parts "") else "" in
  let paragraphs := doc_paragraphs d in
  let has_forward_citations := bool_decide (is_Some (citation_map b !! section_num)) in
  let has_reverse_citations :=
    bool_decide (is_Some (reverse_citation_map b !! section_num)) in
  let is_clickable := has_forward_citations || has_reverse_citations in
  let word_count := count_words paragraphs in
  let paragraph_count := Z.of_nat (length paragraphs) in
  let citation_count :=
    Z.of_nat (length (default [] (citation_map b !! section_num))) in
  {| section_number := section_num;
     url := doc_url d;
     url_hash := doc_url_hash d;
     header := header;
     section_title := section_title;
     paragraphs := paragraphs;
     full_text := PyStr.join newline paragraphs;
     word_count := word_count;
     paragraph_count := paragraph_count;
     has_citations := has_forward_citations;
     citation_count := citation_count;
     in_complex_chain := bool_decide (is_Some (chains_map b !! section_num));
     is_clickable := is_clickable;
     enrichment :=
       if enable_enrichment b
       then Some (Enricher.enrich_section header paragraphs
                    word_count paragraph_count citation_count)
       else None |}.

(** The body of the loop of [build_sections_database] for one line whose
    section number [txn.put] accepts as a key. What [txn.put] does with a
    key that is empty or longer than 511 bytes is in [put_section] and
    [sections_transaction] below. *)
Definition store_section (b : builder) (d : doc) : builder :=
  if negb (PyStr.contains "|" (doc_header d)) then b
  else
    let section_data := make_section b d in
    let section_num := section_number section_data in
    {| citation_map := citation_map b;
       chains_map := chains_map b;
       sections_data := <[ section_num := section_data ]> (sections_data b);
       citation_contexts_map := citation_contexts_map b;
       reverse_citation_map := reverse_citation_map b;
       enable_enrichment := enable_enrichment b;
       sections_db := <[ section_num := section_data ]> (sections_db b);
       citations_db := citations_db b;
       reverse_citations_db := reverse_citations_db b;
       chains_db := chains_db b |}.

Definition build_sections_database (corpus : list doc) (b : builder) : builder :=
  foldl store_section b corpus.

(** The fields of the builder that [build_sections_database] reads and
    does not write. *)
Definition same_inputs (b b' : builder) : Prop :=
  citation_map b = citation_map b'
  /\ reverse_citation_map b = reverse_citation_map b'
  /\ chains_map b = chains_map b'
  /\ citation_contexts_map b = citation_contexts_map b'
  /\ enable_enrichment b = enable_enrichment b'
  /\ citations_db b = citations_db b'
  /\ reverse_citations_db b = reverse_citations_db b'
  /\ chains_db b = chains_db b'.

(** [enhanced_map]: the last context recorded for each target. *)
Definition enhanced_map_of (enhanced_citations : list citation_context)
    : gmap string citation_context :=
  foldl (fun m citation => <[ ctx_target citation := citation ]> m) ∅
        enhanced_citations.

(** The details row of one reference of a section. *)
Definition reference_detail (b : builder)
    (enhanced_map : gmap string citation_context) (ref : string)
    : ReferenceDetailDict :=
  let '(relationship, context, position) :=
    match enhanced_map !! ref with
    | Some enhanced_info =>
        (ctx_relationship enhanced_info,
         PyStr.take 100 (ctx_context enhanced_info),
         ctx_position enhanced_info)
    | None => ("cross_reference", "", 0)
    end in
  let '(title, url', url_hash') :=
    match sections_data b !! ref with
    | Some ref_data => (section_title ref_data, url ref_data, url_hash ref_data)
    | None => ("", "", "")
    end in
  {| ref_section := ref;
     ref_title := title;
     ref_url := url';
     ref_url_hash := url_hash';
     ref_relationship := relationship;
     ref_context := context;
     ref_position := position |}.

Definition citation_entry (b : builder) (section_num : string)
    (references : list string) : CitationDataDict :=
  let enhanced_citations := default [] (citation_contexts_map b !! section_num) in
  let enhanced_map := enhanced_map_of enhanced_citations in
  {| cit_section := section_num;
     direct_references := references;
     reference_count := Z.of_nat (length references);
     references_details := map (reference_detail b enhanced_map) references |}.

Definition with_citations_db (b : builder) (db : gmap string CitationDataDict)
    : builder :=
  {| citation_map := citation_map b;
     chains_map := chains_map b;
     sections_data := sections_data b;
     citation_contexts_map := citation_contexts_map b;
     reverse_citation_map := reverse_citation_map b;
     enable_enrichment := enable_enrichment b;
     sections_db := sections_db b;
     citations_db := db;
     reverse_citations_db := reverse_citations_db b;
     chains_db := chains_db b |}.

Definition build_citations_database (b : builder) : builder :=
  with_citations_db b
    (for_items (citation_map b)
       (fun db section_num references =>
          <[ section_num := citation_entry b section_num references ]> db)
       (citations_db b)).

(** [sorted(...)] on strings: ascending in the order of the code points. *)
Definition str_le (a b : string) : Prop := String.leb a b = true.

#[global] Instance str_le_dec (a b : string) : Decision (str_le a b).
Proof. unfold str_le. apply _. Defined.

Definition sorted (l : list string) : list string := merge_sort str_le l.

(** [citing_details]: a row for each citing section found in
    [sections_data]. *)
Definition citing_detail_rows (b : builder) (citing_sorted : list string)
    : list CitingDetailDict :=
  omap (fun citing =>
          match sections_data b !! citing with
          | Some citing_data =>
              Some {| citing_section := citing;
                      citing_title := section_title citing_data;
                      citing_url := url citing_data |}
          | None => None
          end)
       citing_sorted.

Definition reverse_entry (b : builder) (section_num : string)
    (citing_sections : gset string) : ReverseCitationDataDict :=
  {| rev_section := section_num;
     cited_by := sorted (elements citing_sections);
     cited_by_count := Z.of_nat (size citing_sections);
     citing_details := citing_detail_rows b (sorted (elements citing_sections)) |}.

Definition with_reverse_citations_db (b : builder)
    (db : gmap string ReverseCitationDataDict) : builder :=
  {| citation_map := citation_map b;
     chains_map := chains_map b;
     sections_data := sections_data b;
     citation_contexts_map := citation_contexts_map b;
     reverse_citation_map := reverse_citation_map b;
     enable_enrichment := enable_enrichment b;
     sections_db := sections_db b;
     citations_db := citations_db b;
     reverse_citations_db := db;
     chains_db := chains_db b |}.

Definition build_reverse_citations_database (b : builder) : builder :=
  let reverse_map := build_reverse_map (citation_map b) in
  with_reverse_citations_db b
    (for_items reverse_map
       (fun db section_num citing_sections =>
          <[ section_num := reverse_entry b section_num citing_sections ]> db)
       (reverse_citations_db b)).

Definition chain_entry (b : builder) (chain_id : string) (chain_data : chain_line)
    : CitationChainDict :=
  {| chain_id := chain_id;
     primary_section := line_primary_section chain_data;
     chain_sections := line_chain_sections chain_data;
     chain_depth :=
       default (Z.of_nat (length (line_chain_sections chain_data)))
               (line_estimated_complexity chain_data);
     references_count := Z.of_nat (length (line_chain_sections chain_data));
     complete_chain :=
       omap (fun section =>
               match sections_data b !! section with
               | Some section_data =>
                   Some {| item_section := section;
                           item_title := section_title section_data;
                           item_url := url section_data;
                           item_url_hash := url_hash section_data;
                           item_full_text := full_text section_data;
                           item_word_count := word_count section_data |}
               | None => None
               end)
            (line_chain_sections chain_data) |}.

Definition with_chains_db (b : builder) (db : gmap string CitationChainDict)
    : builder :=
  {| citation_map := citation_map b;
     chains_map := chains_map b;
     sections_data := sections_data b;
     citation_contexts_map := citation_contexts_map b;
     reverse_citation_map := reverse_citation_map b;
     enable_enrichment := enable_enrichment b;
     sections_db := sections_db b;
     citations_db := citations_db b;
     reverse_citations_db := reverse_citations_db b;
     chains_db := db |}.

Definition build_chains_database (b : builder) : builder :=
  with_chains_db b
    (for_items (chains_map b)
       (fun db chain_id chain_data =>
          <[ chain_id := chain_entry b chain_id chain_data ]> db)
       (chains_db b)).

(** The input files of a build. *)
Record build_input := {
  corpus_file : list doc;
  citation_map_file : gmap string (list string);
  complex_chains_file : list chain_line;
  citation_contexts_file : list (string * list citation_context)
}.

(** [build_all], up to the chains table. *)
Definition build_all (enable : bool) (input : build_input) : builder :=
  let b := new_builder enable in
  let b := load_citation_data (citation_map_file input)
             (complex_chains_file input) (citation_contexts_file input) b in
  let b := build_sections_database (corpus_file input) b in
  let b := build_citations_database b in
  let b := build_reverse_citations_database b in
  build_chains_database b.

(** The key under which [build_sections_database] stores a line: the part
    of the header before the first pipe, without [Section ] and [Rule ],
    stripped. *)
Definition section_key (d : doc) : string :=
  PyStr.strip (PyStr.replace "Rule " ""
                 (PyStr.replace "Section " ""
                    (nth 0 (PyStr.split_char "|" (doc_header d)) ""))).

(** *** Counts and the metadata table *)

(** The numbers the build functions return: [sections_count] counts the
    corpus lines that were stored, the other three count the entries of
    the loops over [citation_map], the reverse map and [chains_map]. *)
Definition sections_count (corpus : list doc) : Z :=
  Z.of_nat (length (filter (fun d => PyStr.contains "|" (doc_header d) = true) corpus)).

Definition citations_count (b : builder) : Z := Z.of_nat (size (citation_map b)).

Definition reverse_count (b : builder) : Z :=
  Z.of_nat (size (build_reverse_map (citation_map b))).

Definition chains_count (b : builder) : Z := Z.of_nat (size (chains_map b)).

(** The values of the metadata table: [corpus_info] (its counts; the build
    date and the constant fields apart), the per-section record
    ([scraped_date] apart) and the inbound count of a section. *)
Inductive metadata_value :=
| CorpusInfo (total_sections sections_with_citations complex_chains
              reverse_citations : Z)
| SectionMeta (section url_hash url : string) (word_count : Z)
              (has_citations : bool) (citation_count : Z) (in_complex_chain : bool)
| InboundCount (section : string) (count : Z).

Definition section_meta (section_num : string) (section_data : OhioSectionDict)
    : metadata_value :=
  SectionMeta section_num (url_hash section_data) (url section_data)
    (word_count section_data) (has_citations section_data)
    (citation_count section_data) (in_complex_chain section_data).

Definition build_metadata_database (b : builder)
    (sections_count citations_count chains_count reverse_count : Z)
    (metadata_db : gmap string metadata_value) : gmap string metadata_value :=
  for_items (sections_data b)
    (fun db section_num section_data =>
       <[ "section_" ++ section_num ++ "_meta" := section_meta section_num section_data ]> db)
    (<[ "corpus_info" :=
          CorpusInfo sections_count citations_count chains_count reverse_count ]>
       metadata_db).

(** [for key, value in cursor]: the entries of a table in the order of
    their keys. *)
Definition key_le {V : Type} (a b : string * V) : Prop := str_le a.1 b.1.

#[global] Instance key_le_dec {V : Type} (a b : string * V) : Decision (key_le a b).
Proof. unfold key_le. apply _. Defined.

Definition cursor {V : Type} (db : gmap string V) : list (string * V) :=
  merge_sort key_le (map_to_list db).

(** [if ref not in inbound_counts: inbound_counts[ref] = 0] then
    [inbound_counts[ref] += 1] *)
Definition count_inbound (inbound_counts : gmap string Z) (ref : string)
    : gmap string Z :=
  <[ ref := default 0 (inbound_counts !! ref) + 1 ]> inbound_counts.

Definition inbound_counts (b : builder) : gmap string Z :=
  foldl (fun counts entry => foldl count_inbound counts (direct_references entry.2))
        ∅ (cursor (citations_db b)).

Definition calculate_inbound_counts (b : builder)
    (metadata_db : gmap string metadata_value) : gmap string metadata_value :=
  for_items (inbound_counts b)
    (fun db section count =>
       <[ "inbound_count_" ++ section := InboundCount section count ]> db)
    metadata_db.


(** The metadata table at the end of [build_all]. *)
Definition build_all_metadata (enable : bool) (input : build_input)
    : gmap string metadata_value :=
  let b := build_all enable input in
  calculate_inbound_counts b
    (build_metadata_database b (sections_count (corpus_file input))
       (citations_count b) (chains_count b) (reverse_count b) ∅).

(** *** Keys that [txn.put] refuses *)

(** The body of the loop of [build_sections_database] with the refusal of
    [txn.put]: [None] is [lmdb.BadValsizeError], raised for a section
    number that is empty or longer than 511 bytes ([store_section] is the
    body for a key that is accepted). *)
Definition put_section (b : builder) (d : doc) : option builder :=
  if negb (PyStr.contains "|" (doc_header d)) then Some b
  else if LMDB.valid_key (section_number (make_section b d))
  then Some (store_section b d)
  else None.

(** [build_sections_database] inside its write transaction: the first key
    that is refused ends the loop and the build with the exception, the
    transaction is aborted and none of its puts is stored. *)
Fixpoint sections_transaction (corpus : list doc) (b : builder) : option builder :=
  match corpus with
  | [] => Some b
  | d :: rest =>
      match put_section b d with
      | Some b' => sections_transaction rest b'
      | None => None
      end
  end.

(** The loops of the three other build functions put one value per key of
    the dict they run over; their transaction commits when [txn.put]
    accepts every key. *)
Definition keys_accepted {V : Type} (m : gmap string V) : bool :=
  bool_decide (map_Forall (fun key _ => LMDB.valid_key key = true) m).

(** [build_all], up to the chains table, with the refusals of [txn.put]:
    [None] is a build that ends with [lmdb.BadValsizeError]. *)
Definition build_all_transactions (enable : bool) (input : build_input)
    : option builder :=
  let b := new_builder enable in
  let b := load_citation_data (citation_map_file input)
             (complex_chains_file input) (citation_contexts_file input) b in
  match sections_transaction (corpus_file input) b with
  | None => None
  | Some b =>
      if negb (keys_accepted (citation_map b)) then None
      else
        let b := build_citations_database b in
        if negb (keys_accepted (build_reverse_map (citation_map b))) then None
        else
          let b := build_reverse_citations_database b in
          if negb (keys_accepted (chains_map b)) then None
          else Some (build_chains_database b)
  end.

End LMDBBuilder.

(** ** legal_chain_retriever.py *)

Module Retriever.

Import LMDBBuilder.

(** The four tables the retriever opens read-only. *)
Record retriever := {
  r_sections_db : gmap string OhioSectionDict;
  r_citations_db : gmap string CitationDataDict;
  r_chains_db : gmap string CitationChainDict;
  r_reverse_citations_db : gmap string ReverseCitationDataDict
}.

(** The retriever on a directory that holds the four tables a builder
    wrote, the primary table under the name [sections.lmdb] that the
    retriever opens. (The builder of ohio_administration writes that table
    as [primary.lmdb]: the retriever reads its output only once the table
    is found under the retriever's name.) *)
Definition open_tables (b : builder) : retriever :=
  {| r_sections_db := sections_db b;
     r_citations_db := citations_db b;
     r_chains_db := chains_db b;
     r_reverse_citations_db := reverse_citations_db b |}.

Definition get_section (r : retriever) (section_number : string)
    : option OhioSectionDict :=
  r_sections_db r !! section_number.

Definition get_citations (r : retriever) (section_number : string)
    : option CitationDataDict :=
  r_citations_db r !! section_number.

Definition get_reverse_citations (r : retriever) (section_number : string)
    : option ReverseCitationDataDict :=
  r_reverse_citations_db r !! section_number.

Definition get_chain (r : retriever) (section_number : string)
    : option CitationChainDict :=
  r_chains_db r !! section_number.

(** A section snapshot of the bundle ([full_text] and [word_count] are
    absent from the rows of [reverse_citations]). *)
Record snapshot := {
  snap_section : string;
  snap_title : string;
  snap_url : string;
  snap_url_hash : string;
  snap_full_text : option string;
  snap_word_count : option Z
}.

Record source_entry := {
  src_section : string;
  src_url : string;
  src_url_hash : string
}.

Record context := {
  ctx_primary_section : snapshot;
  ctx_paragraph_count : Z;
  direct_citations : list snapshot;
  reverse_citations : list snapshot;
  citation_chain : list ChainSectionDict;
  ctx_chain_depth : option Z;
  total_context_words : Z;
  sources : list source_entry
}.

Definition source_of (section_number : string) (section : OhioSectionDict)
    : source_entry :=
  {| src_section := section_number;
     src_url := url section;
     src_url_hash := url_hash section |}.

(** [for ref_detail in citations.get('references_details', [])]: the
    accumulator is ([direct_citations], [total_context_words], [sources]). *)
Definition add_direct_citation (r : retriever)
    (acc : list snapshot * Z * list source_entry) (ref_detail : ReferenceDetailDict)
    : list snapshot * Z * list source_entry :=
  let '(direct, total, srcs) := acc in
  match get_section r (ref_section ref_detail) with
  | Some ref_section_data =>
      ((direct ++ [ {| snap_section := ref_section ref_detail;
                       snap_title := section_title ref_section_data;
                       snap_url := url ref_section_data;
                       snap_url_hash := url_hash ref_section_data;
                       snap_full_text := Some (full_text ref_section_data);
                       snap_word_count := Some (word_count ref_section_data) |} ])%list,
       total + word_count ref_section_data,
       (srcs ++ [ source_of (ref_section ref_detail) ref_section_data ])%list)
  | None => acc
  end.

(** [for citing_detail in reverse.get('citing_details', [])] *)
Definition add_reverse_citation (r : retriever) (acc : list snapshot)
    (citing_detail : CitingDetailDict) : list snapshot :=
  match get_section r (citing_section citing_detail) with
  | Some citing_data =>
      (acc ++ [ {| snap_section := citing_section citing_detail;
                   snap_title := section_title citing_data;
                   snap_url := url citing_data;
                   snap_url_hash := url_hash citing_data;
                   snap_full_text := None;
                   snap_word_count := None |} ])%list
  | None => acc
  end.

(** [l[:n]] for an integer [n]: a negative [n] counts from the end. *)
Definition slice_to {A : Type} (n : Z) (l : list A) : list A :=
  if 0 <=? n then take (Z.to_nat n) l
  else take (length l - Z.to_nat (- n)) l.

(** [None] is Python's [None] (the section is not in the primary table).
    The lookups are those of keys that LMDB accepts ([LMDB.valid_key]): on
    a refused key [txn.get] raises. *)
Definition get_complete_context (r : retriever) (section_number : string)
    (include_chain include_reverse : bool) (max_chain_depth : Z)
    : option context :=
  match get_section r section_number with
  | None => None
  | Some section =>
      let '(direct, total, srcs) :=
        match get_citations r section_number with
        | Some citations =>
            foldl (add_direct_citation r)
                  ([], word_count section, [source_of section_number section])
                  (references_details citations)
        | None => ([], word_count section, [source_of section_number section])
        end in
      let reverse :=
        if include_reverse then
          match get_reverse_citations r section_number with
          | Some reverse => foldl (add_reverse_citation r) [] (citing_details reverse)
          | None => []
          end
        else [] in
      let '(chain_items, depth, total) :=
        if include_chain then
          match get_chain r section_number with
          | Some chain =>
              let chain_sections := slice_to max_chain_depth (complete_chain chain) in
              (chain_sections,
               Some (Z.of_nat (length chain_sections)),
               foldl (fun t chain_item =>
                        if String.eqb (item_section chain_item) section_number
                        then t else t + item_word_count chain_item)
                     total chain_sections)
          | None => ([], None, total)
          end
        else ([], None, total) in
      Some {| ctx_primary_section :=
                {| snap_section := section_number;
                   snap_title := section_title section;
                   snap_url := url section;
                   snap_url_hash := url_hash section;
                   snap_full_text := Some (full_text section);
                   snap_word_count := Some (word_count section) |};
              ctx_paragraph_count := paragraph_count section;
              direct_citations := direct;
              reverse_citations := reverse;
              citation_chain := chain_items;
              ctx_chain_depth := depth;
              total_context_words := total;
              sources := srcs |}
  end.

(** The keys that [get_complete_context] passes to [txn.get]: the section
    asked about, the sections of the rows of its [references_details] and,
    when reverse citations are asked for, the sections of the rows of its
    [citing_details]. *)
Definition context_lookups (r : retriever) (section_number : string)
    (include_reverse : bool) : list string :=
  section_number
  :: ((ref_section
         <$> from_option references_details [] (get_citations r section_number))
      ++ (if include_reverse
          then citing_section
                 <$> from_option citing_details []
                       (get_reverse_citations r section_number)
          else []))%list.

(** The sums that [total_context_words] accumulates. *)
Definition snapshot_words (snaps : list snapshot) : Z :=
  foldr (fun snap acc => default 0 (snap_word_count snap) + acc) 0 snaps.

Definition chain_words (section_number : string) (items : list ChainSectionDict) : Z :=
  foldr (fun chain_item acc =>
           if String.eqb (item_section chain_item) section_number
           then acc else item_word_count chain_item + acc)
        0 items.

Record related_entry := {
  rel_section : string;
  rel_title : string;
  rel_relationship : string;
  rel_url : string
}.

(** The body of the two loops of [get_related_sections]; the accumulator
    is ([related], [seen]). *)
Definition add_related (r : retriever) (relationship : string)
    (acc : list related_entry * gset string) (ref : string)
    : list related_entry * gset string :=
  let '(related, seen) := acc in
  if bool_decide (ref ∈ seen) then acc
  else
    match get_section r ref with
    | Some section_data =>
        ((related ++ [ {| rel_section := ref;
                          rel_title := section_title section_data;
                          rel_relationship := relationship;
                          rel_url := url section_data |} ])%list,
         {[ ref ]} ∪ seen)
    | None => acc
    end.

Definition get_related_sections (r : retriever) (section_number : string)
    (max_related : Z) : list related_entry :=
  let acc : list related_entry * gset string := ([], {[ section_number ]}) in
  let acc :=
    match get_citations r section_number with
    | Some citations =>
        foldl (add_related r "cited_by_primary") acc
              (slice_to max_related (direct_references citations))
    | None => acc
    end in
  let acc :=
    match get_reverse_citations r section_number with
    | Some reverse =>
        if Z.of_nat (length acc.1) <? max_related
        then foldl (add_related r "cites_primary") acc
                   (slice_to (max_related - Z.of_nat (length acc.1)) (cited_by reverse))
        else acc
    | None => acc
    end in
  slice_to max_related acc.1.

Record search_result := {
  res_section : string;
  res_title : string;
  res_url : string;
  res_relevance : string;
  res_preview : string
}.

(** The loop of [search_sections_by_keyword] over the cursor of the primary
    table; it stops ([break]) once [results] has [max_results] entries,
    a test made after an entry is added. *)
Fixpoint search_cursor (keyword_lower : string) (max_results : Z)
    (entries : list (string * OhioSectionDict)) (results : list search_result)
    : list search_result :=
  match entries with
  | [] => results
  | (_, section_data) :: rest =>
      let title := PyStr.lower (section_title section_data) in
      let text := PyStr.lower (full_text section_data) in
      if PyStr.contains keyword_lower title || PyStr.contains keyword_lower text then
        let results :=
          (results ++ [ {| res_section := section_number section_data;
                           res_title := section_title section_data;
                           res_url := url section_data;
                           res_relevance :=
                             if PyStr.contains keyword_lower title then "title" else "text";
                           res_preview :=
                             PyStr.take 200 (full_text section_data) ++ "..." |} ])%list in
        if max_results <=? Z.of_nat (length results) then results
        else search_cursor keyword_lower max_results rest results
      else search_cursor keyword_lower max_results rest results
  end.

Definition search_sections_by_keyword (r : retriever) (keyword : string)
    (max_results : Z) : list search_result :=
  search_cursor (PyStr.lower keyword) max_results (cursor (r_sections_db r)) [].

Record cited_entry := {
  mc_section : string;
  mc_title : string;
  mc_cited_by_count : Z;
  mc_url : string
}.

(** [citation_counts.sort(key=lambda x: x['cited_by_count'], reverse=True)]:
    descending, entries of equal count in their former order. *)
Fixpoint insert_by_count (x : cited_entry) (l : list cited_entry) : list cited_entry :=
  match l with
  | [] => [x]
  | y :: l' =>
      if mc_cited_by_count x <? mc_cited_by_count y
      then y :: insert_by_count x l'
      else x :: l
  end.

Definition sort_by_count (l : list cited_entry) : list cited_entry :=
  foldr insert_by_count [] l.

Definition get_most_cited_sections (r : retriever) (limit : Z) : list cited_entry :=
  let citation_counts :=
    omap (fun entry =>
            let reverse_data := entry.2 in
            match get_section r (rev_section reverse_data) with
            | Some section_data =>
                Some {| mc_section := rev_section reverse_data;
                        mc_title := section_title section_data;
                        mc_cited_by_count := cited_by_count reverse_data;
                        mc_url := url section_data |}
            | None => None
            end)
         (cursor (r_reverse_citations_db r)) in
  slice_to limit (sort_by_count citation_counts).

End Retriever.

(** ** Scenarios *)

Module Scenario.

Import LMDBBuilder.

(** A rule citing a statute section and another rule (the second scenario
    of the specification). *)
Definition rule_definitions : doc :=
  {| doc_url := "https://codes.ohio.gov/3701-17-01";
     doc_url_hash := "a1b2c3d4e5f60718";
     doc_header := "Rule 3701-17-01|Definitions.";
     doc_paragraphs :=
       ["pursuant to section 121.22 of the Revised Code and rule 3701-17-02"] |}.

Definition two_citations : build_input :=
  {| corpus_file := [rule_definitions];
     citation_map_file := {[ "3701-17-01" := ["121.22"; "3701-17-02"] ]};
     complex_chains_file := [];
     citation_contexts_file := [] |}.

(** A rule without paragraphs. *)
Definition rule_without_text : doc :=
  {| doc_url := "https://codes.ohio.gov/3701-17-02";
     doc_url_hash := "b2c3d4e5f60718a1";
     doc_header := "Rule 3701-17-02|Reserved.";
     doc_paragraphs := [] |}.

(** A rule whose header has no pipe. *)
Definition rule_without_pipe : doc :=
  {| doc_url := "https://codes.ohio.gov/3701-17-03";
     doc_url_hash := "c3d4e5f60718a1b2";
     doc_header := " Rule 3701-17-03 ";
     doc_paragraphs := ["The director shall adopt rules."] |}.

(** A rule that cites nothing and that nothing cites; the mapper records
    it in the citation map with an empty set of references. *)
Definition rule_isolated : doc :=
  {| doc_url := "https://codes.ohio.gov/3701-17-04";
     doc_url_hash := "d4e5f60718a1b2c3";
     doc_header := "Rule 3701-17-04|Reserved.";
     doc_paragraphs := ["This rule is reserved."] |}.

Definition isolated : build_input :=
  {| corpus_file := [rule_isolated];
     citation_map_file := {[ "3701-17-04" := [] ]};
     complex_chains_file := [];
     citation_contexts_file := [] |}.

(** A rule citing a section that is not in the corpus (the sixth scenario
    of the specification). *)
Definition rule_dangling : doc :=
  {| doc_url := "https://codes.ohio.gov/3701-17-05";
     doc_url_hash := "e5f60718a1b2c3d4";
     doc_header := "Rule 3701-17-05|Fees.";
     doc_paragraphs := ["Fees are set under section 9999.99 of the Revised Code."] |}.

Definition dangling : build_input :=
  {| corpus_file := [rule_dangling];
     citation_map_file := {[ "3701-17-05" := ["9999.99"] ]};
     complex_chains_file := [];
     citation_contexts_file := [] |}.

(** The complex chains of an analysis with one chain, rooted at 101.15. *)
Definition complex_chains : list (list string) :=
  [["101.15"; "101.16"; "101.17"; "101.18"]].

(** A directory of tables as the retriever opens it. The primary table
    holds two rules; rule 3701-17-01 cites rule 3701-17-05, which cites
    9999.99, an id that is not in the primary table; the chain of rule
    3701-17-01 has both rules. *)
Definition stored_definitions : OhioSectionDict :=
  {| section_number := "3701-17-01";
     url := "https://codes.ohio.gov/3701-17-01";
     url_hash := "a1b2c3d4e5f60718";
     header := "Rule 3701-17-01|Definitions.";
     section_title := "Definitions.";
     paragraphs := ["As used in rule 3701-17-05 of the Administrative Code:"];
     full_text := "As used in rule 3701-17-05 of the Administrative Code:";
     word_count := 9;
     paragraph_count := 1;
     has_citations := true;
     citation_count := 1;
     in_complex_chain := true;
     is_clickable := true;
     enrichment := None |}.

Definition stored_fees : OhioSectionDict :=
  {| section_number := "3701-17-05";
     url := "https://codes.ohio.gov/3701-17-05";
     url_hash := "e5f60718a1b2c3d4";
     header := "Rule 3701-17-05|Fees.";
     section_title := "Fees.";
     paragraphs := ["Fees are set under section 9999.99 of the Revised Code."];
     full_text := "Fees are set under section 9999.99 of the Revised Code.";
     word_count := 10;
     paragraph_count := 1;
     has_citations := true;
     citation_count := 1;
     in_complex_chain := false;
     is_clickable := true;
     enrichment := None |}.

Definition store : Retriever.retriever :=
  {| Retriever.r_sections_db :=
       {[ "3701-17-01" := stored_definitions; "3701-17-05" := stored_fees ]};
     Retriever.r_citations_db :=
       {[ "3701-17-01" :=
            {| cit_section := "3701-17-01";
               direct_references := ["3701-17-05"];
               reference_count := 1;
               references_details :=
                 [ {| ref_section := "3701-17-05";
                      ref_title := "Fees.";
                      ref_url := "https://codes.ohio.gov/3701-17-05";
                      ref_url_hash := "e5f60718a1b2c3d4";
                      ref_relationship := "cross_reference";
                      ref_context := "";
                      ref_position := 0 |} ] |};
          "3701-17-05" :=
            {| cit_section := "3701-17-05";
               direct_references := ["9999.99"];
               reference_count := 1;
               references_details :=
                 [ {| ref_section := "9999.99";
                      ref_title := "";
                      ref_url := "";
                      ref_url_hash := "";
                      ref_relationship := "cross_reference";
                      ref_context := "";
                      ref_position := 0 |} ] |} ]};
     Retriever.r_chains_db :=
       {[ "3701-17-01" :=
            {| chain_id := "3701-17-01";
               primary_section := "3701-17-01";
               chain_sections := ["3701-17-01"; "3701-17-05"];
               chain_depth := 2;
               references_count := 2;
               complete_chain :=
                 [ {| item_section := "3701-17-01";
                      item_title := "Definitions.";
                      item_url := "https://codes.ohio.gov/3701-17-01";
                      item_url_hash := "a1b2c3d4e5f60718";
                      item_full_text :=
                        "As used in rule 3701-17-05 of the Administrative Code:";
                      item_word_count := 9 |};
                   {| item_section := "3701-17-05";
                      item_title := "Fees.";
                      item_url := "https://codes.ohio.gov/3701-17-05";
                      item_url_hash := "e5f60718a1b2c3d4";
                      item_full_text :=
                        "Fees are set under section 9999.99 of the Revised Code.";
                      item_word_count := 10 |} ] |} ]};
     Retriever.r_reverse_citations_db :=
       {[ "3701-17-05" :=
            {| rev_section := "3701-17-05";
               cited_by := ["3701-17-01"];
               cited_by_count := 1;
               citing_details :=
                 [ {| citing_section := "3701-17-01";
                      citing_title := "Definitions.";
                      citing_url := "https://codes.ohio.gov/3701-17-01" |} ] |};
          "9999.99" :=
            {| rev_section := "9999.99";
               cited_by := ["3701-17-05"];
               cited_by_count := 1;
               citing_details :=
                 [ {| citing_section := "3701-17-05";
                      citing_title := "Fees.";
                      citing_url := "https://codes.ohio.gov/3701-17-05" |} ] |} ]} |}.

(** A section of the Revised Code. *)
Definition section_theft : doc :=
  {| doc_url := "https://codes.ohio.gov/2913.02";
     doc_url_hash := "f60718a1b2c3d4e5";
     doc_header := "Section 2913.02|Theft";
     doc_paragraphs := ["No person shall deprive the owner of property."] |}.

(** A citation map of three sections, given by its items. *)
Definition small_map : list (string * list string) :=
  [("101.15", ["101.16"; "101.17"]); ("101.16", ["101.17"]); ("101.17", [])].

(** Three rules that cite one another, one reference to a section outside
    the corpus, and a chains file whose chain is named by its primary
    section. *)
Definition cross_cited : build_input :=
  {| corpus_file := [rule_definitions; rule_without_text; rule_dangling];
     citation_map_file :=
       {[ "3701-17-01" := ["121.22"; "3701-17-02"];
          "3701-17-02" := ["3701-17-01"];
          "3701-17-05" := ["9999.99"; "3701-17-01"] ]};
     complex_chains_file :=
       [ {| line_chain_id := "3701-17-01";
            line_primary_section := "3701-17-01";
            line_chain_sections := ["3701-17-01"; "3701-17-02"; "3701-17-05"];
            line_estimated_complexity := Some 3 |} ];
     citation_contexts_file := [] |}.

(** A corpus of three lines, one of them without a pipe in its header. *)
Definition with_skipped_line : LMDBBuilder.build_input :=
  {| LMDBBuilder.corpus_file := [rule_definitions; rule_without_pipe; rule_without_text];
     LMDBBuilder.citation_map_file := {[ "3701-17-01" := ["121.22"; "3701-17-02"] ]};
     LMDBBuilder.complex_chains_file := [];
     LMDBBuilder.citation_contexts_file := [] |}.

(** The input of a build that loads the chains file [save_results] writes
    for [complex_chains], and nothing else. *)
Definition chains_only : LMDBBuilder.build_input :=
  {| LMDBBuilder.corpus_file := [];
     LMDBBuilder.citation_map_file := ∅;
     LMDBBuilder.complex_chains_file :=
       LMDBBuilder.read_chain_line
         <$> [ {| CitationMapper.chain_id := "complex_0";
                  CitationMapper.primary_section := "101.15";
                  CitationMapper.chain_sections :=
                    ["101.15"; "101.16"; "101.17"; "101.18"];
                  CitationMapper.estimated_complexity := 4 |} ];
     LMDBBuilder.citation_contexts_file := [] |}.

End Scenario.

(** * Properties *)

(** Splits the conjunctions of a goal, leaving every other goal as it is,
    and closes closed goals by evaluation. *)
Ltac split_ands := repeat match goal with |- _ /\ _ => split end.
Ltac by_evaluation := cbv zeta; split_ands; vm_compute; reflexivity.

(** ** Substring search *)

Lemma startswith_app p q s :
  PyStr.startswith (p ++ q) s = true ->
  exists s', s = (p ++ s')%string /\ PyStr.startswith q s' = true.
Proof.
  revert s; induction p as [|a p IH]; intros s H; simpl in *.
  - exists s; auto.
  - destruct s as [|b s]; [discriminate|].
    apply andb_true_iff in H as [Hab Hp].
    apply Ascii.eqb_eq in Hab; subst b.
    destruct (IH _ Hp) as (s' & -> & Hq).
    exists s'; auto.
Qed.

Lemma contains_skip p s s' :
  PyStr.contains p s' = true -> PyStr.contains p (s ++ s') = true.
Proof.
  intros H; induction s as [|c s IH]; simpl; [exact H|].
  fold (PyStr.contains p (s ++ s')). rewrite IH. apply orb_true_r.
Qed.

Lemma contains_suffix p q s :
  PyStr.contains (p ++ q) s = true -> PyStr.contains q s = true.
Proof.
  induction s as [|c s IH]; intros H.
  - destruct p, q; cbn in *; try discriminate; reflexivity.
  - cbn [PyStr.contains] in H. apply orb_true_iff in H as [H|H].
    + destruct (startswith_app _ _ _ H) as (s' & Hs & Hq).
      rewrite Hs. apply contains_skip.
      destruct s'; simpl; rewrite Hq; reflexivity.
    + cbn [PyStr.contains]. rewrite (IH H). apply orb_true_r.
Qed.

Lemma lower_app s t : PyStr.lower (s ++ t) = (PyStr.lower s ++ PyStr.lower t)%string.
Proof. induction s as [|c s IH]; simpl; [reflexivity|now rewrite IH]. Qed.

Lemma minor_implies_misdemeanor text :
  PyStr.re_search_ignorecase "minor misdemeanor" text = true ->
  PyStr.re_search_ignorecase "misdemeanor" text = true.
Proof.
  unfold PyStr.re_search_ignorecase.
  change "minor misdemeanor" with ("minor " ++ "misdemeanor")%string.
  rewrite lower_app. apply contains_suffix.
Qed.

(** ** The enricher *)

(** [_calculate_complexity] is the formula of the specification, and its
    value lies between 1 and 10. *)
Lemma calculate_complexity_spec (w p c : Z) :
  Enricher._calculate_complexity w p c = Enricher.complexity_formula w p c
  /\ 1 <= Enricher._calculate_complexity w p c <= 10.
Proof.
  unfold Enricher._calculate_complexity, Enricher.complexity_formula,
    Enricher.word_adjustment, Enricher.paragraph_adjustment,
    Enricher.citation_adjustment, Enricher.clamp.
  rewrite !Z.gtb_ltb.
  repeat match goal with
         | |- context [?a <? ?b] => destruct (Z.ltb_spec a b)
         | |- context [?a =? ?b] => destruct (Z.eqb_spec a b)
         end; lia.
Qed.

(** C10: [_extract_offense_level] never returns [minor_misdemeanor]: a text
    in which [minor misdemeanor] is found also has [misdemeanor], which is
    tested first, so such a text is classified [misdemeanor], or [felony]
    when that word is found too. *)
Theorem offense_level_never_minor (text : string) :
  Enricher._extract_offense_level text <> Some "minor_misdemeanor"
  /\ (PyStr.re_search_ignorecase "minor misdemeanor" text = true ->
      (PyStr.re_search_ignorecase "felony" text = true
       /\ Enricher._extract_offense_level text = Some "felony")
      \/ (PyStr.re_search_ignorecase "felony" text = false
          /\ Enricher._extract_offense_level text = Some "misdemeanor")).
Proof.
  unfold Enricher._extract_offense_level.
  destruct (PyStr.re_search_ignorecase "felony" text) eqn:Hf.
  - split; [discriminate | intros _; left; split; reflexivity].
  - destruct (PyStr.re_search_ignorecase "misdemeanor" text) eqn:Hm.
    + split; [discriminate | intros _; right; split; reflexivity].
    + split.
      * destruct (PyStr.re_search_ignorecase "minor misdemeanor" text) eqn:Hmm;
          [|discriminate].
        apply minor_implies_misdemeanor in Hmm. congruence.
      * intros Hmm. apply minor_implies_misdemeanor in Hmm. congruence.
Qed.

Lemma offense_level_never_minor_witness :
  PyStr.re_search_ignorecase "minor misdemeanor"
    "whoever violates this section is guilty of a Minor Misdemeanor." = true
  /\ Enricher._extract_offense_level
       "whoever violates this section is guilty of a Minor Misdemeanor."
     = Some "misdemeanor".
Proof.
  split; [reflexivity|].
  destruct (proj2 (offense_level_never_minor
                     "whoever violates this section is guilty of a Minor Misdemeanor.")
                  eq_refl) as [[Hf _]|[_ H]].
  - discriminate Hf.
  - exact H.
Defined.

(** ** Chain records *)

(** Every chain line that [save_results] writes is named after its index
    in [analysis.complex_chains], not after a section. *)
Lemma complex_chain_lines_chain_id complex_chains : forall i lines,
  CitationMapper.complex_chain_lines i complex_chains = Some lines ->
  forall k line, lines !! k = Some line ->
    CitationMapper.chain_id line = "complex_" ++ PyStr.of_nat (i + k)
    /\ head (CitationMapper.chain_sections line)
       = Some (CitationMapper.primary_section line).
Proof.
  induction complex_chains as [|chain rest IH]; intros i lines H k line Hk.
  - injection H as <-. destruct k; discriminate.
  - cbn [CitationMapper.complex_chain_lines] in H.
    destruct chain as [|first tl]; [discriminate|].
    destruct (CitationMapper.complex_chain_lines (S i) rest) as [lines'|] eqn:E;
      [|discriminate].
    injection H as <-. destruct k as [|k].
    + injection Hk as <-. cbn. rewrite Nat.add_0_r. auto.
    + cbn in Hk. destruct (IH _ _ E _ _ Hk) as [Hid Hhd].
      rewrite Hid. replace (S i + k)%nat with (i + S k)%nat by lia. auto.
Qed.

(** C1: for the complex chain rooted at section 101.15, the record written
    to the chains table has [chain_id] [complex_0], while its primary
    section, [chain_sections[0]], is 101.15; the table has no key 101.15,
    so [get_chain] on the section id finds nothing. *)
Theorem chain_id_is_not_primary_section :
  exists line record,
    CitationMapper.complex_chain_lines 0 Scenario.complex_chains = Some [line]
    /\ map_to_list
         (LMDBBuilder.chains_db
            (LMDBBuilder.build_chains_database
               (LMDBBuilder.load_citation_data ∅
                  [LMDBBuilder.read_chain_line line] []
                  (LMDBBuilder.new_builder true))))
       = [("complex_0", record)]
    /\ LMDBBuilder.chain_id record = "complex_0"
    /\ LMDBBuilder.primary_section record = "101.15"
    /\ head (LMDBBuilder.chain_sections record) = Some "101.15"
    /\ Retriever.get_chain
         (Retriever.open_tables
            (LMDBBuilder.build_chains_database
               (LMDBBuilder.load_citation_data ∅
                  [LMDBBuilder.read_chain_line line] []
                  (LMDBBuilder.new_builder true))))
         "101.15"
       = None.
Proof.
  do 2 eexists. split; [vm_compute; reflexivity|].
  split; [vm_compute; reflexivity|].
  split_ands; vm_compute; reflexivity.
Qed.

(** ** Sections with an empty body or a header without a pipe *)

(** C6, as stated, fails: a record with an empty [paragraphs] array and
    a well-formed header is stored (the write transaction commits) with
    [word_count = 0], but its complexity is 3, not the minimum of the
    scale. *)
Lemma empty_paragraphs_complexity_counterexample :
  exists section e,
    LMDBBuilder.sections_transaction [Scenario.rule_without_text]
      (LMDBBuilder.new_builder true)
    = Some (LMDBBuilder.build_sections_database [Scenario.rule_without_text]
              (LMDBBuilder.new_builder true))
    /\ LMDBBuilder.sections_db
         (LMDBBuilder.build_sections_database [Scenario.rule_without_text]
            (LMDBBuilder.new_builder true))
       !! "3701-17-02" = Some section
    /\ LMDBBuilder.paragraphs section = []
    /\ LMDBBuilder.word_count section = 0
    /\ LMDBBuilder.enrichment section = Some e
    /\ Enricher.complexity e = 3
    /\ Enricher.complexity e <> 1.
Proof.
  do 2 eexists. split; [vm_compute; reflexivity|]. split; [vm_compute; reflexivity|].
  split_ands; [vm_compute; reflexivity .. | vm_compute; discriminate].
Qed.

Lemma count_words_nil : LMDBBuilder.count_words [] = 0.
Proof. reflexivity. Qed.

Lemma calculate_complexity_empty (c : Z) :
  Enricher._calculate_complexity 0 (Z.of_nat 0) c = 4 + Enricher.citation_adjustment c
  /\ 3 <= Enricher._calculate_complexity 0 (Z.of_nat 0) c <= 6
  /\ (c = 0 -> Enricher._calculate_complexity 0 (Z.of_nat 0) c = 3).
Proof.
  unfold Enricher._calculate_complexity, Enricher.citation_adjustment.
  cbn [Z.of_nat]. change (0 >? 1000) with false. change (0 >? 500) with false.
  change (0 <? 100) with true. change (0 >? 15) with false.
  change (0 >? 10) with false. cbv iota. rewrite !Z.gtb_ltb.
  repeat match goal with
         | |- context [?a <? ?b] => destruct (Z.ltb_spec a b)
         | |- context [?a =? ?b] => destruct (Z.eqb_spec a b)
         end; lia.
Qed.

(** C6, amended: a record with an empty [paragraphs] array whose header is
    otherwise well formed (it has a pipe, and the section number read
    before the pipe is a key LMDB accepts: not empty and at most 511
    bytes) is accepted by [txn.put] and stored in the primary table under
    that section number with [word_count = 0]; with enrichment enabled its
    complexity is 4 plus the citation adjustment, hence between 3 and 6,
    and 3 when the section has no forward citation. *)
Theorem empty_paragraphs_stored_complexity (b : LMDBBuilder.builder) (d : LMDBBuilder.doc) :
  PyStr.contains "|" (LMDBBuilder.doc_header d) = true ->
  LMDB.valid_key (LMDBBuilder.section_key d) = true ->
  LMDBBuilder.doc_paragraphs d = [] ->
  LMDBBuilder.enable_enrichment b = true ->
  let section := LMDBBuilder.make_section b d in
  LMDBBuilder.put_section b d = Some (LMDBBuilder.store_section b d)
  /\ LMDBBuilder.section_number section = LMDBBuilder.section_key d
  /\ LMDBBuilder.sections_db (LMDBBuilder.store_section b d)
       !! LMDBBuilder.section_key d = Some section
  /\ LMDBBuilder.word_count section = 0
  /\ exists e,
       LMDBBuilder.enrichment section = Some e
       /\ Enricher.complexity e
          = 4 + Enricher.citation_adjustment (LMDBBuilder.citation_count section)
       /\ 3 <= Enricher.complexity e <= 6
       /\ (LMDBBuilder.citation_count section = 0 -> Enricher.complexity e = 3).
Proof.
  intros Hpipe Hkey Hpar Hen section.
  split; [|split; [reflexivity|split; [|split]]].
  - unfold LMDBBuilder.put_section. rewrite Hpipe. cbn [negb].
    change (LMDBBuilder.section_number (LMDBBuilder.make_section b d))
      with (LMDBBuilder.section_key d).
    rewrite Hkey. reflexivity.
  - unfold LMDBBuilder.store_section. rewrite Hpipe. cbn [negb LMDBBuilder.sections_db].
    apply lookup_insert_eq.
  - subst section. unfold LMDBBuilder.make_section. cbn [LMDBBuilder.word_count].
    rewrite Hpar. reflexivity.
  - subst section. unfold LMDBBuilder.make_section.
    cbn [LMDBBuilder.enrichment LMDBBuilder.citation_count].
    rewrite Hen, Hpar. eexists. split; [reflexivity|].
    cbn [Enricher.enrich_section Enricher.complexity length].
    rewrite count_words_nil.
    apply calculate_complexity_empty.
Qed.

Lemma empty_paragraphs_stored_complexity_witness :
  LMDBBuilder.put_section (LMDBBuilder.new_builder true) Scenario.rule_without_text
  = Some (LMDBBuilder.store_section (LMDBBuilder.new_builder true)
            Scenario.rule_without_text)
  /\ LMDBBuilder.word_count
       (LMDBBuilder.make_section (LMDBBuilder.new_builder true) Scenario.rule_without_text)
     = 0
  /\ exists e,
       LMDBBuilder.enrichment
         (LMDBBuilder.make_section (LMDBBuilder.new_builder true)
            Scenario.rule_without_text)
       = Some e
       /\ Enricher.complexity e = 3.
Proof.
  destruct (empty_paragraphs_stored_complexity
              (LMDBBuilder.new_builder true) Scenario.rule_without_text
              eq_refl eq_refl eq_refl eq_refl)
    as (Hput & _ & _ & Hw & e & He & _ & _ & H0).
  split; [exact Hput|]. split; [exact Hw|]. exists e. split; [exact He|]. apply H0. reflexivity.
Defined.

(** C7, as stated, fails: a record whose header has no pipe is not stored;
    the primary table stays empty. *)
Lemma header_without_pipe_counterexample :
  PyStr.contains "|" (LMDBBuilder.doc_header Scenario.rule_without_pipe) = false
  /\ LMDBBuilder.sections_db
       (LMDBBuilder.build_sections_database [Scenario.rule_without_pipe]
          (LMDBBuilder.new_builder true))
     = ∅.
Proof. by_evaluation. Qed.

(** C7, amended: a record whose header has no pipe is skipped by
    [build_sections_database] (the builder is left as it was, nothing is
    stored); the enricher's summary of such a header is the whole header
    with the surrounding white space stripped. *)
Theorem header_without_pipe_skipped (b : LMDBBuilder.builder) (d : LMDBBuilder.doc) :
  PyStr.contains "|" (LMDBBuilder.doc_header d) = false ->
  LMDBBuilder.store_section b d = b
  /\ LMDBBuilder.build_sections_database [d] b = b
  /\ Enricher._generate_summary (LMDBBuilder.doc_header d)
     = PyStr.strip (LMDBBuilder.doc_header d).
Proof.
  intros H. unfold LMDBBuilder.build_sections_database. cbn [foldl].
  unfold LMDBBuilder.store_section, Enricher._generate_summary.
  rewrite H. auto.
Qed.

Lemma header_without_pipe_skipped_witness :
  LMDBBuilder.store_section (LMDBBuilder.new_builder true) Scenario.rule_without_pipe
  = LMDBBuilder.new_builder true
  /\ LMDBBuilder.build_sections_database [Scenario.rule_without_pipe]
       (LMDBBuilder.new_builder true)
     = LMDBBuilder.new_builder true
  /\ Enricher._generate_summary (LMDBBuilder.doc_header Scenario.rule_without_pipe)
     = PyStr.strip (LMDBBuilder.doc_header Scenario.rule_without_pipe).
Proof.
  exact (header_without_pipe_skipped
           (LMDBBuilder.new_builder true) Scenario.rule_without_pipe eq_refl).
Defined.

(** ** Chain construction *)

Lemma enqueue_refs_length cm vis refs q :
  (length (CitationMapper.enqueue_refs cm vis refs q) <= length q + 3)%nat.
Proof.
  unfold CitationMapper.enqueue_refs.
  assert (Hgen : forall l q0,
    (length (foldl (fun q1 ref =>
               if bool_decide (ref ∉ vis) && bool_decide (is_Some (cm !! ref))
               then (q1 ++ [ref])%list else q1) q0 l) <= length q0 + length l)%nat).
  { induction l as [|r l IH]; intros q0; cbn [foldl length]; [lia|].
    etransitivity; [apply IH|].
    destruct (_ && _); [rewrite length_app; cbn [length]|]; lia. }
  etransitivity; [apply Hgen|].
  rewrite length_take. lia.
Qed.

Lemma chain_step_measure cm max_size st st' :
  CitationMapper.chain_step cm max_size st = Some st' ->
  (CitationMapper.chain_measure max_size st' < CitationMapper.chain_measure max_size st)%nat.
Proof.
  unfold CitationMapper.chain_step, CitationMapper.chain_measure.
  destruct (CitationMapper.queue st) as [|current rest] eqn:Hq; [discriminate|].
  destruct (Z.ltb_spec (Z.of_nat (length (CitationMapper.chain st))) max_size) as [Hlt|];
    [|discriminate].
  destruct (bool_decide _); intros [= <-]; cbn [CitationMapper.queue CitationMapper.chain length].
  - lia.
  - rewrite length_app. cbn [length].
    pose proof (enqueue_refs_length cm
      ({[current]} ∪ CitationMapper.visited st)
      (default [] (cm !! current)) rest).
    lia.
Qed.

Lemma chain_loop_terminates cm max_size : forall fuel st,
  (CitationMapper.chain_measure max_size st <= fuel)%nat ->
  exists final,
    CitationMapper.chain_loop cm max_size fuel st = Some final
    /\ CitationMapper.chain_step cm max_size final = None.
Proof.
  induction fuel as [|fuel IH]; intros st Hm; cbn [CitationMapper.chain_loop];
    destruct (CitationMapper.chain_step cm max_size st) as [st'|] eqn:Hs;
    try (exists st; auto; fail);
    pose proof (chain_step_measure _ _ _ _ Hs); [lia|].
  apply IH. lia.
Qed.

Lemma chain_step_invariant cm max_size st st' :
  CitationMapper.chain_invariant st ->
  CitationMapper.chain_step cm max_size st = Some st' ->
  CitationMapper.chain_invariant st'.
Proof.
  intros [Hnd Hvis]. unfold CitationMapper.chain_step.
  destruct (CitationMapper.queue st) as [|current rest]; [discriminate|].
  destruct (_ <? _); [|discriminate].
  destruct (bool_decide_reflect (current ∈ CitationMapper.visited st)) as [Hin|Hnin];
    intros [= <-]; split; cbn [CitationMapper.chain CitationMapper.visited]; auto.
  - apply NoDup_app. split; [exact Hnd|]. split; [|apply NoDup_singleton].
    intros x Hx ->%list_elem_of_singleton. apply Hnin, Hvis, Hx.
  - intros x. rewrite elem_of_app, list_elem_of_singleton, elem_of_union,
      elem_of_singleton, Hvis. tauto.
Qed.

Lemma chain_loop_invariant cm max_size : forall fuel st final,
  CitationMapper.chain_invariant st ->
  CitationMapper.chain_loop cm max_size fuel st = Some final ->
  CitationMapper.chain_invariant final.
Proof.
  induction fuel as [|fuel IH]; intros st final Hinv; cbn [CitationMapper.chain_loop];
    destruct (CitationMapper.chain_step cm max_size st) as [st'|] eqn:Hs;
    try discriminate; try (intros [= <-]; exact Hinv).
  apply IH. eapply chain_step_invariant; eauto.
Qed.

(** C8: chain construction returns a chain for every start section, forward
    map and size cap (the loop ends), no id appears twice in it, and on the
    forward map of the scenario with [max_size = 8] (the expansion limit of
    three references per node is the code's constant) the chain of A is
    A, B, C, D, E, F, G, H, in breadth-first order. *)
Theorem build_reference_chain_bfs :
  (forall start_section citation_map max_size,
      exists chain,
        CitationMapper._build_reference_chain start_section citation_map max_size
          = Some chain
        /\ NoDup chain)
  /\ CitationMapper._build_reference_chain "A" CitationMapper.scenario_forward_map 8
     = Some ["A"; "B"; "C"; "D"; "E"; "F"; "G"; "H"].
Proof.
  split; [|vm_compute; reflexivity].
  intros start cm max_size. unfold CitationMapper._build_reference_chain.
  set (init := {| CitationMapper.queue := [start];
                  CitationMapper.visited := ∅;
                  CitationMapper.chain := [] |}).
  destruct (chain_loop_terminates cm max_size
              (CitationMapper.chain_fuel max_size) init) as (final & Hrun & _).
  { unfold CitationMapper.chain_measure, CitationMapper.chain_fuel. cbn. lia. }
  rewrite Hrun. exists (CitationMapper.chain final). split; [reflexivity|].
  apply (chain_loop_invariant cm max_size (CitationMapper.chain_fuel max_size) init final);
    [|exact Hrun].
  split; [apply NoDup_nil_2|]. intros x. cbn. rewrite elem_of_nil. set_solver.
Qed.

(** ** Loops over the entries of a dict *)

Lemma foldl_put_lookup {V W : Type} (f : string -> V -> W) (k : string) :
  forall (l : list (string * V)) (db : gmap string W),
    NoDup l.*1 ->
    (forall v, (k, v) ∈ l ->
       foldl (fun acc kv => <[ kv.1 := f kv.1 kv.2 ]> acc) db l !! k = Some (f k v))
    /\ (k ∉ l.*1 ->
        foldl (fun acc kv => <[ kv.1 := f kv.1 kv.2 ]> acc) db l !! k = db !! k).
Proof.
  induction l as [|[k' v'] l IH]; intros db Hnd; cbn [foldl fmap list_fmap fst snd].
  - split; [intros v Hv; inversion Hv | reflexivity].
  - apply NoDup_cons in Hnd as [Hk' Hnd].
    destruct (IH (<[ k' := f k' v' ]> db) Hnd) as [IH1 IH2]. split.
    + intros v [Heq|Hin]%elem_of_cons.
      * injection Heq as <- <-. rewrite IH2 by exact Hk'. apply lookup_insert_eq.
      * apply IH1, Hin.
    + intros Hk. apply not_elem_of_cons in Hk as [Hne Hk].
      rewrite IH2 by exact Hk. apply lookup_insert_ne. congruence.
Qed.

Lemma for_items_put_lookup {V W : Type} (d : gmap string V) (f : string -> V -> W)
    (db : gmap string W) (k : string) :
  LMDBBuilder.for_items d (fun acc key v => <[ key := f key v ]> acc) db !! k
  = match d !! k with
    | Some v => Some (f k v)
    | None => db !! k
    end.
Proof.
  unfold LMDBBuilder.for_items.
  destruct (foldl_put_lookup f k (map_to_list d) db (NoDup_fst_map_to_list d))
    as [H1 H2].
  destruct (d !! k) as [v|] eqn:E.
  - apply H1. apply elem_of_map_to_list, E.
  - apply H2. intros [[k0 v0] [Hk Hin]]%list_elem_of_fmap. cbn in Hk. subst k0.
    apply elem_of_map_to_list in Hin. congruence.
Qed.

(** ** The reverse map *)

Lemma add_citing_fold_spec (section : string) : forall (refs : list string)
    (m : gmap string (gset string)) (s t : string),
  s ∈ default ∅ (foldl (LMDBBuilder.add_citing section) m refs !! t)
  <-> s ∈ default ∅ (m !! t) \/ (s = section /\ t ∈ refs).
Proof.
  induction refs as [|r refs IH]; intros m s t; cbn [foldl].
  - rewrite elem_of_nil. tauto.
  - rewrite IH. unfold LMDBBuilder.add_citing at 1. rewrite elem_of_cons.
    destruct (decide (r = t)) as [->|Hne].
    + rewrite lookup_insert_eq. simpl. rewrite elem_of_union, elem_of_singleton.
      tauto.
    + rewrite lookup_insert_ne by exact Hne. intuition congruence.
Qed.

Lemma add_citing_fold_some (section : string) : forall (refs : list string)
    (m : gmap string (gset string)) (t : string),
  is_Some (foldl (LMDBBuilder.add_citing section) m refs !! t)
  <-> is_Some (m !! t) \/ t ∈ refs.
Proof.
  induction refs as [|r refs IH]; intros m t; cbn [foldl].
  - rewrite elem_of_nil. tauto.
  - rewrite IH. unfold LMDBBuilder.add_citing at 1. rewrite elem_of_cons.
    destruct (decide (r = t)) as [->|Hne].
    + rewrite lookup_insert_eq. intuition eauto.
    + rewrite lookup_insert_ne by exact Hne. intuition congruence.
Qed.

Lemma reverse_fold_spec : forall (l : list (string * list string))
    (m : gmap string (gset string)) (s t : string),
  s ∈ default ∅
        (foldl (fun acc kv => foldl (LMDBBuilder.add_citing kv.1) acc kv.2) m l !! t)
  <-> s ∈ default ∅ (m !! t) \/ exists refs, (s, refs) ∈ l /\ t ∈ refs.
Proof.
  induction l as [|[sec refs] l IH]; intros m s t; cbn [foldl fst snd].
  - split; [auto|]. intros [H|(refs & Hin & _)]; [exact H|inversion Hin].
  - rewrite IH, add_citing_fold_spec. split.
    + intros [[H|[-> H]]|(refs' & Hin & Ht)]; [auto| |].
      * right. exists refs. split; [apply list_elem_of_here|exact H].
      * right. exists refs'. split; [apply list_elem_of_further, Hin|exact Ht].
    + intros [H|(refs' & [Heq|Hin]%elem_of_cons & Ht)]; [auto| |].
      * injection Heq as -> ->. auto.
      * right. eauto.
Qed.

Lemma reverse_fold_some : forall (l : list (string * list string))
    (m : gmap string (gset string)) (t : string),
  is_Some (foldl (fun acc kv => foldl (LMDBBuilder.add_citing kv.1) acc kv.2) m l !! t)
  <-> is_Some (m !! t) \/ exists s refs, (s, refs) ∈ l /\ t ∈ refs.
Proof.
  induction l as [|[sec refs] l IH]; intros m t; cbn [foldl fst snd].
  - split; [auto|]. intros [H|(s & refs & Hin & _)]; [exact H|inversion Hin].
  - rewrite IH, add_citing_fold_some. split.
    + intros [[H|H]|(s & refs' & Hin & Ht)]; [auto| |].
      * right. exists sec, refs. split; [apply list_elem_of_here|exact H].
      * right. exists s, refs'. split; [apply list_elem_of_further, Hin|exact Ht].
    + intros [H|(s & refs' & [Heq|Hin]%elem_of_cons & Ht)]; [auto| |].
      * injection Heq as -> ->. auto.
      * right. eauto.
Qed.

Lemma build_reverse_map_spec (cm : gmap string (list string)) (s t : string) :
  s ∈ default ∅ (LMDBBuilder.build_reverse_map cm !! t)
  <-> exists refs, cm !! s = Some refs /\ t ∈ refs.
Proof.
  unfold LMDBBuilder.build_reverse_map, LMDBBuilder.for_items.
  rewrite reverse_fold_spec, lookup_empty. simpl. split.
  - intros [H|(refs & Hin & Ht)]; [set_solver|].
    exists refs. split; [apply elem_of_map_to_list, Hin|exact Ht].
  - intros (refs & Hs & Ht). right. exists refs.
    split; [apply elem_of_map_to_list, Hs|exact Ht].
Qed.

Lemma build_reverse_map_some (cm : gmap string (list string)) (t : string) :
  is_Some (LMDBBuilder.build_reverse_map cm !! t)
  <-> exists s refs, cm !! s = Some refs /\ t ∈ refs.
Proof.
  unfold LMDBBuilder.build_reverse_map, LMDBBuilder.for_items.
  rewrite reverse_fold_some, lookup_empty. split.
  - intros [[x H]|(s & refs & Hin & Ht)]; [discriminate|].
    exists s, refs. split; [apply elem_of_map_to_list, Hin|exact Ht].
  - intros (s & refs & Hs & Ht). right. exists s, refs.
    split; [apply elem_of_map_to_list, Hs|exact Ht].
Qed.

Lemma sorted_elem (l : list string) (x : string) : x ∈ LMDBBuilder.sorted l <-> x ∈ l.
Proof. unfold LMDBBuilder.sorted. now rewrite merge_sort_Permutation. Qed.

(** ** The tables after a build *)

Lemma store_section_same_inputs b d :
  LMDBBuilder.same_inputs (LMDBBuilder.store_section b d) b.
Proof.
  unfold LMDBBuilder.store_section, LMDBBuilder.same_inputs.
  destruct (negb _); cbn; repeat split; reflexivity.
Qed.

Lemma make_section_same_inputs b b' d :
  LMDBBuilder.same_inputs b b' ->
  LMDBBuilder.make_section b d = LMDBBuilder.make_section b' d.
Proof.
  intros (Hcm & Hrm & Hch & _ & Hen & _). unfold LMDBBuilder.make_section.
  rewrite Hcm, Hrm, Hch, Hen. reflexivity.
Qed.

(** After [build_sections_database], the primary table and the in-memory
    [sections_data] agree, and every stored section is the record made for
    some corpus line, stored under its section number. *)
Lemma build_sections_database_spec b0 : forall corpus b,
  LMDBBuilder.same_inputs b b0 ->
  LMDBBuilder.sections_data b = LMDBBuilder.sections_db b ->
  (forall id section, LMDBBuilder.sections_db b !! id = Some section ->
     exists d, section = LMDBBuilder.make_section b0 d
               /\ LMDBBuilder.section_number section = id) ->
  LMDBBuilder.same_inputs (LMDBBuilder.build_sections_database corpus b) b0
  /\ LMDBBuilder.sections_data (LMDBBuilder.build_sections_database corpus b)
     = LMDBBuilder.sections_db (LMDBBuilder.build_sections_database corpus b)
  /\ (forall id section,
        LMDBBuilder.sections_db (LMDBBuilder.build_sections_database corpus b) !! id
          = Some section ->
        exists d, section = LMDBBuilder.make_section b0 d
                  /\ LMDBBuilder.section_number section = id).
Proof.
  unfold LMDBBuilder.build_sections_database.
  induction corpus as [|d corpus IH]; intros b Hsame Hdata Hsec; cbn [foldl].
  - auto.
  - apply IH.
    + pose proof (store_section_same_inputs b d) as H.
      unfold LMDBBuilder.same_inputs in *. intuition congruence.
    + unfold LMDBBuilder.store_section. destruct (negb _); [exact Hdata|].
      cbn. now rewrite Hdata.
    + intros id section. unfold LMDBBuilder.store_section.
      destruct (negb _); [apply Hsec|]. cbn [LMDBBuilder.sections_db].
      destruct (decide (LMDBBuilder.section_number (LMDBBuilder.make_section b d) = id))
        as [Heq|Hne].
      * rewrite <- Heq, lookup_insert_eq. intros [= <-].
        exists d. split; [apply make_section_same_inputs, Hsame|reflexivity].
      * rewrite lookup_insert_ne by exact Hne. apply Hsec.
Qed.

Lemma loaded_builder_sections enable cm chains ctxs corpus :
  let b1 := LMDBBuilder.load_citation_data cm chains ctxs (LMDBBuilder.new_builder enable) in
  let b2 := LMDBBuilder.build_sections_database corpus b1 in
  LMDBBuilder.citation_map b2 = cm
  /\ LMDBBuilder.reverse_citation_map b2 = LMDBBuilder.build_reverse_map cm
  /\ LMDBBuilder.citations_db b2 = ∅
  /\ LMDBBuilder.reverse_citations_db b2 = ∅
  /\ LMDBBuilder.sections_data b2 = LMDBBuilder.sections_db b2
  /\ (forall id section, LMDBBuilder.sections_db b2 !! id = Some section ->
        exists d, section = LMDBBuilder.make_section b1 d
                  /\ LMDBBuilder.section_number section = id).
Proof.
  intros b1 b2.
  destruct (build_sections_database_spec b1 corpus b1) as ((Hcm & Hrm & _ & _ & _ & Hc & Hr & _) & Hd & Hs).
  - unfold LMDBBuilder.same_inputs. repeat split; reflexivity.
  - reflexivity.
  - intros id section H. cbn in H. rewrite lookup_empty in H. discriminate.
  - subst b2. rewrite Hcm, Hrm, Hc, Hr. repeat split; auto.
Qed.

Lemma build_all_citations_db enable input s :
  let b2 := LMDBBuilder.build_sections_database (LMDBBuilder.corpus_file input)
              (LMDBBuilder.load_citation_data (LMDBBuilder.citation_map_file input)
                 (LMDBBuilder.complex_chains_file input)
                 (LMDBBuilder.citation_contexts_file input)
                 (LMDBBuilder.new_builder enable)) in
  LMDBBuilder.citations_db (LMDBBuilder.build_all enable input) !! s
  = LMDBBuilder.citation_entry b2 s <$> (LMDBBuilder.citation_map_file input !! s).
Proof.
  intros b2. unfold LMDBBuilder.build_all. fold b2.
  cbn [LMDBBuilder.build_chains_database LMDBBuilder.with_chains_db
       LMDBBuilder.build_reverse_citations_database
       LMDBBuilder.with_reverse_citations_db LMDBBuilder.citations_db
       LMDBBuilder.build_citations_database LMDBBuilder.with_citations_db].
  rewrite for_items_put_lookup.
  destruct (loaded_builder_sections enable (LMDBBuilder.citation_map_file input)
              (LMDBBuilder.complex_chains_file input)
              (LMDBBuilder.citation_contexts_file input)
              (LMDBBuilder.corpus_file input)) as (Hcm & _ & Hc & _).
  fold b2 in Hcm, Hc. rewrite Hcm, Hc, lookup_empty.
  destruct (_ !! s); reflexivity.
Qed.

Lemma build_all_reverse_citations_db enable input t :
  exists b3,
    LMDBBuilder.reverse_citations_db (LMDBBuilder.build_all enable input) !! t
    = LMDBBuilder.reverse_entry b3 t
        <$> (LMDBBuilder.build_reverse_map (LMDBBuilder.citation_map_file input) !! t).
Proof.
  unfold LMDBBuilder.build_all.
  set (b2 := LMDBBuilder.build_sections_database _ _).
  exists (LMDBBuilder.build_citations_database b2).
  cbn [LMDBBuilder.build_chains_database LMDBBuilder.with_chains_db
       LMDBBuilder.build_reverse_citations_database
       LMDBBuilder.with_reverse_citations_db LMDBBuilder.reverse_citations_db
       LMDBBuilder.build_citations_database LMDBBuilder.with_citations_db
       LMDBBuilder.citation_map].
  rewrite for_items_put_lookup.
  destruct (loaded_builder_sections enable (LMDBBuilder.citation_map_file input)
              (LMDBBuilder.complex_chains_file input)
              (LMDBBuilder.citation_contexts_file input)
              (LMDBBuilder.corpus_file input)) as (Hcm & _ & _ & Hr & _).
  fold b2 in Hcm, Hr. rewrite Hcm, Hr, lookup_empty.
  destruct (_ !! t); reflexivity.
Qed.

Lemma build_all_sections_db enable input :
  LMDBBuilder.sections_db (LMDBBuilder.build_all enable input)
  = LMDBBuilder.sections_db
      (LMDBBuilder.build_sections_database (LMDBBuilder.corpus_file input)
         (LMDBBuilder.load_citation_data (LMDBBuilder.citation_map_file input)
            (LMDBBuilder.complex_chains_file input)
            (LMDBBuilder.citation_contexts_file input)
            (LMDBBuilder.new_builder enable))).
Proof. reflexivity. Qed.

(** C5: the complexity score of [_calculate_complexity] is the formula of
    the specification (start at 5; +2 / +1 / -1 by word count; +2 / +1 by
    paragraph count; +2 / +1 / -1 by forward citation count; clamp into
    [1,10]), and it always lies between 1 and 10; it is the complexity
    [enrich_section] records; and every section of the primary table that
    has an enrichment (each of them when enrichment is enabled) has the
    complexity the formula gives for its word count, its paragraph count
    and its citation count, the number of forward citations listed for it
    in the citation map. *)
Theorem calculate_complexity_formula (word_count paragraph_count citation_count : Z) :
  Enricher._calculate_complexity word_count paragraph_count citation_count
    = Enricher.complexity_formula word_count paragraph_count citation_count
  /\ 1 <= Enricher._calculate_complexity word_count paragraph_count citation_count <= 10
  /\ (forall header paragraphs,
        Enricher.complexity
          (Enricher.enrich_section header paragraphs
             word_count paragraph_count citation_count)
        = Enricher.complexity_formula word_count paragraph_count citation_count)
  /\ (forall enable input id section,
        LMDBBuilder.sections_db (LMDBBuilder.build_all enable input) !! id
          = Some section ->
        (enable = true -> is_Some (LMDBBuilder.enrichment section))
        /\ LMDBBuilder.citation_count section
           = Z.of_nat (length (default [] (LMDBBuilder.citation_map_file input !! id)))
        /\ forall e,
             LMDBBuilder.enrichment section = Some e ->
             Enricher.complexity e
             = Enricher.complexity_formula (LMDBBuilder.word_count section)
                 (LMDBBuilder.paragraph_count section)
                 (LMDBBuilder.citation_count section)
             /\ 1 <= Enricher.complexity e <= 10).
Proof.
  split; [apply calculate_complexity_spec|].
  split; [apply calculate_complexity_spec|].
  split; [intros header paragraphs; apply calculate_complexity_spec|].
  intros enable input id section H. rewrite build_all_sections_db in H.
  destruct (loaded_builder_sections enable (LMDBBuilder.citation_map_file input)
              (LMDBBuilder.complex_chains_file input)
              (LMDBBuilder.citation_contexts_file input)
              (LMDBBuilder.corpus_file input)) as (_ & _ & _ & _ & _ & Hsec).
  destruct (Hsec id section H) as (d & -> & Hid). clear Hsec H.
  set (b1 := LMDBBuilder.load_citation_data _ _ _ _) in *.
  split; [|split].
  - intros ->. unfold LMDBBuilder.make_section. cbn [LMDBBuilder.enrichment].
    change (LMDBBuilder.enable_enrichment b1) with true. cbv iota. eauto.
  - rewrite <- Hid. reflexivity.
  - intros e He. unfold LMDBBuilder.make_section in He |- *.
    cbn [LMDBBuilder.enrichment LMDBBuilder.word_count LMDBBuilder.paragraph_count
         LMDBBuilder.citation_count] in He |- *.
    destruct (LMDBBuilder.enable_enrichment b1); [|discriminate].
    injection He as <-. cbn [Enricher.enrich_section Enricher.complexity].
    apply calculate_complexity_spec.
Qed.

(** A line whose key [txn.put] accepts is stored as [store_section]
    stores it. *)
Lemma put_section_accepted b d :
  (PyStr.contains "|" (LMDBBuilder.doc_header d) = true ->
   LMDB.valid_key (LMDBBuilder.section_key d) = true) ->
  LMDBBuilder.put_section b d = Some (LMDBBuilder.store_section b d).
Proof.
  intros H. unfold LMDBBuilder.put_section, LMDBBuilder.store_section.
  destruct (PyStr.contains "|" (LMDBBuilder.doc_header d)); cbn [negb]; [|reflexivity].
  change (LMDBBuilder.section_number (LMDBBuilder.make_section b d))
    with (LMDBBuilder.section_key d).
  rewrite H by reflexivity. reflexivity.
Qed.

Lemma put_section_result b d b' :
  LMDBBuilder.put_section b d = Some b' -> b' = LMDBBuilder.store_section b d.
Proof.
  unfold LMDBBuilder.put_section, LMDBBuilder.store_section.
  destruct (negb _); [congruence|]. destruct (LMDB.valid_key _); congruence.
Qed.

(** The write transaction of [build_sections_database] commits when every
    line that is stored has a key [txn.put] accepts, and then leaves the
    builder [build_sections_database] computes. *)
Lemma sections_transaction_commits : forall corpus b,
  Forall (fun d => PyStr.contains "|" (LMDBBuilder.doc_header d) = true ->
                   LMDB.valid_key (LMDBBuilder.section_key d) = true) corpus ->
  LMDBBuilder.sections_transaction corpus b
  = Some (LMDBBuilder.build_sections_database corpus b).
Proof.
  unfold LMDBBuilder.build_sections_database.
  induction corpus as [|d corpus IH]; intros b Hall; [reflexivity|].
  apply Forall_cons in Hall as [Hd Hall].
  cbn [LMDBBuilder.sections_transaction foldl].
  rewrite (put_section_accepted b d Hd). apply IH, Hall.
Qed.

Lemma sections_transaction_result : forall corpus b b',
  LMDBBuilder.sections_transaction corpus b = Some b' ->
  b' = LMDBBuilder.build_sections_database corpus b.
Proof.
  unfold LMDBBuilder.build_sections_database.
  induction corpus as [|d corpus IH]; intros b b' H;
    cbn [LMDBBuilder.sections_transaction foldl] in *; [congruence|].
  destruct (LMDBBuilder.put_section b d) as [b1|] eqn:E; [|discriminate].
  apply put_section_result in E as ->. apply IH, H.
Qed.

(** A build that ends without exception leaves the tables [build_all]
    computes. *)
Lemma build_all_transactions_result enable input b :
  LMDBBuilder.build_all_transactions enable input = Some b ->
  b = LMDBBuilder.build_all enable input.
Proof.
  unfold LMDBBuilder.build_all_transactions, LMDBBuilder.build_all.
  destruct (LMDBBuilder.sections_transaction _ _) as [b2|] eqn:E; [|discriminate].
  apply sections_transaction_result in E as ->.
  repeat (destruct (negb _); [discriminate|]). congruence.
Qed.

(** C3: after a build, [t] is in [direct_references] of the citations
    entry of [s] if and only if [s] is in [cited_by] of the reverse
    citations entry of [t] (an absent entry has no member). *)
Theorem reverse_forward_symmetry (enable : bool) (input : LMDBBuilder.build_input)
    (s t : string) :
  (exists c, LMDBBuilder.citations_db (LMDBBuilder.build_all enable input) !! s = Some c
             /\ t ∈ LMDBBuilder.direct_references c)
  <-> (exists r,
         LMDBBuilder.reverse_citations_db (LMDBBuilder.build_all enable input) !! t = Some r
         /\ s ∈ LMDBBuilder.cited_by r).
Proof.
  rewrite build_all_citations_db.
  destruct (build_all_reverse_citations_db enable input t) as [b3 ->].
  pose proof (build_reverse_map_spec (LMDBBuilder.citation_map_file input) s t) as Hrev.
  destruct (LMDBBuilder.build_reverse_map (LMDBBuilder.citation_map_file input) !! t)
    as [citing|] eqn:Ert; cbn [fmap option_fmap option_map] in *.
  - split.
    + intros (c & Hc & Ht).
      destruct (LMDBBuilder.citation_map_file input !! s) as [refs|] eqn:Es;
        [|discriminate]. cbn in Hc. injection Hc as <-. cbn in Ht.
      eexists. split; [reflexivity|]. cbn [LMDBBuilder.reverse_entry LMDBBuilder.cited_by].
      apply sorted_elem, elem_of_elements, Hrev. eauto.
    + intros (r & [= <-] & Hs). cbn [LMDBBuilder.reverse_entry LMDBBuilder.cited_by] in Hs.
      apply sorted_elem, elem_of_elements, Hrev in Hs as (refs & Hrefs & Ht).
      rewrite Hrefs. eexists. split; [reflexivity|exact Ht].
  - split.
    + intros (c & Hc & Ht).
      destruct (LMDBBuilder.citation_map_file input !! s) as [refs|] eqn:Es;
        [|discriminate]. cbn in Hc. injection Hc as <-. cbn in Ht.
      exfalso. assert (H : s ∈ (∅ : gset string)) by (apply Hrev; eauto).
      set_solver.
    + intros (r & Hr & _). discriminate.
Qed.

(** An instance of the symmetry on the second scenario of the
    specification: rule 3701-17-01 cites section 121.22 and rule
    3701-17-02. *)
Example reverse_forward_symmetry_scenario :
  (LMDBBuilder.direct_references
     <$> LMDBBuilder.citations_db (LMDBBuilder.build_all true Scenario.two_citations)
           !! "3701-17-01")
    = Some ["121.22"; "3701-17-02"]
  /\ (LMDBBuilder.cited_by
       <$> LMDBBuilder.reverse_citations_db
             (LMDBBuilder.build_all true Scenario.two_citations) !! "121.22")
     = Some ["3701-17-01"]
  /\ (LMDBBuilder.cited_by
       <$> LMDBBuilder.reverse_citations_db
             (LMDBBuilder.build_all true Scenario.two_citations) !! "3701-17-02")
     = Some ["3701-17-01"].
Proof. by_evaluation. Qed.

(** ** Clickability *)

(** C2, as stated, fails: rule 3701-17-04 is a key of the citation map with
    an empty reference list (the mapper records every section it parses)
    and nothing cites it; it is stored with [is_clickable] true although
    its forward citation count is 0 and it has no reverse entry. *)
Lemma is_clickable_counterexample :
  exists section,
    LMDBBuilder.sections_db (LMDBBuilder.build_all true Scenario.isolated)
      !! "3701-17-04" = Some section
    /\ LMDBBuilder.is_clickable section = true
    /\ LMDBBuilder.citation_count section = 0
    /\ LMDBBuilder.reverse_citations_db (LMDBBuilder.build_all true Scenario.isolated)
         !! "3701-17-04" = None.
Proof.
  eexists. split; [vm_compute; reflexivity|].
  split_ands; vm_compute; reflexivity.
Qed.

(** C2, amended: for every section stored in the primary table,
    [is_clickable] is true if and only if the section's id has an entry in
    the citations table (it is a key of the citation map, whatever the
    length of its reference list) or a reverse-citation entry for its id
    exists; in particular a forward citation count above zero, or a reverse
    entry, makes the section clickable. *)
Theorem is_clickable_iff_has_entry (enable : bool) (input : LMDBBuilder.build_input)
    (id : string) (section : LMDBBuilder.OhioSectionDict) :
  LMDBBuilder.sections_db (LMDBBuilder.build_all enable input) !! id = Some section ->
  (LMDBBuilder.is_clickable section = true
   <-> is_Some (LMDBBuilder.citations_db (LMDBBuilder.build_all enable input) !! id)
       \/ is_Some (LMDBBuilder.reverse_citations_db (LMDBBuilder.build_all enable input) !! id))
  /\ (0 < LMDBBuilder.citation_count section
      \/ is_Some (LMDBBuilder.reverse_citations_db (LMDBBuilder.build_all enable input) !! id)
      -> LMDBBuilder.is_clickable section = true).
Proof.
  intros Hsec. rewrite build_all_sections_db in Hsec.
  rewrite build_all_citations_db.
  destruct (build_all_reverse_citations_db enable input id) as [b3 ->].
  rewrite !fmap_is_Some.
  destruct (loaded_builder_sections enable (LMDBBuilder.citation_map_file input)
              (LMDBBuilder.complex_chains_file input)
              (LMDBBuilder.citation_contexts_file input)
              (LMDBBuilder.corpus_file input)) as (_ & _ & _ & _ & _ & Hmk).
  destruct (Hmk _ _ Hsec) as (d & -> & Hid).
  unfold LMDBBuilder.make_section in *.
  cbn [LMDBBuilder.section_number LMDBBuilder.is_clickable LMDBBuilder.citation_count] in *.
  rewrite Hid.
  change (LMDBBuilder.citation_map (LMDBBuilder.load_citation_data _ _ _ _))
    with (LMDBBuilder.citation_map_file input).
  change (LMDBBuilder.reverse_citation_map (LMDBBuilder.load_citation_data _ _ _ _))
    with (LMDBBuilder.build_reverse_map (LMDBBuilder.citation_map_file input)).
  rewrite orb_true_iff, !bool_decide_eq_true.
  split; [reflexivity|].
  intros [Hpos|Hrev]; [left|right; exact Hrev].
  destruct (LMDBBuilder.citation_map_file input !! id); [eauto|]. cbn in Hpos. lia.
Qed.

Lemma is_clickable_iff_has_entry_witness :
  exists section,
    LMDBBuilder.sections_db (LMDBBuilder.build_all true Scenario.two_citations)
      !! "3701-17-01" = Some section
    /\ LMDBBuilder.is_clickable section = true.
Proof.
  eexists. split; [vm_compute; reflexivity|].
  refine (proj2 (is_clickable_iff_has_entry true Scenario.two_citations
                   "3701-17-01" _ _) _).
  - vm_compute; reflexivity.
  - left. vm_compute. reflexivity.
Defined.

(** ** Dangling references *)

(** Every citation snapshot and every source of a bundle names a section
    that is in the primary table. *)
Lemma add_direct_citation_stored (r : Retriever.retriever) : forall details acc,
  (forall snap, snap ∈ acc.1.1 ->
     is_Some (Retriever.get_section r (Retriever.snap_section snap))) ->
  (forall src, src ∈ acc.2 ->
     is_Some (Retriever.get_section r (Retriever.src_section src))) ->
  (forall snap, snap ∈ (foldl (Retriever.add_direct_citation r) acc details).1.1 ->
     is_Some (Retriever.get_section r (Retriever.snap_section snap)))
  /\ (forall src, src ∈ (foldl (Retriever.add_direct_citation r) acc details).2 ->
        is_Some (Retriever.get_section r (Retriever.src_section src))).
Proof.
  induction details as [|detail details IH]; intros [[direct total] srcs] Hd Hs;
    cbn [foldl]; [auto|].
  apply IH; unfold Retriever.add_direct_citation;
    destruct (Retriever.get_section r (LMDBBuilder.ref_section detail)) eqn:E;
    cbn [fst snd] in *; auto.
  - intros snap [H| ->%list_elem_of_singleton]%elem_of_app; [auto|].
    cbn [Retriever.snap_section]. rewrite E. eauto.
  - intros src [H| ->%list_elem_of_singleton]%elem_of_app; [auto|].
    cbn [Retriever.src_section Retriever.source_of]. rewrite E. eauto.
Qed.

Lemma reference_detail_dangling b enhanced_map ref :
  LMDBBuilder.sections_data b !! ref = None ->
  LMDBBuilder.ref_section (LMDBBuilder.reference_detail b enhanced_map ref) = ref
  /\ LMDBBuilder.ref_title (LMDBBuilder.reference_detail b enhanced_map ref) = ""
  /\ LMDBBuilder.ref_url (LMDBBuilder.reference_detail b enhanced_map ref) = ""
  /\ LMDBBuilder.ref_url_hash (LMDBBuilder.reference_detail b enhanced_map ref) = "".
Proof.
  intros H. unfold LMDBBuilder.reference_detail. rewrite H.
  destruct (enhanced_map !! ref); split_ands; reflexivity.
Qed.

(** C9, as stated, fails. Rule 3701-17-05 cites 9999.99, which is not in
    the primary table. The build ends without exception and keeps the
    edge, with an empty title and url in its details row; on a store whose citations entry of the rule
    has that row, the bundle of the rule does not list 9999.99: its
    [direct_citations] is empty and its [sources] name the rule only. *)
Lemma dangling_reference_counterexample :
  LMDBBuilder.build_all_transactions true Scenario.dangling
  = Some (LMDBBuilder.build_all true Scenario.dangling)
  /\ (LMDBBuilder.references_details
       <$> LMDBBuilder.citations_db (LMDBBuilder.build_all true Scenario.dangling)
             !! "3701-17-05")
  = Some [ {| LMDBBuilder.ref_section := "9999.99";
              LMDBBuilder.ref_title := "";
              LMDBBuilder.ref_url := "";
              LMDBBuilder.ref_url_hash := "";
              LMDBBuilder.ref_relationship := "cross_reference";
              LMDBBuilder.ref_context := "";
              LMDBBuilder.ref_position := 0 |} ]
  /\ Retriever.get_section Scenario.store "9999.99" = None
  /\ (LMDBBuilder.references_details
        <$> Retriever.get_citations Scenario.store "3701-17-05")
     = Some [ {| LMDBBuilder.ref_section := "9999.99";
                 LMDBBuilder.ref_title := "";
                 LMDBBuilder.ref_url := "";
                 LMDBBuilder.ref_url_hash := "";
                 LMDBBuilder.ref_relationship := "cross_reference";
                 LMDBBuilder.ref_context := "";
                 LMDBBuilder.ref_position := 0 |} ]
  /\ (Retriever.direct_citations
        <$> Retriever.get_complete_context Scenario.store "3701-17-05" true true 5)
     = Some []
  /\ (Retriever.sources
        <$> Retriever.get_complete_context Scenario.store "3701-17-05" true true 5)
     = Some [ {| Retriever.src_section := "3701-17-05";
                 Retriever.src_url := "https://codes.ohio.gov/3701-17-05";
                 Retriever.src_url_hash := "e5f60718a1b2c3d4" |} ].
Proof. by_evaluation. Qed.

(** C9, amended. The builder, in a build that ends without exception:
    when a section [s] of the primary table cites an id [t] that is not in
    the primary table, the edge is kept in the citations entry of [s],
    with an empty title, url and url hash in its details row. The
    retriever, on every store: when [s] is in the primary table, [t] is
    not, and the ids looked up are keys that LMDB accepts,
    [get_complete_context] of [s] returns a bundle (no error) whose
    [direct_citations] and [sources] leave [t] out. *)
Theorem dangling_reference_kept_and_omitted (s t : string) :
  (forall (enable : bool) (input : LMDBBuilder.build_input) (b : LMDBBuilder.builder)
          (refs : list string) (section : LMDBBuilder.OhioSectionDict),
     LMDBBuilder.build_all_transactions enable input = Some b ->
     LMDBBuilder.citation_map_file input !! s = Some refs ->
     t ∈ refs ->
     LMDBBuilder.sections_db b !! s = Some section ->
     LMDBBuilder.sections_db b !! t = None ->
     exists entry row,
       LMDBBuilder.citations_db b !! s = Some entry
       /\ t ∈ LMDBBuilder.direct_references entry
       /\ row ∈ LMDBBuilder.references_details entry
       /\ LMDBBuilder.ref_section row = t
       /\ LMDBBuilder.ref_title row = ""
       /\ LMDBBuilder.ref_url row = ""
       /\ LMDBBuilder.ref_url_hash row = "")
  /\ (forall (r : Retriever.retriever) (section : LMDBBuilder.OhioSectionDict)
             (include_chain include_reverse : bool) (max_chain_depth : Z),
        Retriever.get_section r s = Some section ->
        Retriever.get_section r t = None ->
        Forall (fun key => LMDB.valid_key key = true)
               (Retriever.context_lookups r s include_reverse) ->
        exists bundle,
          Retriever.get_complete_context r s include_chain include_reverse
            max_chain_depth = Some bundle
          /\ (forall snap, snap ∈ Retriever.direct_citations bundle ->
                Retriever.snap_section snap <> t)
          /\ (forall src, src ∈ Retriever.sources bundle ->
                Retriever.src_section src <> t)).
Proof.
  split.
  - intros enable input b refs section Hbuild Hrefs Ht Hs Hdangling.
    apply build_all_transactions_result in Hbuild as ->.
    rewrite build_all_citations_db, Hrefs. cbn [fmap option_fmap option_map].
    do 2 eexists. split; [reflexivity|].
    cbn [LMDBBuilder.citation_entry LMDBBuilder.direct_references
         LMDBBuilder.references_details].
    split; [exact Ht|]. split; [apply list_elem_of_fmap; eauto|].
    rewrite build_all_sections_db in Hdangling.
    destruct (loaded_builder_sections enable (LMDBBuilder.citation_map_file input)
                (LMDBBuilder.complex_chains_file input)
                (LMDBBuilder.citation_contexts_file input)
                (LMDBBuilder.corpus_file input)) as (_ & _ & _ & _ & Hdata & _).
    apply reference_detail_dangling. rewrite Hdata. exact Hdangling.
  - intros r section include_chain include_reverse max_chain_depth Hget Hnone _.
    unfold Retriever.get_complete_context. rewrite Hget.
    set (start := (@nil Retriever.snapshot, LMDBBuilder.word_count section,
                   [Retriever.source_of s section])).
    assert (Hstored :
      forall details,
        (forall snap, snap ∈ (foldl (Retriever.add_direct_citation r) start details).1.1 ->
           is_Some (Retriever.get_section r (Retriever.snap_section snap)))
        /\ (forall src, src ∈ (foldl (Retriever.add_direct_citation r) start details).2 ->
              is_Some (Retriever.get_section r (Retriever.src_section src)))).
    { intros details. apply add_direct_citation_stored; subst start; cbn [fst snd].
      - intros snap H. inversion H.
      - intros src ->%list_elem_of_singleton.
        cbn [Retriever.src_section Retriever.source_of]. rewrite Hget. eauto. }
    assert (Hacc : exists direct total srcs,
      match Retriever.get_citations r s with
      | Some citations =>
          foldl (Retriever.add_direct_citation r) start
                (LMDBBuilder.references_details citations)
      | None => start
      end = (direct, total, srcs)
      /\ (forall snap, snap ∈ direct ->
            is_Some (Retriever.get_section r (Retriever.snap_section snap)))
      /\ (forall src, src ∈ srcs ->
            is_Some (Retriever.get_section r (Retriever.src_section src)))).
    { destruct (Retriever.get_citations r s) as [citations|].
      - destruct (Hstored (LMDBBuilder.references_details citations)) as [H1 H2].
        destruct (foldl _ _ _) as [[direct total] srcs]. eauto 6.
      - destruct (Hstored []) as [H1 H2]. cbn [foldl] in H1, H2.
        exists [], (LMDBBuilder.word_count section), [Retriever.source_of s section].
        auto. }
    destruct Hacc as (direct & total & srcs & -> & Hdirect & Hsrcs).
    destruct (if include_chain then _ else _) as [[chain_items depth] total'].
    eexists. split; [reflexivity|].
    cbn [Retriever.direct_citations Retriever.sources]. split.
    + intros snap Hin Heq. destruct (Hdirect snap Hin) as [x Hx]. congruence.
    + intros src Hin Heq. destruct (Hsrcs src Hin) as [x Hx]. congruence.
Qed.

Lemma dangling_reference_kept_and_omitted_witness :
  (exists entry row,
     LMDBBuilder.citations_db (LMDBBuilder.build_all true Scenario.dangling)
       !! "3701-17-05" = Some entry
     /\ "9999.99" ∈ LMDBBuilder.direct_references entry
     /\ row ∈ LMDBBuilder.references_details entry
     /\ LMDBBuilder.ref_section row = "9999.99"
     /\ LMDBBuilder.ref_title row = ""
     /\ LMDBBuilder.ref_url row = ""
     /\ LMDBBuilder.ref_url_hash row = "")
  /\ exists bundle,
       Retriever.get_complete_context Scenario.store "3701-17-05" true true 5
       = Some bundle
       /\ (forall snap, snap ∈ Retriever.direct_citations bundle ->
             Retriever.snap_section snap <> "9999.99")
       /\ (forall src, src ∈ Retriever.sources bundle ->
             Retriever.src_section src <> "9999.99").
Proof.
  split.
  - refine (proj1 (dangling_reference_kept_and_omitted "3701-17-05" "9999.99")
              true Scenario.dangling (LMDBBuilder.build_all true Scenario.dangling)
              ["9999.99"]
              (LMDBBuilder.make_section
                 (LMDBBuilder.load_citation_data
                    (LMDBBuilder.citation_map_file Scenario.dangling) [] []
                    (LMDBBuilder.new_builder true))
                 Scenario.rule_dangling)
              _ _ _ _ _).
    + vm_compute. reflexivity.
    + vm_compute. reflexivity.
    + apply list_elem_of_here.
    + vm_compute. reflexivity.
    + vm_compute. reflexivity.
  - refine (proj2 (dangling_reference_kept_and_omitted "3701-17-05" "9999.99")
              Scenario.store Scenario.stored_fees true true 5 _ _ _).
    + vm_compute. reflexivity.
    + vm_compute. reflexivity.
    + apply (bool_decide_unpack _). vm_compute. exact I.
Defined.

(** ** Citation ranges *)

(** C4, as stated, fails: for the range [sections 124.0 to 125.5] the
    endpoints are in different chapters, the gap is 1.5, and the expansion
    adds the intermediate id 124.01 (the loop variable starts at the whole
    number 124.0). The code compares the gap with 20 and nothing else. *)
Lemma range_expansion_counterexample :
  CitationMapper.add_match 2100 (CitationMapper.MatchTuple "124.0" "125.5") ∅
  = Some {[ "124.0"; "125.5"; "124.01" ]}
  /\ CitationMapper.chapter_prefix "124.0" = "124"
  /\ CitationMapper.chapter_prefix "125.5" = "125"
  /\ CitationMapper.valid_section_format "124.01" = true.
Proof. by_evaluation. Qed.

(** C4, amended: for a matched range [sections A to B] whose endpoints the
    code reads as floats, when the gap [B - A] exceeds 20 only the two
    endpoints are recorded (no intermediate id), and any further id is
    recorded only when the gap is at most 20; the chapter prefixes of the
    endpoints are not compared. *)
Theorem range_expansion_policy (fuel : nat) (start_section end_section : string)
    (start_num end_num : float) (references : gset string) :
  end_section <> "" ->
  CitationMapper.py_float start_section = Some start_num ->
  CitationMapper.py_float end_section = Some end_num ->
  (PrimFloat.leb (PrimFloat.sub end_num start_num) 20%float = false ->
   CitationMapper.add_match fuel
     (CitationMapper.MatchTuple start_section end_section) references
   = Some ({[ end_section ]} ∪ ({[ start_section ]} ∪ references)))
  /\ (forall references',
        CitationMapper.add_match fuel
          (CitationMapper.MatchTuple start_section end_section) references
        = Some references' ->
        references' <> {[ end_section ]} ∪ ({[ start_section ]} ∪ references) ->
        PrimFloat.leb (PrimFloat.sub end_num start_num) 20%float = true).
Proof.
  intros Hne Hs He. unfold CitationMapper.add_match.
  apply String.eqb_neq in Hne. rewrite Hne, Hs, He. cbn [negb].
  destruct (PrimFloat.leb (PrimFloat.sub end_num start_num) 20%float).
  - split; [discriminate|reflexivity].
  - split; [reflexivity|]. intros references' [= <-] H. congruence.
Qed.

Lemma range_expansion_policy_witness :
  CitationMapper.add_match 2100 (CitationMapper.MatchTuple "100.01" "190.64") ∅
  = Some ({[ "190.64" ]} ∪ ({[ "100.01" ]} ∪ ∅)).
Proof.
  refine (proj1 (range_expansion_policy 2100 "100.01" "190.64" _ _ ∅ _ _ _) _).
  - discriminate.
  - vm_compute; reflexivity.
  - vm_compute; reflexivity.
  - vm_compute; reflexivity.
Defined.

(** * Further properties of the code *)

(** ** Chains: size cap and containment *)

Lemma chain_loop_preserves cm max_size (P : CitationMapper.chain_state -> Prop) :
  (forall st st', P st -> CitationMapper.chain_step cm max_size st = Some st' -> P st') ->
  forall fuel st final,
    P st -> CitationMapper.chain_loop cm max_size fuel st = Some final -> P final.
Proof.
  intros Hstep. induction fuel as [|fuel IH]; intros st final HP;
    cbn [CitationMapper.chain_loop];
    destruct (CitationMapper.chain_step cm max_size st) as [st'|] eqn:Hs;
    try discriminate; try (intros [= <-]; exact HP).
  apply IH. eapply Hstep; eauto.
Qed.

Lemma build_reference_chain_run start cm max_size :
  exists final,
    CitationMapper.chain_loop cm max_size (CitationMapper.chain_fuel max_size)
      {| CitationMapper.queue := [start]; CitationMapper.visited := ∅;
         CitationMapper.chain := [] |} = Some final
    /\ CitationMapper.chain_step cm max_size final = None
    /\ CitationMapper._build_reference_chain start cm max_size
       = Some (CitationMapper.chain final).
Proof.
  destruct (chain_loop_terminates cm max_size (CitationMapper.chain_fuel max_size)
              {| CitationMapper.queue := [start]; CitationMapper.visited := ∅;
                 CitationMapper.chain := [] |}) as (final & Hrun & Hend).
  { unfold CitationMapper.chain_measure, CitationMapper.chain_fuel. cbn. lia. }
  exists final. split; [exact Hrun|]. split; [exact Hend|].
  unfold CitationMapper._build_reference_chain. rewrite Hrun. reflexivity.
Qed.

Lemma chain_step_cap cm max_size st st' :
  Z.of_nat (length (CitationMapper.chain st)) <= Z.max 0 max_size ->
  CitationMapper.chain_step cm max_size st = Some st' ->
  Z.of_nat (length (CitationMapper.chain st')) <= Z.max 0 max_size.
Proof.
  intros Hlen. unfold CitationMapper.chain_step.
  destruct (CitationMapper.queue st) as [|current rest]; [discriminate|].
  destruct (Z.ltb_spec (Z.of_nat (length (CitationMapper.chain st))) max_size);
    [|discriminate].
  destruct (bool_decide _); intros [= <-]; cbn [CitationMapper.chain]; [exact Hlen|].
  rewrite length_app. cbn [length]. lia.
Qed.

(** X1: the chain built by [_build_reference_chain] never has more than
    [max_size] entries (none when [max_size] is zero or negative). *)
Theorem build_reference_chain_size_cap (start_section : string)
    (citation_map : gmap string (list string)) (max_size : Z) :
  exists chain,
    CitationMapper._build_reference_chain start_section citation_map max_size = Some chain
    /\ Z.of_nat (length chain) <= Z.max 0 max_size.
Proof.
  destruct (build_reference_chain_run start_section citation_map max_size)
    as (final & Hrun & _ & ->).
  eexists. split; [reflexivity|].
  refine (chain_loop_preserves citation_map max_size
            (fun st => Z.of_nat (length (CitationMapper.chain st)) <= Z.max 0 max_size)
            (chain_step_cap citation_map max_size) _ _ _ _ Hrun).
  cbn [CitationMapper.chain length Z.of_nat]. lia.
Qed.

Lemma chain_containment_step cm max_size start st st' :
  CitationMapper.chain_containment_invariant cm start st ->
  CitationMapper.chain_step cm max_size st = Some st' ->
  CitationMapper.chain_containment_invariant cm start st'.
Proof.
  unfold CitationMapper.chain_containment_invariant.
  intros [Hreach Hhead]. unfold CitationMapper.chain_step.
  destruct (CitationMapper.queue st) as [|current rest] eqn:Hq; [discriminate|].
  destruct (_ <? _); [|discriminate].
  destruct (bool_decide_reflect (current ∈ CitationMapper.visited st)) as [Hin|Hnin];
    intros [= <-]; cbn [CitationMapper.queue CitationMapper.chain CitationMapper.visited].
  - split.
    + intros x [Hx|Hx]; apply Hreach; [left; apply list_elem_of_further, Hx|right; exact Hx].
    + destruct Hhead as [(_ & Hs & Hv)|Hh]; [|right; exact Hh].
      injection Hs as -> ->. rewrite Hv in Hin. set_solver.
  - assert (Hcur : rtc (CitationMapper.cites cm) start current
                   /\ (current = start \/ is_Some (cm !! current))).
    { apply Hreach. left. apply list_elem_of_here. }
    split.
    + assert (Hq' : forall refs q x,
        (forall y, y ∈ refs -> CitationMapper.cites cm current y) ->
        x ∈ foldl (fun q0 ref =>
                     if bool_decide (ref ∉ ({[current]} ∪ CitationMapper.visited st))
                        && bool_decide (is_Some (cm !! ref))
                     then (q0 ++ [ref])%list else q0) q refs ->
        x ∈ q \/ (CitationMapper.cites cm current x /\ is_Some (cm !! x))).
      { induction refs as [|r refs IH]; intros q x Hrefs; cbn [foldl]; [auto|].
        intros Hx. apply IH in Hx.
        2:{ intros y Hy. apply Hrefs, list_elem_of_further, Hy. }
        destruct Hx as [Hx|Hx]; [|auto].
        destruct (bool_decide (r ∉ _)) eqn:E1; cbn [andb] in Hx; [|auto].
        destruct (bool_decide_reflect (is_Some (cm !! r))) as [Hr|Hr]; [|auto].
        apply elem_of_app in Hx as [Hx| ->%list_elem_of_singleton]; [auto|].
        right. split; [apply Hrefs, list_elem_of_here|exact Hr]. }
      intros x [Hx|Hx].
      * unfold CitationMapper.enqueue_refs in Hx. apply Hq' in Hx.
        -- destruct Hx as [Hx|[Hc Hk]].
           ++ apply Hreach. left. apply list_elem_of_further, Hx.
           ++ split; [|right; exact Hk].
              eapply rtc_r; [exact (proj1 Hcur)|exact Hc].
        -- intros y Hy. unfold CitationMapper.cites.
           destruct (cm !! current) as [refs|] eqn:E.
           ++ exists refs. split; [reflexivity|].
              exact (subseteq_take 3 refs y Hy).
           ++ change (y ∈ take 3 (@nil string)) in Hy.
              rewrite take_nil in Hy. inversion Hy.
      * apply elem_of_app in Hx as [Hx| ->%list_elem_of_singleton]; [|exact Hcur].
        apply Hreach. right. exact Hx.
    + right. destruct Hhead as [(Hc & Hs & _)|Hh].
      * rewrite Hc. injection Hs as -> ->. reflexivity.
      * destruct (CitationMapper.chain st); [discriminate|exact Hh].
Qed.

(** X2: chain containment. The chain begins with the start section (when
    [max_size] is positive; it is empty otherwise), every entry is reached
    from the start section by following the forward map, and every entry
    but the start section is a key of the map. *)
Theorem build_reference_chain_containment (start_section : string)
    (citation_map : gmap string (list string)) (max_size : Z) :
  exists chain,
    CitationMapper._build_reference_chain start_section citation_map max_size = Some chain
    /\ head chain = (if 0 <? max_size then Some start_section else None)
    /\ Forall (fun x => rtc (CitationMapper.cites citation_map) start_section x
                        /\ (x = start_section \/ is_Some (citation_map !! x)))
              chain.
Proof.
  destruct (build_reference_chain_run start_section citation_map max_size)
    as (final & Hrun & Hend & ->).
  eexists. split; [reflexivity|].
  assert (Hinv : CitationMapper.chain_containment_invariant citation_map
                   start_section final).
  { refine (chain_loop_preserves citation_map max_size _
              (chain_containment_step citation_map max_size start_section)
              _ _ _ _ Hrun).
    split; cbn [CitationMapper.chain CitationMapper.queue CitationMapper.visited].
    - intros x [->%list_elem_of_singleton|Hx];
        [split; [apply rtc_refl|left; reflexivity]|inversion Hx].
    - left. auto. }
  destruct Hinv as [Hreach Hhead].
  split.
  - destruct Hhead as [(Hc & Hq & _)|Hh].
    + rewrite Hc. unfold CitationMapper.chain_step in Hend. rewrite Hq, Hc in Hend.
      change (Z.of_nat (length [])) with 0 in Hend.
      destruct (0 <? max_size); [|reflexivity].
      destruct (bool_decide _); discriminate.
    + rewrite Hh.
      assert (Hcap : Z.of_nat (length (CitationMapper.chain final)) <= Z.max 0 max_size).
      { refine (chain_loop_preserves citation_map max_size
                  (fun st => Z.of_nat (length (CitationMapper.chain st)) <= Z.max 0 max_size)
                  (chain_step_cap citation_map max_size) _ _ _ _ Hrun).
        cbn [CitationMapper.chain length Z.of_nat]. lia. }
      destruct (CitationMapper.chain final); [discriminate|]. cbn [length] in Hcap.
      destruct (Z.ltb_spec 0 max_size); [reflexivity|lia].
  - apply Forall_forall. intros x Hx. apply Hreach. right. exact Hx.
Qed.

(** ** Citation analysis and the chains it saves *)

(** What every constructed chain satisfies (the facts of the theorems
    above, gathered for the proofs below). *)
Lemma build_reference_chain_facts start cm max_size :
  exists chain,
    CitationMapper._build_reference_chain start cm max_size = Some chain
    /\ NoDup chain
    /\ Z.of_nat (length chain) <= Z.max 0 max_size
    /\ (chain = [] \/ head chain = Some start).
Proof.
  destruct (build_reference_chain_run start cm max_size) as (final & Hrun & _ & ->).
  eexists. split; [reflexivity|].
  assert (Hinit : CitationMapper.chain_invariant
                    {| CitationMapper.queue := [start]; CitationMapper.visited := ∅;
                       CitationMapper.chain := [] |}).
  { split; [apply NoDup_nil_2|]. intros x. cbn. rewrite elem_of_nil. set_solver. }
  split; [apply (chain_loop_invariant cm max_size _ _ _ Hinit Hrun)|].
  split.
  - refine (chain_loop_preserves cm max_size
              (fun st => Z.of_nat (length (CitationMapper.chain st)) <= Z.max 0 max_size)
              (chain_step_cap cm max_size) _ _ _ _ Hrun).
    cbn [CitationMapper.chain length Z.of_nat]. lia.
  - assert (Hinv : CitationMapper.chain_containment_invariant cm start final).
    { refine (chain_loop_preserves cm max_size _
                (chain_containment_step cm max_size start) _ _ _ _ Hrun).
      split; cbn [CitationMapper.chain CitationMapper.queue CitationMapper.visited].
      - intros x [->%list_elem_of_singleton|Hx];
          [split; [apply rtc_refl|left; reflexivity]|inversion Hx].
      - left. auto. }
    destruct Hinv as [_ [(Hc & _)|Hh]]; auto.
Qed.

(** The shape of the two lists of chains that the analysis loop keeps. *)
Lemma analyze_sections_chains cm :
  forall (items items0 : list (string * list string)) vg simple complex,
  (forall item, item ∈ items -> item ∈ items0) ->
  Forall (fun chain => (2 <= length chain <= 3)%nat /\ NoDup chain) simple ->
  Forall (fun chain => (4 <= length chain <= 8)%nat /\ NoDup chain
                       /\ exists refs, (hd "" chain, refs) ∈ items0 /\ refs <> [])
         complex ->
  exists vg' simple' complex',
    CitationMapper.analyze_sections cm (vg, simple, complex) items
      = Some (vg', simple', complex')
    /\ Forall (fun chain => (2 <= length chain <= 3)%nat /\ NoDup chain) simple'
    /\ Forall (fun chain => (4 <= length chain <= 8)%nat /\ NoDup chain
                            /\ exists refs, (hd "" chain, refs) ∈ items0 /\ refs <> [])
              complex'.
Proof.
  induction items as [|[section refs] items IH]; intros items0 vg simple complex Hin Hs Hc;
    cbn [CitationMapper.analyze_sections].
  - eauto 6.
  - assert (Hrest : forall item, item ∈ items -> item ∈ items0).
    { intros item H. apply Hin, list_elem_of_further, H. }
    unfold CitationMapper.analyze_section.
    destruct (bool_decide (section ∉ vg)); cbn [andb]; [|apply IH; auto].
    destruct (bool_decide_reflect (refs = [])) as [Hnil|Hrefs]; cbn [negb];
      [apply IH; auto|].
    destruct (build_reference_chain_facts section cm 8) as (chain & -> & Hnd & Hlen & Hhd).
    destruct (Nat.leb_spec 4 (length chain)); [|destruct (Nat.leb_spec 2 (length chain))].
    + apply IH; auto. apply Forall_app. split; [exact Hc|].
      apply Forall_singleton. split; [lia|]. split; [exact Hnd|].
      exists refs. split; [|exact Hrefs].
      destruct Hhd as [->|Hhd]; [cbn in *; lia|].
      destruct chain as [|c chain]; [discriminate|]. injection Hhd as ->.
      apply Hin, list_elem_of_here.
    + apply IH; auto. apply Forall_app. split; [exact Hs|].
      apply Forall_singleton. split; [lia|exact Hnd].
    + apply IH; auto.
Qed.

Lemma analyze_citation_patterns_runs items :
  exists vg simple complex,
    CitationMapper.analyze_sections (list_to_map items) (∅, [], []) items
      = Some (vg, simple, complex)
    /\ Forall (fun chain => (2 <= length chain <= 3)%nat /\ NoDup chain) simple
    /\ Forall (fun chain => (4 <= length chain <= 8)%nat /\ NoDup chain
                            /\ exists refs, (hd "" chain, refs) ∈ items /\ refs <> [])
              complex.
Proof. apply analyze_sections_chains; auto. Qed.

(** X3: [analyze_citation_patterns] returns an analysis for every citation
    map; each complex chain has between 4 and 8 entries, no duplicate, and
    begins with a section of the map that has references; each simple
    chain has 2 or 3 entries and no duplicate. *)
Theorem analyze_citation_patterns_chains (items : list (string * list string)) :
  exists analysis,
    CitationMapper.analyze_citation_patterns items = Some analysis
    /\ Forall (fun chain => (4 <= length chain <= 8)%nat /\ NoDup chain
                            /\ exists refs, (hd "" chain, refs) ∈ items /\ refs <> [])
              (CitationMapper.complex_chains analysis)
    /\ Forall (fun chain => (2 <= length chain <= 3)%nat /\ NoDup chain)
              (CitationMapper.simple_pairs analysis).
Proof.
  destruct (analyze_citation_patterns_runs items) as (vg & simple & complex & Hrun & Hs & Hc).
  unfold CitationMapper.analyze_citation_patterns. rewrite Hrun.
  eexists. split; [reflexivity|]. split; assumption.
Qed.

Lemma complex_chain_lines_nonempty : forall complex_chains i,
  Forall (fun chain => chain <> []) complex_chains ->
  exists lines,
    CitationMapper.complex_chain_lines i complex_chains = Some lines
    /\ CitationMapper.chain_sections <$> lines = complex_chains.
Proof.
  induction complex_chains as [|chain rest IH]; intros i Hall;
    cbn [CitationMapper.complex_chain_lines].
  - exists []. auto.
  - apply Forall_cons in Hall as [Hne Hall].
    destruct chain as [|first tl]; [congruence|].
    destruct (IH (S i) Hall) as (lines & -> & Hmap).
    eexists. split; [reflexivity|]. cbn. now rewrite Hmap.
Qed.

(** X4: the complex chains of an analysis are always saved: [save_results]
    does not fail on them ([chain[0]] exists), it writes one line per
    chain, in order, and line [i] carries the chain itself, its first
    entry as primary section, its length as estimated complexity and the
    chain id [complex_i]. *)
Theorem save_results_of_analysis (items : list (string * list string))
    (citation_map : gmap string (gset string)) :
  exists analysis files,
    CitationMapper.analyze_citation_patterns items = Some analysis
    /\ CitationMapper.save_results citation_map (CitationMapper.complex_chains analysis)
       = Some files
    /\ CitationMapper.chain_sections <$> CitationMapper.complex_chains_file files
       = CitationMapper.complex_chains analysis
    /\ forall i line,
         CitationMapper.complex_chains_file files !! i = Some line ->
         CitationMapper.chain_id line = "complex_" ++ PyStr.of_nat i
         /\ head (CitationMapper.chain_sections line)
            = Some (CitationMapper.primary_section line)
         /\ CitationMapper.estimated_complexity line
            = Z.of_nat (length (CitationMapper.chain_sections line)).
Proof.
  destruct (analyze_citation_patterns_runs items) as (vg & simple & complex & Hrun & _ & Hc).
  unfold CitationMapper.analyze_citation_patterns. rewrite Hrun.
  destruct (complex_chain_lines_nonempty complex 0) as (lines & Hlines & Hmap).
  { eapply Forall_impl; [exact Hc|]. intros chain [Hlen _] ->. cbn in Hlen. lia. }
  do 2 eexists. split; [reflexivity|].
  cbn [CitationMapper.complex_chains].
  unfold CitationMapper.save_results. rewrite Hlines.
  split; [reflexivity|].
  cbn [CitationMapper.complex_chains_file]. split; [exact Hmap|].
  intros i line Hi.
  destruct (complex_chain_lines_chain_id _ _ _ Hlines _ _ Hi) as [Hid Hhd].
  split; [exact Hid|]. split; [exact Hhd|].
  clear - Hlines Hi. revert i lines line Hlines Hi. generalize 0%nat.
  induction complex as [|chain rest IH]; intros n i lines line Hlines Hi;
    cbn [CitationMapper.complex_chain_lines] in Hlines.
  - injection Hlines as <-. destruct i; discriminate.
  - destruct chain as [|first tl]; [discriminate|].
    destruct (CitationMapper.complex_chain_lines (S n) rest) as [lines'|] eqn:E;
      [|discriminate].
    injection Hlines as <-. destruct i as [|i].
    + injection Hi as <-. reflexivity.
    + eapply IH; eauto.
Qed.

Lemma filter_complement_length {A : Type} (P : A -> Prop) `{forall x, Decision (P x)}
    (l : list A) :
  (length (filter P l) + length (filter (fun x => ~ P x) l) = length l)%nat.
Proof.
  induction l as [|x l IH]; [reflexivity|].
  rewrite !filter_cons. destruct (decide (P x)), (decide (~ P x)); cbn [length]; try lia;
    tauto.
Qed.

(** X5: in the analysis every section of the map is counted once, as a
    section with references or as an isolated section, and no section has
    more references than the total. *)
Theorem analyze_citation_patterns_counts (items : list (string * list string)) :
  exists analysis,
    CitationMapper.analyze_citation_patterns items = Some analysis
    /\ CitationMapper.sections_with_references analysis
       + Z.of_nat (length (CitationMapper.isolated_sections analysis))
       = CitationMapper.total_sections analysis
    /\ 0 <= CitationMapper.max_references analysis
         <= CitationMapper.total_references analysis
    /\ Forall (fun item => Z.of_nat (length item.2)
                           <= CitationMapper.max_references analysis) items.
Proof.
  destruct (analyze_citation_patterns_runs items) as (vg & simple & complex & Hrun & _).
  unfold CitationMapper.analyze_citation_patterns. rewrite Hrun.
  eexists. split; [reflexivity|].
  cbn [CitationMapper.sections_with_references CitationMapper.isolated_sections
       CitationMapper.total_sections CitationMapper.max_references
       CitationMapper.total_references].
  split; [|split].
  - rewrite length_fmap, <- Nat2Z.inj_add. f_equal.
    rewrite Nat.add_comm.
    rewrite <- (filter_complement_length (fun item : string * list string => item.2 = []) items).
    reflexivity.
  - clear. induction items as [|item items IH]; cbn [foldr]; lia.
  - clear. induction items as [|item items IH]; cbn [foldr]; constructor.
    + lia.
    + eapply Forall_impl; [exact IH|]. cbn. intros; lia.
Qed.

(** ** The chains table *)

Lemma of_nat_inj (a b : nat) : PyStr.of_nat a = PyStr.of_nat b -> a = b.
Proof.
  unfold PyStr.of_nat. intros H.
  apply (f_equal NilEmpty.uint_of_string) in H.
  rewrite !NilEmpty.usu in H. injection H as H.
  apply DecimalNat.Unsigned.to_uint_inj, H.
Qed.

Lemma complex_chain_id_inj (a b : nat) :
  "complex_" ++ PyStr.of_nat a = "complex_" ++ PyStr.of_nat b -> a = b.
Proof. cbn [String.append]. intros [= H]. apply of_nat_inj, H. Qed.

Lemma complex_chain_lines_ids : forall complex_chains i lines,
  CitationMapper.complex_chain_lines i complex_chains = Some lines ->
  CitationMapper.chain_id <$> lines
  = (fun k => "complex_" ++ PyStr.of_nat k) <$> seq i (length complex_chains).
Proof.
  induction complex_chains as [|chain rest IH]; intros i lines H;
    cbn [CitationMapper.complex_chain_lines] in H.
  - injection H as <-. reflexivity.
  - destruct chain as [|first tl]; [discriminate|].
    destruct (CitationMapper.complex_chain_lines (S i) rest) as [lines'|] eqn:E;
      [|discriminate].
    injection H as <-. cbn [length seq fmap list_fmap CitationMapper.chain_id].
    f_equal. apply IH, E.
Qed.

Lemma foldl_insert_lines_lookup (lines : list LMDBBuilder.chain_line)
    (m : gmap string LMDBBuilder.chain_line) :
  NoDup (LMDBBuilder.line_chain_id <$> lines) ->
  (forall c, c ∈ lines ->
     foldl (fun acc c0 => <[ LMDBBuilder.line_chain_id c0 := c0 ]> acc) m lines
       !! LMDBBuilder.line_chain_id c = Some c)
  /\ (forall k, k ∉ LMDBBuilder.line_chain_id <$> lines ->
        foldl (fun acc c0 => <[ LMDBBuilder.line_chain_id c0 := c0 ]> acc) m lines !! k
        = m !! k).
Proof.
  revert m. induction lines as [|c0 lines IH]; intros m Hnd; cbn [foldl fmap list_fmap].
  - split; [intros c Hc; inversion Hc|reflexivity].
  - apply NoDup_cons in Hnd as [Hc0 Hnd].
    destruct (IH (<[ LMDBBuilder.line_chain_id c0 := c0 ]> m) Hnd) as [IH1 IH2]. split.
    + intros c [->|Hin]%elem_of_cons; [|apply IH1, Hin].
      rewrite IH2 by exact Hc0. apply lookup_insert_eq.
    + intros k [Hne Hk]%not_elem_of_cons. rewrite IH2 by exact Hk.
      apply lookup_insert_ne. congruence.
Qed.

(** The chains table after a build: one record per loaded chain line. *)
Lemma build_all_chains_db enable input k :
  exists b,
    LMDBBuilder.sections_data b = LMDBBuilder.sections_db (LMDBBuilder.build_all enable input)
    /\ LMDBBuilder.chains_db (LMDBBuilder.build_all enable input) !! k
       = LMDBBuilder.chain_entry b k
           <$> (foldl (fun acc c0 => <[ LMDBBuilder.line_chain_id c0 := c0 ]> acc)
                      (∅ : gmap string LMDBBuilder.chain_line)
                      (LMDBBuilder.complex_chains_file input) !! k).
Proof.
  unfold LMDBBuilder.build_all.
  set (b1 := LMDBBuilder.load_citation_data _ _ _ _).
  set (b2 := LMDBBuilder.build_sections_database _ b1).
  exists (LMDBBuilder.build_reverse_citations_database
            (LMDBBuilder.build_citations_database b2)).
  destruct (build_sections_database_spec b1 (LMDBBuilder.corpus_file input) b1)
    as ((_ & _ & Hch & _ & _ & _ & _ & Hdb) & Hd & _).
  - unfold LMDBBuilder.same_inputs. repeat split; reflexivity.
  - reflexivity.
  - intros id section H. cbn in H. rewrite lookup_empty in H. discriminate.
  - fold b2 in Hch, Hdb, Hd. split; [exact Hd|].
    cbn [LMDBBuilder.build_chains_database LMDBBuilder.with_chains_db
         LMDBBuilder.chains_db LMDBBuilder.chains_map
         LMDBBuilder.build_reverse_citations_database
         LMDBBuilder.with_reverse_citations_db
         LMDBBuilder.build_citations_database LMDBBuilder.with_citations_db].
    rewrite for_items_put_lookup, Hch, Hdb.
    change (LMDBBuilder.chains_db b1) with (∅ : gmap string LMDBBuilder.CitationChainDict).
    change (LMDBBuilder.chains_map b1)
      with (foldl (fun acc c0 => <[ LMDBBuilder.line_chain_id c0 := c0 ]> acc)
                  (∅ : gmap string LMDBBuilder.chain_line)
                  (LMDBBuilder.complex_chains_file input)).
    rewrite lookup_empty. destruct (_ !! k); reflexivity.
Qed.

(** X6: every complex chain that [save_results] writes is stored in the
    chains table of a build that ends without exception (every key of its
    transactions is accepted by [txn.put]), under its chain id
    [complex_i]: the record holds the chain itself, its first entry as
    primary section and its length as depth and reference count. *)
Theorem saved_chain_stored (enable : bool) (input : LMDBBuilder.build_input)
    (complex_chains : list (list string)) (lines : list CitationMapper.chain_data)
    (i : nat) (chain : list string) (b : LMDBBuilder.builder) :
  CitationMapper.complex_chain_lines 0 complex_chains = Some lines ->
  LMDBBuilder.complex_chains_file input = LMDBBuilder.read_chain_line <$> lines ->
  complex_chains !! i = Some chain ->
  LMDBBuilder.build_all_transactions enable input = Some b ->
  exists record,
    LMDBBuilder.chains_db b !! ("complex_" ++ PyStr.of_nat i) = Some record
    /\ LMDBBuilder.chain_id record = "complex_" ++ PyStr.of_nat i
    /\ LMDBBuilder.chain_sections record = chain
    /\ head chain = Some (LMDBBuilder.primary_section record)
    /\ LMDBBuilder.chain_depth record = Z.of_nat (length chain)
    /\ LMDBBuilder.references_count record = Z.of_nat (length chain).
Proof.
  intros Hlines Hfile Hi Hbuild.
  apply build_all_transactions_result in Hbuild as ->.
  destruct (complex_chain_lines_nonempty complex_chains 0) as (lines' & Hl' & Hmap).
  { clear - Hlines. revert lines Hlines. generalize 0%nat.
    induction complex_chains as [|c rest IH]; intros n lines H; constructor;
      cbn [CitationMapper.complex_chain_lines] in H;
      destruct c; try discriminate; try congruence.
    destruct (CitationMapper.complex_chain_lines (S n) rest) eqn:E; [|discriminate].
    eapply IH; eauto. }
  rewrite Hlines in Hl'. injection Hl' as <-.
  assert (Hline : exists line, lines !! i = Some line
                               /\ CitationMapper.chain_sections line = chain).
  { rewrite <- Hmap, list_lookup_fmap in Hi.
    destruct (lines !! i) as [line|]; [|discriminate]. injection Hi as <-. eauto. }
  destruct Hline as (line & Hli & Hsec).
  destruct (complex_chain_lines_chain_id _ _ _ Hlines _ _ Hli) as [Hid Hhd].
  cbn [Nat.add] in Hid.
  destruct (build_all_chains_db enable input ("complex_" ++ PyStr.of_nat i))
    as (b3 & _ & Hdb).
  assert (Hnd : NoDup (LMDBBuilder.line_chain_id <$> LMDBBuilder.complex_chains_file input)).
  { rewrite Hfile, <- list_fmap_compose.
    change (LMDBBuilder.line_chain_id ∘ LMDBBuilder.read_chain_line)
      with CitationMapper.chain_id.
    rewrite (complex_chain_lines_ids _ _ _ Hlines).
    apply NoDup_fmap_2; [|apply NoDup_seq].
    intros a b0. apply complex_chain_id_inj. }
  destruct (foldl_insert_lines_lookup (LMDBBuilder.complex_chains_file input) ∅ Hnd)
    as [Hget _].
  specialize (Hget (LMDBBuilder.read_chain_line line)).
  cbn [LMDBBuilder.read_chain_line LMDBBuilder.line_chain_id] in Hget.
  rewrite Hid in Hget. rewrite Hget in Hdb.
  2:{ rewrite Hfile. apply list_elem_of_fmap. exists line.
      split; [reflexivity|]. eapply list_elem_of_lookup_2, Hli. }
  eexists. split; [exact Hdb|].
  cbn [LMDBBuilder.chain_entry LMDBBuilder.chain_id LMDBBuilder.chain_sections
       LMDBBuilder.primary_section LMDBBuilder.chain_depth
       LMDBBuilder.references_count LMDBBuilder.line_chain_sections
       LMDBBuilder.line_primary_section LMDBBuilder.line_estimated_complexity].
  rewrite <- Hsec, Hhd.
  assert (Hest : CitationMapper.estimated_complexity line
                 = Z.of_nat (length (CitationMapper.chain_sections line))).
  { clear - Hlines Hli. revert i lines line Hlines Hli. generalize 0%nat.
    induction complex_chains as [|c rest IH]; intros n i lines line Hlines Hi;
      cbn [CitationMapper.complex_chain_lines] in Hlines.
    - injection Hlines as <-. destruct i; discriminate.
    - destruct c as [|first tl]; [discriminate|].
      destruct (CitationMapper.complex_chain_lines (S n) rest) as [lines'|] eqn:E;
        [|discriminate].
      injection Hlines as <-. destruct i as [|i].
      + injection Hi as <-. reflexivity.
      + eapply IH; eauto. }
  unfold LMDBBuilder.read_chain_line.
  cbn [LMDBBuilder.line_chain_sections LMDBBuilder.line_primary_section
       LMDBBuilder.line_estimated_complexity from_option id].
  rewrite Hest. auto 10.
Qed.

Lemma saved_chain_stored_witness :
  LMDBBuilder.build_all_transactions true Scenario.chains_only
  = Some (LMDBBuilder.build_all true Scenario.chains_only)
  /\ exists record,
       LMDBBuilder.chains_db (LMDBBuilder.build_all true Scenario.chains_only)
         !! "complex_0" = Some record
       /\ LMDBBuilder.chain_sections record = ["101.15"; "101.16"; "101.17"; "101.18"].
Proof.
  assert (Hbuild : LMDBBuilder.build_all_transactions true Scenario.chains_only
                   = Some (LMDBBuilder.build_all true Scenario.chains_only))
    by (vm_compute; reflexivity).
  split; [exact Hbuild|].
  destruct (saved_chain_stored true Scenario.chains_only
              Scenario.complex_chains _ 0 ["101.15"; "101.16"; "101.17"; "101.18"]
              (LMDBBuilder.build_all true Scenario.chains_only)
              eq_refl eq_refl eq_refl Hbuild) as (record & Hget & _ & Hsec & _).
  exists record. split; [exact Hget|exact Hsec].
Defined.

(** ** The primary table *)

Lemma stored_section_origin b0 : forall corpus b id section,
  LMDBBuilder.same_inputs b b0 ->
  LMDBBuilder.sections_db (LMDBBuilder.build_sections_database corpus b) !! id
    = Some section ->
  LMDBBuilder.sections_db b !! id = Some section
  \/ exists d, d ∈ corpus
               /\ PyStr.contains "|" (LMDBBuilder.doc_header d) = true
               /\ section = LMDBBuilder.make_section b0 d
               /\ LMDBBuilder.section_key d = id.
Proof.
  unfold LMDBBuilder.build_sections_database.
  induction corpus as [|d corpus IH]; intros b id section Hsame; cbn [foldl]; [auto|].
  intros H. apply IH in H.
  2:{ pose proof (store_section_same_inputs b d) as H'.
      unfold LMDBBuilder.same_inputs in *. intuition congruence. }
  destruct H as [H|(d' & Hin & Hrest)].
  - unfold LMDBBuilder.store_section in H.
    destruct (PyStr.contains "|" (LMDBBuilder.doc_header d)) eqn:Hpipe; cbn [negb] in H;
      [|auto].
    cbn [LMDBBuilder.sections_db] in H.
    destruct (decide (LMDBBuilder.section_number (LMDBBuilder.make_section b d) = id))
      as [Heq|Hne].
    + rewrite <- Heq, lookup_insert_eq in H. injection H as <-.
      right. exists d. split; [apply list_elem_of_here|]. split; [exact Hpipe|].
      split; [apply make_section_same_inputs, Hsame|exact Heq].
    + rewrite lookup_insert_ne in H by exact Hne. auto.
  - right. exists d'. split; [apply list_elem_of_further, Hin|exact Hrest].
Qed.

Lemma stored_section_kept b0 : forall corpus b k section,
  LMDBBuilder.same_inputs b b0 ->
  LMDBBuilder.sections_db b !! k = Some section ->
  Forall (fun d => PyStr.contains "|" (LMDBBuilder.doc_header d) = true ->
                   LMDBBuilder.section_key d <> k) corpus ->
  LMDBBuilder.sections_db (LMDBBuilder.build_sections_database corpus b) !! k
  = Some section.
Proof.
  unfold LMDBBuilder.build_sections_database.
  induction corpus as [|d corpus IH]; intros b k section Hsame Hk Hall; cbn [foldl];
    [exact Hk|].
  apply Forall_cons in Hall as [Hd Hall]. apply IH; [| |exact Hall].
  - pose proof (store_section_same_inputs b d) as H'.
    unfold LMDBBuilder.same_inputs in *. intuition congruence.
  - unfold LMDBBuilder.store_section.
    destruct (PyStr.contains "|" (LMDBBuilder.doc_header d)) eqn:Hpipe; cbn [negb];
      [|exact Hk].
    cbn [LMDBBuilder.sections_db]. rewrite lookup_insert_ne; [exact Hk|].
    apply Hd. reflexivity.
Qed.

(** X7: every section of the primary table comes from a line of the
    corpus whose header has a pipe: it is stored under the key read from
    that header, with the header, url, url hash and paragraphs of the line
    unchanged, and its full text, paragraph count and word count are those
    of these paragraphs. *)
Theorem stored_section_verbatim (enable : bool) (input : LMDBBuilder.build_input)
    (id : string) (section : LMDBBuilder.OhioSectionDict) :
  LMDBBuilder.sections_db (LMDBBuilder.build_all enable input) !! id = Some section ->
  exists d,
    d ∈ LMDBBuilder.corpus_file input
    /\ PyStr.contains "|" (LMDBBuilder.doc_header d) = true
    /\ LMDBBuilder.section_key d = id
    /\ LMDBBuilder.section_number section = id
    /\ LMDBBuilder.header section = LMDBBuilder.doc_header d
    /\ LMDBBuilder.url section = LMDBBuilder.doc_url d
    /\ LMDBBuilder.url_hash section = LMDBBuilder.doc_url_hash d
    /\ LMDBBuilder.paragraphs section = LMDBBuilder.doc_paragraphs d
    /\ LMDBBuilder.full_text section
       = PyStr.join LMDBBuilder.newline (LMDBBuilder.doc_paragraphs d)
    /\ LMDBBuilder.paragraph_count section
       = Z.of_nat (length (LMDBBuilder.doc_paragraphs d))
    /\ LMDBBuilder.word_count section
       = LMDBBuilder.count_words (LMDBBuilder.doc_paragraphs d).
Proof.
  intros H. rewrite build_all_sections_db in H.
  eapply stored_section_origin in H.
  2:{ unfold LMDBBuilder.same_inputs. repeat split; reflexivity. }
  destruct H as [H|(d & Hin & Hpipe & -> & Hkey)].
  - cbn in H. rewrite lookup_empty in H. discriminate.
  - exists d. split_ands; auto.
Qed.

Lemma stored_section_verbatim_witness :
  exists d,
    d ∈ LMDBBuilder.corpus_file Scenario.two_citations
    /\ LMDBBuilder.paragraphs
         (LMDBBuilder.make_section
            (LMDBBuilder.load_citation_data
               (LMDBBuilder.citation_map_file Scenario.two_citations) [] []
               (LMDBBuilder.new_builder true))
            Scenario.rule_definitions)
       = LMDBBuilder.doc_paragraphs d.
Proof.
  destruct (stored_section_verbatim true Scenario.two_citations "3701-17-01"
              (LMDBBuilder.make_section
                 (LMDBBuilder.load_citation_data
                    (LMDBBuilder.citation_map_file Scenario.two_citations) [] []
                    (LMDBBuilder.new_builder true))
                 Scenario.rule_definitions))
    as (d & Hin & _ & _ & _ & _ & _ & _ & Hpar & _).
  - vm_compute; reflexivity.
  - exists d. split; [exact Hin|exact Hpar].
Defined.

(** X8: in a corpus all of whose stored lines have a section number LMDB
    accepts as a key (not empty, at most 511 bytes), the write transaction
    of [build_sections_database] commits, and when several lines have the
    same section number, the last of them is the one the primary table
    holds. *)
Theorem last_line_wins (enable : bool) (input : LMDBBuilder.build_input)
    (before after : list LMDBBuilder.doc) (d : LMDBBuilder.doc) :
  LMDBBuilder.corpus_file input = (before ++ d :: after)%list ->
  PyStr.contains "|" (LMDBBuilder.doc_header d) = true ->
  Forall (fun d' => PyStr.contains "|" (LMDBBuilder.doc_header d') = true ->
                    LMDBBuilder.section_key d' <> LMDBBuilder.section_key d) after ->
  Forall (fun d' => PyStr.contains "|" (LMDBBuilder.doc_header d') = true ->
                    LMDB.valid_key (LMDBBuilder.section_key d') = true)
         (LMDBBuilder.corpus_file input) ->
  exists b section,
    LMDBBuilder.sections_transaction (LMDBBuilder.corpus_file input)
      (LMDBBuilder.load_citation_data (LMDBBuilder.citation_map_file input)
         (LMDBBuilder.complex_chains_file input)
         (LMDBBuilder.citation_contexts_file input)
         (LMDBBuilder.new_builder enable))
    = Some b
    /\ LMDBBuilder.sections_db b
       = LMDBBuilder.sections_db (LMDBBuilder.build_all enable input)
    /\ LMDBBuilder.sections_db b !! LMDBBuilder.section_key d = Some section
    /\ LMDBBuilder.header section = LMDBBuilder.doc_header d
    /\ LMDBBuilder.url section = LMDBBuilder.doc_url d
    /\ LMDBBuilder.url_hash section = LMDBBuilder.doc_url_hash d
    /\ LMDBBuilder.paragraphs section = LMDBBuilder.doc_paragraphs d.
Proof.
  intros Hcorpus Hpipe Hafter Hkeys.
  rewrite (sections_transaction_commits _ _ Hkeys), build_all_sections_db, Hcorpus.
  set (b1 := LMDBBuilder.load_citation_data _ _ _ _).
  eexists. cut (exists section,
    LMDBBuilder.sections_db (LMDBBuilder.build_sections_database
                               (before ++ d :: after)%list b1)
      !! LMDBBuilder.section_key d = Some section
    /\ LMDBBuilder.header section = LMDBBuilder.doc_header d
    /\ LMDBBuilder.url section = LMDBBuilder.doc_url d
    /\ LMDBBuilder.url_hash section = LMDBBuilder.doc_url_hash d
    /\ LMDBBuilder.paragraphs section = LMDBBuilder.doc_paragraphs d).
  { intros (section & H). exists section. split; [reflexivity|].
    split; [reflexivity|exact H]. }
  unfold LMDBBuilder.build_sections_database. rewrite foldl_app. cbn [foldl].
  set (b := foldl LMDBBuilder.store_section b1 before).
  assert (Hsame : LMDBBuilder.same_inputs b b1).
  { destruct (build_sections_database_spec b1 before b1) as (H & _); auto.
    - unfold LMDBBuilder.same_inputs. repeat split; reflexivity.
    - intros id section H. cbn in H. rewrite lookup_empty in H. discriminate. }
  exists (LMDBBuilder.make_section b d). split; [|split_ands; reflexivity].
  apply (stored_section_kept b1 after (LMDBBuilder.store_section b d)).
  - pose proof (store_section_same_inputs b d) as H'.
    unfold LMDBBuilder.same_inputs in *. intuition congruence.
  - unfold LMDBBuilder.store_section. rewrite Hpipe. cbn [negb LMDBBuilder.sections_db].
    apply lookup_insert_eq.
  - exact Hafter.
Qed.

Lemma last_line_wins_witness :
  exists section,
    LMDBBuilder.sections_db
      (LMDBBuilder.build_all true
         {| LMDBBuilder.corpus_file :=
              [Scenario.rule_isolated;
               {| LMDBBuilder.doc_url := "https://codes.ohio.gov/3701-17-04/v2";
                  LMDBBuilder.doc_url_hash := "f60718a1b2c3d4e5";
                  LMDBBuilder.doc_header := "Rule 3701-17-04|Fees.";
                  LMDBBuilder.doc_paragraphs := ["The fee is ten dollars."] |}];
            LMDBBuilder.citation_map_file := ∅;
            LMDBBuilder.complex_chains_file := [];
            LMDBBuilder.citation_contexts_file := [] |})
      !! "3701-17-04" = Some section
    /\ LMDBBuilder.paragraphs section = ["The fee is ten dollars."].
Proof.
  destruct (last_line_wins true
              {| LMDBBuilder.corpus_file :=
                   [Scenario.rule_isolated;
                    {| LMDBBuilder.doc_url := "https://codes.ohio.gov/3701-17-04/v2";
                       LMDBBuilder.doc_url_hash := "f60718a1b2c3d4e5";
                       LMDBBuilder.doc_header := "Rule 3701-17-04|Fees.";
                       LMDBBuilder.doc_paragraphs := ["The fee is ten dollars."] |}];
                 LMDBBuilder.citation_map_file := ∅;
                 LMDBBuilder.complex_chains_file := [];
                 LMDBBuilder.citation_contexts_file := [] |}
              [Scenario.rule_isolated] []
              {| LMDBBuilder.doc_url := "https://codes.ohio.gov/3701-17-04/v2";
                 LMDBBuilder.doc_url_hash := "f60718a1b2c3d4e5";
                 LMDBBuilder.doc_header := "Rule 3701-17-04|Fees.";
                 LMDBBuilder.doc_paragraphs := ["The fee is ten dollars."] |}
              eq_refl eq_refl (Forall_nil_2 _))
    as (b & section & _ & Hdb & Hget & _ & _ & _ & Hpar).
  - repeat constructor; intros _; vm_compute; reflexivity.
  - exists section. rewrite <- Hdb. split; [exact Hget|exact Hpar].
Defined.

Lemma split_ws_go_newline (a b : string) : forall cur,
  PyStr.split_ws_go cur (a ++ String "010" b)
  = (PyStr.split_ws_go cur a ++ PyStr.split_ws_go None b)%list.
Proof.
  induction a as [|c a IH]; intros cur.
  - change (EmptyString ++ String "010" b) with (String "010" b).
    cbn [PyStr.split_ws_go].
    change (PyStr.isspace "010") with true. cbv iota. destruct cur; reflexivity.
  - change (String c a ++ String "010" b) with (String c (a ++ String "010" b)).
    cbn [PyStr.split_ws_go].
    destruct (PyStr.isspace c), cur; rewrite IH; reflexivity.
Qed.

Lemma count_words_full_text (paragraphs : list string) :
  LMDBBuilder.count_words paragraphs
  = Z.of_nat (length (PyStr.split_ws (PyStr.join LMDBBuilder.newline paragraphs))).
Proof.
  unfold PyStr.split_ws.
  induction paragraphs as [|p ps IH]; [reflexivity|].
  change (LMDBBuilder.count_words (p :: ps))
    with (Z.of_nat (length (PyStr.split_ws_go None p)) + LMDBBuilder.count_words ps).
  rewrite IH.
  destruct ps as [|q ps].
  - cbn [PyStr.join PyStr.split_ws_go length]. lia.
  - change (PyStr.join LMDBBuilder.newline (p :: q :: ps))
      with (p ++ String "010" (PyStr.join LMDBBuilder.newline (q :: ps))).
    rewrite split_ws_go_newline, length_app. lia.
Qed.

(** X9: the word count stored with a section is the number of words of
    its full text ([len(full_text.split())]), and the paragraph count is
    the number of its paragraphs. *)
Theorem word_count_of_full_text (b : LMDBBuilder.builder) (d : LMDBBuilder.doc) :
  LMDBBuilder.word_count (LMDBBuilder.make_section b d)
  = Z.of_nat (length (PyStr.split_ws
                        (LMDBBuilder.full_text (LMDBBuilder.make_section b d))))
  /\ LMDBBuilder.paragraph_count (LMDBBuilder.make_section b d)
     = Z.of_nat (length (LMDBBuilder.paragraphs (LMDBBuilder.make_section b d))).
Proof.
  unfold LMDBBuilder.make_section.
  cbn [LMDBBuilder.word_count LMDBBuilder.full_text LMDBBuilder.paragraph_count
       LMDBBuilder.paragraphs].
  split; [apply count_words_full_text|reflexivity].
Qed.

(** ** The citations and reverse citations tables *)

Lemma take_length_le (n : nat) : forall s, (String.length (PyStr.take n s) <= n)%nat.
Proof.
  induction n as [|n IH]; intros s; destruct s; cbn [PyStr.take String.length]; try lia.
  specialize (IH s). lia.
Qed.

Lemma reference_detail_row b enhanced_map ref :
  LMDBBuilder.ref_section (LMDBBuilder.reference_detail b enhanced_map ref) = ref
  /\ (String.length
        (LMDBBuilder.ref_context (LMDBBuilder.reference_detail b enhanced_map ref))
      <= 100)%nat
  /\ match LMDBBuilder.sections_data b !! ref with
     | Some target =>
         LMDBBuilder.ref_title (LMDBBuilder.reference_detail b enhanced_map ref)
           = LMDBBuilder.section_title target
         /\ LMDBBuilder.ref_url (LMDBBuilder.reference_detail b enhanced_map ref)
            = LMDBBuilder.url target
         /\ LMDBBuilder.ref_url_hash (LMDBBuilder.reference_detail b enhanced_map ref)
            = LMDBBuilder.url_hash target
     | None =>
         LMDBBuilder.ref_title (LMDBBuilder.reference_detail b enhanced_map ref) = ""
         /\ LMDBBuilder.ref_url (LMDBBuilder.reference_detail b enhanced_map ref) = ""
         /\ LMDBBuilder.ref_url_hash (LMDBBuilder.reference_detail b enhanced_map ref) = ""
     end.
Proof.
  unfold LMDBBuilder.reference_detail.
  destruct (LMDBBuilder.sections_data b !! ref) as [target|];
    destruct (enhanced_map !! ref) as [info|];
    cbn [LMDBBuilder.ref_section LMDBBuilder.ref_context LMDBBuilder.ref_title
         LMDBBuilder.ref_url LMDBBuilder.ref_url_hash];
    split_ands; try reflexivity; try apply take_length_le; cbn; lia.
Qed.

(** X10: an entry of the citations table is stored under the citing
    section, lists the references of the citation map, counts them, and
    has one details row per reference, in the same order; the context of a
    row has at most 100 characters, and a row carries the title, url and
    url hash of its target when the target is in the primary table (empty
    strings otherwise). *)
Theorem citations_entry_shape (enable : bool) (input : LMDBBuilder.build_input)
    (s : string) (entry : LMDBBuilder.CitationDataDict) :
  LMDBBuilder.citations_db (LMDBBuilder.build_all enable input) !! s = Some entry ->
  LMDBBuilder.cit_section entry = s
  /\ LMDBBuilder.citation_map_file input !! s
     = Some (LMDBBuilder.direct_references entry)
  /\ LMDBBuilder.reference_count entry
     = Z.of_nat (length (LMDBBuilder.direct_references entry))
  /\ LMDBBuilder.ref_section <$> LMDBBuilder.references_details entry
     = LMDBBuilder.direct_references entry
  /\ Forall
       (fun row =>
          (String.length (LMDBBuilder.ref_context row) <= 100)%nat
          /\ match LMDBBuilder.sections_db (LMDBBuilder.build_all enable input)
                   !! LMDBBuilder.ref_section row with
             | Some target =>
                 LMDBBuilder.ref_title row = LMDBBuilder.section_title target
                 /\ LMDBBuilder.ref_url row = LMDBBuilder.url target
                 /\ LMDBBuilder.ref_url_hash row = LMDBBuilder.url_hash target
             | None =>
                 LMDBBuilder.ref_title row = ""
                 /\ LMDBBuilder.ref_url row = ""
                 /\ LMDBBuilder.ref_url_hash row = ""
             end)
       (LMDBBuilder.references_details entry).
Proof.
  rewrite build_all_citations_db, build_all_sections_db.
  destruct (loaded_builder_sections enable (LMDBBuilder.citation_map_file input)
              (LMDBBuilder.complex_chains_file input)
              (LMDBBuilder.citation_contexts_file input)
              (LMDBBuilder.corpus_file input)) as (_ & _ & _ & _ & Hdata & _).
  cbv zeta in Hdata. rewrite <- Hdata.
  destruct (LMDBBuilder.citation_map_file input !! s) as [refs|]; [|discriminate].
  intros [= <-].
  cbn [LMDBBuilder.citation_entry LMDBBuilder.cit_section LMDBBuilder.direct_references
       LMDBBuilder.reference_count LMDBBuilder.references_details].
  split_ands; try reflexivity.
  - rewrite <- list_fmap_compose. induction refs as [|r refs IH]; [reflexivity|].
    cbn [fmap list_fmap]. f_equal; [|exact IH].
    apply reference_detail_row.
  - apply Forall_fmap, Forall_forall. intros ref _. cbn [compose].
    destruct (reference_detail_row
                (LMDBBuilder.build_sections_database (LMDBBuilder.corpus_file input)
                   (LMDBBuilder.load_citation_data (LMDBBuilder.citation_map_file input)
                      (LMDBBuilder.complex_chains_file input)
                      (LMDBBuilder.citation_contexts_file input)
                      (LMDBBuilder.new_builder enable)))
                (LMDBBuilder.enhanced_map_of
                   (default []
                      (LMDBBuilder.citation_contexts_map
                         (LMDBBuilder.build_sections_database
                            (LMDBBuilder.corpus_file input)
                            (LMDBBuilder.load_citation_data
                               (LMDBBuilder.citation_map_file input)
                               (LMDBBuilder.complex_chains_file input)
                               (LMDBBuilder.citation_contexts_file input)
                               (LMDBBuilder.new_builder enable))) !! s)))
                ref) as (Hsec & Hlen & Hrow).
    split; [exact Hlen|]. rewrite Hsec. exact Hrow.
Qed.

Lemma citations_entry_shape_witness :
  exists entry,
    LMDBBuilder.citations_db (LMDBBuilder.build_all true Scenario.two_citations)
      !! "3701-17-01" = Some entry
    /\ LMDBBuilder.ref_section <$> LMDBBuilder.references_details entry
       = LMDBBuilder.direct_references entry.
Proof.
  eexists. split; [vm_compute; reflexivity|].
  refine (proj1 (proj2 (proj2 (proj2
            (citations_entry_shape true Scenario.two_citations "3701-17-01" _ _))))).
  vm_compute; reflexivity.
Defined.

#[global] Instance str_le_total : Total LMDBBuilder.str_le.
Proof. intros a b. unfold LMDBBuilder.str_le. apply String.leb_total. Qed.

Lemma citing_detail_rows_sections b (citing : list string) :
  LMDBBuilder.citing_section <$> LMDBBuilder.citing_detail_rows b citing
  = filter (fun s => is_Some (LMDBBuilder.sections_data b !! s)) citing
  /\ Forall (fun row =>
               exists section,
                 LMDBBuilder.sections_data b !! LMDBBuilder.citing_section row
                   = Some section
                 /\ LMDBBuilder.citing_title row = LMDBBuilder.section_title section
                 /\ LMDBBuilder.citing_url row = LMDBBuilder.url section)
            (LMDBBuilder.citing_detail_rows b citing).
Proof.
  unfold LMDBBuilder.citing_detail_rows.
  induction citing as [|c citing [IH1 IH2]]; [split; [reflexivity|constructor]|].
  cbn [omap list_omap]. rewrite filter_cons.
  destruct (LMDBBuilder.sections_data b !! c) as [section|] eqn:E.
  - destruct (decide (is_Some (Some section))) as [_|Hn]; [|exfalso; eauto].
    cbn [fmap list_fmap LMDBBuilder.citing_section]. split; [f_equal; exact IH1|].
    constructor; [|exact IH2]. exists section. cbn. auto.
  - destruct (decide (is_Some (@None LMDBBuilder.OhioSectionDict))) as [[x Hx]|_];
      [discriminate|]. auto.
Qed.

Lemma build_all_reverse_entry enable input t :
  exists b,
    LMDBBuilder.sections_data b = LMDBBuilder.sections_db (LMDBBuilder.build_all enable input)
    /\ LMDBBuilder.reverse_citations_db (LMDBBuilder.build_all enable input) !! t
       = LMDBBuilder.reverse_entry b t
           <$> (LMDBBuilder.build_reverse_map (LMDBBuilder.citation_map_file input) !! t).
Proof.
  unfold LMDBBuilder.build_all.
  set (b2 := LMDBBuilder.build_sections_database _ _).
  exists (LMDBBuilder.build_citations_database b2).
  destruct (loaded_builder_sections enable (LMDBBuilder.citation_map_file input)
              (LMDBBuilder.complex_chains_file input)
              (LMDBBuilder.citation_contexts_file input)
              (LMDBBuilder.corpus_file input)) as (Hcm & _ & _ & Hr & Hd & _).
  fold b2 in Hcm, Hr, Hd. split; [exact Hd|].
  cbn [LMDBBuilder.build_chains_database LMDBBuilder.with_chains_db
       LMDBBuilder.build_reverse_citations_database
       LMDBBuilder.with_reverse_citations_db LMDBBuilder.reverse_citations_db
       LMDBBuilder.build_citations_database LMDBBuilder.with_citations_db
       LMDBBuilder.citation_map].
  rewrite for_items_put_lookup, Hcm, Hr, lookup_empty.
  destruct (_ !! t); reflexivity.
Qed.

(** X11: an entry of the reverse citations table is stored under the
    cited id; its [cited_by] list is not empty, is in ascending order, has
    no duplicate and is counted by [cited_by_count]; [citing_details] has
    one row, with the section's title and url, for each citing section
    that is in the primary table, in the same order. *)
Theorem reverse_entry_shape (enable : bool) (input : LMDBBuilder.build_input)
    (t : string) (entry : LMDBBuilder.ReverseCitationDataDict) :
  LMDBBuilder.reverse_citations_db (LMDBBuilder.build_all enable input) !! t
    = Some entry ->
  LMDBBuilder.rev_section entry = t
  /\ LMDBBuilder.cited_by entry <> []
  /\ Sorted LMDBBuilder.str_le (LMDBBuilder.cited_by entry)
  /\ NoDup (LMDBBuilder.cited_by entry)
  /\ LMDBBuilder.cited_by_count entry = Z.of_nat (length (LMDBBuilder.cited_by entry))
  /\ LMDBBuilder.citing_section <$> LMDBBuilder.citing_details entry
     = filter (fun s => is_Some (LMDBBuilder.sections_db
                                   (LMDBBuilder.build_all enable input) !! s))
              (LMDBBuilder.cited_by entry)
  /\ Forall (fun row =>
               exists section,
                 LMDBBuilder.sections_db (LMDBBuilder.build_all enable input)
                   !! LMDBBuilder.citing_section row = Some section
                 /\ LMDBBuilder.citing_title row = LMDBBuilder.section_title section
                 /\ LMDBBuilder.citing_url row = LMDBBuilder.url section)
            (LMDBBuilder.citing_details entry).
Proof.
  destruct (build_all_reverse_entry enable input t) as (b & Hdata & ->).
  rewrite <- Hdata.
  destruct (LMDBBuilder.build_reverse_map (LMDBBuilder.citation_map_file input) !! t)
    as [citing|] eqn:E; [|discriminate].
  intros [= <-].
  cbn [LMDBBuilder.reverse_entry LMDBBuilder.rev_section LMDBBuilder.cited_by
       LMDBBuilder.cited_by_count LMDBBuilder.citing_details].
  assert (Hperm : LMDBBuilder.sorted (elements citing) ≡ₚ elements citing)
    by apply merge_sort_Permutation.
  split; [reflexivity|]. split.
  - intros Hnil.
    assert (Hsome : is_Some (LMDBBuilder.build_reverse_map
                               (LMDBBuilder.citation_map_file input) !! t)) by eauto.
    apply build_reverse_map_some in Hsome as (s & refs & Hs & Ht).
    assert (Hin : s ∈ citing).
    { pose proof (proj2 (build_reverse_map_spec (LMDBBuilder.citation_map_file input) s t))
        as H. rewrite E in H. apply H. eauto. }
    apply elem_of_elements in Hin. rewrite <- Hperm, Hnil in Hin. inversion Hin.
  - split; [apply Sorted_merge_sort; apply _|].
    split; [rewrite Hperm; apply NoDup_elements|].
    split; [rewrite Hperm; reflexivity|].
    apply citing_detail_rows_sections.
Qed.

Lemma reverse_entry_shape_witness :
  exists entry,
    LMDBBuilder.reverse_citations_db (LMDBBuilder.build_all true Scenario.two_citations)
      !! "121.22" = Some entry
    /\ LMDBBuilder.cited_by_count entry
       = Z.of_nat (length (LMDBBuilder.cited_by entry)).
Proof.
  eexists. split; [vm_compute; reflexivity|].
  refine (proj1 (proj2 (proj2 (proj2 (proj2
            (reverse_entry_shape true Scenario.two_citations "121.22" _ _)))))).
  vm_compute; reflexivity.
Defined.

(** ** The metadata table *)

Lemma append_cons (c : ascii) (a s : string) : String c a ++ s = String c (a ++ s).
Proof. reflexivity. Qed.

Lemma append_nil (s : string) : EmptyString ++ s = s.
Proof. reflexivity. Qed.

Lemma length_append (a s : string) :
  String.length (a ++ s) = (String.length a + String.length s)%nat.
Proof.
  induction a as [|c a IH]; [reflexivity|].
  rewrite append_cons. cbn [String.length]. now rewrite IH.
Qed.

Lemma append_inj_suffix (s : string) : forall a b, a ++ s = b ++ s -> a = b.
Proof.
  induction a as [|c a IH]; intros [|c' b] H; rewrite ?append_cons, ?append_nil in H.
  - reflexivity.
  - apply (f_equal String.length) in H. cbn [String.length] in H.
    rewrite length_append in H. lia.
  - apply (f_equal String.length) in H. cbn [String.length] in H.
    rewrite length_append in H. lia.
  - injection H as -> H. f_equal. apply IH, H.
Qed.

(** A loop over the items of a dict that puts one entry per item, under a
    key computed from the item's key by an injective function. *)
Lemma foldl_put_renamed_lookup {V W : Type} (g : string -> string)
    (f : string -> V -> W) :
  (forall a b, g a = g b -> a = b) ->
  forall (l : list (string * V)) (db : gmap string W),
    NoDup l.*1 ->
    (forall k v, (k, v) ∈ l ->
       foldl (fun acc kv => <[ g kv.1 := f kv.1 kv.2 ]> acc) db l !! g k = Some (f k v))
    /\ (forall k', (forall k, k ∈ l.*1 -> g k <> k') ->
          foldl (fun acc kv => <[ g kv.1 := f kv.1 kv.2 ]> acc) db l !! k' = db !! k').
Proof.
  intros Hinj. induction l as [|[k0 v0] l IH]; intros db Hnd;
    cbn [foldl fmap list_fmap fst snd].
  - split; [intros k v Hv; inversion Hv | reflexivity].
  - apply NoDup_cons in Hnd as [Hk0 Hnd].
    destruct (IH (<[ g k0 := f k0 v0 ]> db) Hnd) as [IH1 IH2]. split.
    + intros k v [Heq|Hin]%elem_of_cons; [|apply IH1, Hin].
      injection Heq as <- <-. rewrite IH2; [apply lookup_insert_eq|].
      intros k1 Hk1 Heq. apply Hinj in Heq. subst k1. exact (Hk0 Hk1).
    + intros k' Hk'. rewrite IH2.
      * apply lookup_insert_ne. apply Hk', list_elem_of_here.
      * intros k1 Hk1. apply Hk', list_elem_of_further, Hk1.
Qed.

Lemma for_items_put_renamed_lookup {V W : Type} (d : gmap string V)
    (g : string -> string) (f : string -> V -> W) (db : gmap string W) :
  (forall a b, g a = g b -> a = b) ->
  (forall k, LMDBBuilder.for_items d (fun acc key v => <[ g key := f key v ]> acc) db
               !! g k
             = match d !! k with
               | Some v => Some (f k v)
               | None => db !! g k
               end)
  /\ (forall k', (forall k, g k <> k') ->
        LMDBBuilder.for_items d (fun acc key v => <[ g key := f key v ]> acc) db !! k'
        = db !! k').
Proof.
  intros Hinj. unfold LMDBBuilder.for_items.
  destruct (foldl_put_renamed_lookup g f Hinj (map_to_list d) db
              (NoDup_fst_map_to_list d)) as [H1 H2].
  split.
  - intros k. destruct (d !! k) as [v|] eqn:E.
    + apply H1, elem_of_map_to_list, E.
    + apply H2. intros k1 [[k2 v2] [Hk Hin]]%list_elem_of_fmap Heq.
      cbn in Hk. subst k2. apply Hinj in Heq. subst k1.
      apply elem_of_map_to_list in Hin. congruence.
  - intros k' Hk'. apply H2. intros k _. apply Hk'.
Qed.

Lemma section_meta_key_inj (a b : string) :
  "section_" ++ a ++ "_meta" = "section_" ++ b ++ "_meta" -> a = b.
Proof.
  intros H. apply (String.app_inj "section_") in H.
  eapply append_inj_suffix, H.
Qed.

Lemma inbound_key_inj (a b : string) :
  "inbound_count_" ++ a = "inbound_count_" ++ b -> a = b.
Proof. apply (String.app_inj "inbound_count_"). Qed.








Lemma for_items_put_size {V W : Type} (d : gmap string V) (f : string -> V -> W) :
  size (LMDBBuilder.for_items d (fun acc key v => <[ key := f key v ]> acc)
          (∅ : gmap string W))
  = size d.
Proof.
  rewrite <- !(size_dom (D := gset string)). f_equal. apply set_eq. intros k.
  rewrite !elem_of_dom, for_items_put_lookup, lookup_empty.
  destruct (d !! k); split; intros [x Hx]; eauto; discriminate.
Qed.

Lemma build_sections_database_size : forall corpus b,
  (size (LMDBBuilder.sections_db (LMDBBuilder.build_sections_database corpus b))
   <= size (LMDBBuilder.sections_db b)
      + length (filter (fun d => PyStr.contains "|" (LMDBBuilder.doc_header d) = true)
                       corpus))%nat.
Proof.
  unfold LMDBBuilder.build_sections_database.
  induction corpus as [|d corpus IH]; intros b; cbn [foldl];
    [rewrite filter_nil; cbn [length]; lia|].
  etransitivity; [apply IH|]. rewrite filter_cons.
  unfold LMDBBuilder.store_section.
  destruct (PyStr.contains "|" (LMDBBuilder.doc_header d)) eqn:Hpipe; cbn [negb].
  - destruct (decide (true = true)); [|congruence]. cbn [length LMDBBuilder.sections_db].
    rewrite map_size_insert. destruct (_ !! _); unfold id; lia.
  - destruct (decide (false = true)); [discriminate|]. lia.
Qed.

(** X13: the [corpus_info] record the metadata table holds reports, as
    [total_sections], the number of corpus lines whose header has a pipe
    (the lines that were stored: a line without a pipe is not counted, a
    section number that occurs twice is counted twice), and the numbers of
    entries of the citations, chains and reverse citations tables;
    [total_sections] is at least the number of entries of the primary
    table and at most the number of corpus lines. *)
Theorem corpus_info_counts (enable : bool) (input : LMDBBuilder.build_input)
    (info : LMDBBuilder.metadata_value) :
  LMDBBuilder.build_all_metadata enable input !! "corpus_info" = Some info ->
  info
  = LMDBBuilder.CorpusInfo
      (Z.of_nat (length (filter (fun d => PyStr.contains "|" (LMDBBuilder.doc_header d)
                                          = true)
                                (LMDBBuilder.corpus_file input))))
      (Z.of_nat (size (LMDBBuilder.citations_db (LMDBBuilder.build_all enable input))))
      (Z.of_nat (size (LMDBBuilder.chains_db (LMDBBuilder.build_all enable input))))
      (Z.of_nat (size (LMDBBuilder.reverse_citations_db
                         (LMDBBuilder.build_all enable input))))
  /\ Z.of_nat (size (LMDBBuilder.sections_db (LMDBBuilder.build_all enable input)))
     <= Z.of_nat (length (filter (fun d => PyStr.contains "|" (LMDBBuilder.doc_header d)
                                           = true)
                                 (LMDBBuilder.corpus_file input)))
     <= Z.of_nat (length (LMDBBuilder.corpus_file input)).
Proof.
  intros Hinfo.
  change (Z.of_nat (length (filter (fun d => PyStr.contains "|" (LMDBBuilder.doc_header d)
                                             = true)
                                   (LMDBBuilder.corpus_file input))))
    with (LMDBBuilder.sections_count (LMDBBuilder.corpus_file input)).
  split.
  - apply (inj (@Some LMDBBuilder.metadata_value)). rewrite <- Hinfo. clear Hinfo.
    unfold LMDBBuilder.build_all_metadata, LMDBBuilder.calculate_inbound_counts.
    destruct (for_items_put_renamed_lookup
                (LMDBBuilder.inbound_counts (LMDBBuilder.build_all enable input))
                (fun section => "inbound_count_" ++ section)
                (fun section count => LMDBBuilder.InboundCount section count)
                (LMDBBuilder.build_metadata_database (LMDBBuilder.build_all enable input)
                   (LMDBBuilder.sections_count (LMDBBuilder.corpus_file input))
                   (LMDBBuilder.citations_count (LMDBBuilder.build_all enable input))
                   (LMDBBuilder.chains_count (LMDBBuilder.build_all enable input))
                   (LMDBBuilder.reverse_count (LMDBBuilder.build_all enable input)) ∅)
                inbound_key_inj) as [_ Hother].
    rewrite Hother by (intros k; discriminate). clear Hother.
    unfold LMDBBuilder.build_metadata_database.
    destruct (for_items_put_renamed_lookup
                (LMDBBuilder.sections_data (LMDBBuilder.build_all enable input))
                (fun section_num => "section_" ++ section_num ++ "_meta")
                LMDBBuilder.section_meta
                (<[ "corpus_info" :=
                      LMDBBuilder.CorpusInfo
                        (LMDBBuilder.sections_count (LMDBBuilder.corpus_file input))
                        (LMDBBuilder.citations_count (LMDBBuilder.build_all enable input))
                        (LMDBBuilder.chains_count (LMDBBuilder.build_all enable input))
                        (LMDBBuilder.reverse_count (LMDBBuilder.build_all enable input)) ]>
                   ∅)
                section_meta_key_inj) as [_ Hother].
    rewrite Hother by (intros k; discriminate). clear Hother.
    rewrite lookup_insert_eq. f_equal.
    destruct (loaded_builder_sections enable (LMDBBuilder.citation_map_file input)
                (LMDBBuilder.complex_chains_file input)
                (LMDBBuilder.citation_contexts_file input)
                (LMDBBuilder.corpus_file input)) as (Hcm & _ & Hc & Hr & _).
    cbv zeta in Hcm, Hc, Hr.
    destruct (build_sections_database_spec
                (LMDBBuilder.load_citation_data (LMDBBuilder.citation_map_file input)
                   (LMDBBuilder.complex_chains_file input)
                   (LMDBBuilder.citation_contexts_file input)
                   (LMDBBuilder.new_builder enable))
                (LMDBBuilder.corpus_file input)
                (LMDBBuilder.load_citation_data (LMDBBuilder.citation_map_file input)
                   (LMDBBuilder.complex_chains_file input)
                   (LMDBBuilder.citation_contexts_file input)
                   (LMDBBuilder.new_builder enable)))
      as ((_ & _ & Hch & _ & _ & _ & _ & Hdb) & _).
    { unfold LMDBBuilder.same_inputs. repeat split; reflexivity. }
    { reflexivity. }
    { intros id section H. cbn in H. rewrite lookup_empty in H. discriminate. }
    unfold LMDBBuilder.citations_count, LMDBBuilder.chains_count,
      LMDBBuilder.reverse_count, LMDBBuilder.build_all.
    cbn [LMDBBuilder.build_chains_database LMDBBuilder.with_chains_db
         LMDBBuilder.chains_db LMDBBuilder.chains_map LMDBBuilder.citation_map
         LMDBBuilder.citations_db LMDBBuilder.reverse_citations_db
         LMDBBuilder.build_reverse_citations_database
         LMDBBuilder.with_reverse_citations_db
         LMDBBuilder.build_citations_database LMDBBuilder.with_citations_db].
    rewrite Hc, Hr, Hdb.
    change (LMDBBuilder.chains_db (LMDBBuilder.load_citation_data _ _ _ _))
      with (∅ : gmap string LMDBBuilder.CitationChainDict).
    rewrite !for_items_put_size. reflexivity.
  - unfold LMDBBuilder.sections_count. rewrite build_all_sections_db. split.
    + pose proof (build_sections_database_size (LMDBBuilder.corpus_file input)
                    (LMDBBuilder.load_citation_data (LMDBBuilder.citation_map_file input)
                       (LMDBBuilder.complex_chains_file input)
                       (LMDBBuilder.citation_contexts_file input)
                       (LMDBBuilder.new_builder enable))) as H.
      change (LMDBBuilder.sections_db (LMDBBuilder.load_citation_data _ _ _ _))
        with (∅ : gmap string LMDBBuilder.OhioSectionDict) in H.
      rewrite map_size_empty in H. lia.
    + apply inj_le, length_filter.
Qed.

Lemma corpus_info_counts_witness :
  LMDBBuilder.build_all_metadata true Scenario.with_skipped_line !! "corpus_info"
  = Some (LMDBBuilder.CorpusInfo 2 1 0 2)
  /\ LMDBBuilder.CorpusInfo 2 1 0 2
     = LMDBBuilder.CorpusInfo
         (Z.of_nat (length (filter (fun d => PyStr.contains "|" (LMDBBuilder.doc_header d)
                                             = true)
                                   (LMDBBuilder.corpus_file Scenario.with_skipped_line))))
         (Z.of_nat (size (LMDBBuilder.citations_db
                            (LMDBBuilder.build_all true Scenario.with_skipped_line))))
         (Z.of_nat (size (LMDBBuilder.chains_db
                            (LMDBBuilder.build_all true Scenario.with_skipped_line))))
         (Z.of_nat (size (LMDBBuilder.reverse_citations_db
                            (LMDBBuilder.build_all true Scenario.with_skipped_line))))
  /\ length (LMDBBuilder.corpus_file Scenario.with_skipped_line) = 3%nat.
Proof.
  assert (Hinfo : LMDBBuilder.build_all_metadata true Scenario.with_skipped_line
                    !! "corpus_info"
                  = Some (LMDBBuilder.CorpusInfo 2 1 0 2)) by (vm_compute; reflexivity).
  split; [exact Hinfo|]. split; [|reflexivity].
  exact (proj1 (corpus_info_counts true Scenario.with_skipped_line _ Hinfo)).
Defined.


(** ** The read side *)

(** *** The context bundle *)

Lemma snapshot_words_app l1 l2 :
  Retriever.snapshot_words (l1 ++ l2)%list
  = Retriever.snapshot_words l1 + Retriever.snapshot_words l2.
Proof.
  unfold Retriever.snapshot_words.
  induction l1 as [|x l1 IH]; cbn [foldr app]; [reflexivity|].
  change ((x :: l1) ++ l2)%list with (x :: (l1 ++ l2))%list. cbn [foldr].
  rewrite IH. lia.
Qed.

Lemma add_direct_citation_fold (r : Retriever.retriever) : forall details acc,
  let out := foldl (Retriever.add_direct_citation r) acc details in
  Retriever.snap_section <$> out.1.1
  = ((Retriever.snap_section <$> acc.1.1)
       ++ filter (fun id => is_Some (Retriever.get_section r id))
                 (LMDBBuilder.ref_section <$> details))%list
  /\ Retriever.src_section <$> out.2
     = ((Retriever.src_section <$> acc.2)
          ++ filter (fun id => is_Some (Retriever.get_section r id))
                    (LMDBBuilder.ref_section <$> details))%list
  /\ out.1.2 - Retriever.snapshot_words out.1.1
     = acc.1.2 - Retriever.snapshot_words acc.1.1.
Proof.
  induction details as [|detail details IH]; intros [[direct total] srcs]; cbv zeta.
  - cbn [foldl fst snd fmap list_fmap filter list_filter]. rewrite !app_nil_r. auto.
  - cbn [foldl]. specialize (IH (Retriever.add_direct_citation r (direct, total, srcs) detail)).
    cbv zeta in IH. destruct IH as (IH1 & IH2 & IH3).
    rewrite IH1, IH2, IH3. clear IH1 IH2 IH3.
    rewrite fmap_cons, filter_cons.
    unfold Retriever.add_direct_citation.
    destruct (Retriever.get_section r (LMDBBuilder.ref_section detail)) as [sec|] eqn:E;
      cbn [fst snd].
    + rewrite decide_True by eauto.
      rewrite !fmap_app, <- !app_assoc, snapshot_words_app.
      cbn [fmap list_fmap Retriever.snap_section Retriever.src_section
           Retriever.source_of app].
      split_ands; try reflexivity.
      unfold Retriever.snapshot_words at 2. cbn [foldr Retriever.snap_word_count].
      simpl. lia.
    + rewrite decide_False by (intros [? ?]; discriminate). auto.
Qed.

Lemma chain_words_fold section_number : forall items t,
  foldl (fun t chain_item =>
           if String.eqb (LMDBBuilder.item_section chain_item) section_number
           then t else t + LMDBBuilder.item_word_count chain_item) t items
  = t + Retriever.chain_words section_number items.
Proof.
  unfold Retriever.chain_words.
  induction items as [|item items IH]; intros t; cbn [foldl foldr]; [lia|].
  rewrite IH. destruct (String.eqb _ _); lia.
Qed.

Lemma add_reverse_citation_fold (r : Retriever.retriever) : forall details acc,
  let out := foldl (Retriever.add_reverse_citation r) acc details in
  Retriever.snap_section <$> out
  = ((Retriever.snap_section <$> acc)
       ++ filter (fun id => is_Some (Retriever.get_section r id))
                 (LMDBBuilder.citing_section <$> details))%list
  /\ (Forall (fun snap => Retriever.snap_full_text snap = None
                          /\ Retriever.snap_word_count snap = None) acc ->
      Forall (fun snap => Retriever.snap_full_text snap = None
                          /\ Retriever.snap_word_count snap = None) out).
Proof.
  induction details as [|detail details IH]; intros acc; cbv zeta.
  - cbn [foldl fmap list_fmap filter list_filter]. rewrite app_nil_r. auto.
  - cbn [foldl]. specialize (IH (Retriever.add_reverse_citation r acc detail)).
    cbv zeta in IH. destruct IH as (IH1 & IH2).
    rewrite IH1. clear IH1. rewrite fmap_cons, filter_cons.
    unfold Retriever.add_reverse_citation in *.
    destruct (Retriever.get_section r (LMDBBuilder.citing_section detail)) as [sec|] eqn:E.
    + rewrite decide_True by eauto. rewrite fmap_app, <- app_assoc.
      split; [reflexivity|]. intros H. apply IH2. apply Forall_app. split; [exact H|].
      repeat constructor.
    + rewrite decide_False by (intros [? ?]; discriminate). auto.
Qed.

(** X15: in the bundle of [get_complete_context] the direct citations are
    the targets of the section's [references_details] rows that are in the
    primary table, in the order of the rows (a target listed twice appears
    twice); [sources] names the section itself and then the direct
    citations, one source per citation; the reverse citations (when asked
    for) are the citing sections of [citing_details] that are in the
    primary table, and they carry neither a text nor a word count. *)
Theorem context_direct_citations (r : Retriever.retriever) (section_number : string)
    (include_chain include_reverse : bool) (max_chain_depth : Z)
    (bundle : Retriever.context) :
  Retriever.get_complete_context r section_number include_chain include_reverse
    max_chain_depth = Some bundle ->
  Retriever.snap_section <$> Retriever.direct_citations bundle
  = filter (fun id => is_Some (Retriever.get_section r id))
           (LMDBBuilder.ref_section
              <$> from_option LMDBBuilder.references_details []
                    (Retriever.get_citations r section_number))
  /\ Retriever.src_section <$> Retriever.sources bundle
     = section_number :: (Retriever.snap_section <$> Retriever.direct_citations bundle)
  /\ Retriever.snap_section <$> Retriever.reverse_citations bundle
     = (if include_reverse
        then filter (fun id => is_Some (Retriever.get_section r id))
               (LMDBBuilder.citing_section
                  <$> from_option LMDBBuilder.citing_details []
                        (Retriever.get_reverse_citations r section_number))
        else [])
  /\ Forall (fun snap => Retriever.snap_full_text snap = None
                         /\ Retriever.snap_word_count snap = None)
            (Retriever.reverse_citations bundle).
Proof.
  unfold Retriever.get_complete_context.
  destruct (Retriever.get_section r section_number) as [section|]; [|discriminate].
  pose proof (add_direct_citation_fold r
                (from_option LMDBBuilder.references_details []
                   (Retriever.get_citations r section_number))
                ([], LMDBBuilder.word_count section,
                 [Retriever.source_of section_number section])) as Hd.
  cbv zeta in Hd.
  pose proof (add_reverse_citation_fold r
                (from_option LMDBBuilder.citing_details []
                   (Retriever.get_reverse_citations r section_number)) []) as Hr.
  cbv zeta in Hr.
  destruct (Retriever.get_citations r section_number) as [citations|];
    cbn [from_option foldl] in Hd;
    (destruct (foldl _ _ _) as [[direct total] srcs] in Hd |- * ||
     idtac).
  all: destruct (Retriever.get_reverse_citations r section_number) as [reverse|];
    cbn [from_option foldl] in Hr.
  all: destruct include_reverse, include_chain;
    try destruct (Retriever.get_chain r section_number) as [chain|].
  all: intros [= <-]; cbn [Retriever.direct_citations Retriever.sources
                            Retriever.reverse_citations fst snd] in *.
  all: destruct Hd as (Hd1 & Hd2 & _); destruct Hr as (Hr1 & Hr2).
  all: cbn [fmap list_fmap app filter list_filter Retriever.src_section
            Retriever.source_of fst snd] in *.
  all: split_ands; auto; try (rewrite Hd2, Hd1; reflexivity).
Qed.

Lemma context_direct_citations_witness :
  exists bundle,
    Retriever.get_complete_context
      (Retriever.open_tables (LMDBBuilder.build_all true Scenario.cross_cited))
      "3701-17-01" true true 5 = Some bundle
    /\ Retriever.src_section <$> Retriever.sources bundle
       = "3701-17-01" :: (Retriever.snap_section <$> Retriever.direct_citations bundle).
Proof.
  eexists. split; [vm_compute; reflexivity|].
  refine (proj1 (proj2 (context_direct_citations
                          (Retriever.open_tables
                             (LMDBBuilder.build_all true Scenario.cross_cited))
                          "3701-17-01" true true 5 _ _))).
  vm_compute. reflexivity.
Defined.

(** X16: [total_context_words] of a bundle is the word count of the
    primary section, plus the word counts of the direct citations, plus
    the word counts of the chain entries other than the primary section
    itself; reverse citations add nothing, and a section that is both a
    direct citation and a chain entry is counted twice. The chain of the
    bundle is the slice [complete_chain[:max_chain_depth]] of the stored
    chain: its first [max_chain_depth] entries for a depth that is not
    negative, all but its last [-max_chain_depth] entries for a negative
    one; [chain_depth] is the length of that slice (absent when no chain is
    stored or none is asked for). *)
Theorem context_word_total (r : Retriever.retriever) (section_number : string)
    (include_chain include_reverse : bool) (max_chain_depth : Z)
    (bundle : Retriever.context) :
  Retriever.get_complete_context r section_number include_chain include_reverse
    max_chain_depth = Some bundle ->
  Retriever.total_context_words bundle
  = default 0 (Retriever.snap_word_count (Retriever.ctx_primary_section bundle))
    + Retriever.snapshot_words (Retriever.direct_citations bundle)
    + Retriever.chain_words section_number (Retriever.citation_chain bundle)
  /\ Retriever.citation_chain bundle
     = (if include_chain
        then Retriever.slice_to max_chain_depth
               (from_option LMDBBuilder.complete_chain []
                  (Retriever.get_chain r section_number))
        else [])
  /\ (0 <= max_chain_depth ->
      Retriever.citation_chain bundle
      = if include_chain
        then take (Z.to_nat max_chain_depth)
               (from_option LMDBBuilder.complete_chain []
                  (Retriever.get_chain r section_number))
        else [])
  /\ (max_chain_depth < 0 ->
      Retriever.citation_chain bundle
      = if include_chain
        then take (length (from_option LMDBBuilder.complete_chain []
                             (Retriever.get_chain r section_number))
                   - Z.to_nat (- max_chain_depth))
               (from_option LMDBBuilder.complete_chain []
                  (Retriever.get_chain r section_number))
        else [])
  /\ Retriever.ctx_chain_depth bundle
     = (if include_chain
        then (fun _ => Z.of_nat (length (Retriever.citation_chain bundle)))
               <$> Retriever.get_chain r section_number
        else None).
Proof.
  unfold Retriever.get_complete_context.
  destruct (Retriever.get_section r section_number) as [section|]; [|discriminate].
  pose proof (add_direct_citation_fold r
                (from_option LMDBBuilder.references_details []
                   (Retriever.get_citations r section_number))
                ([], LMDBBuilder.word_count section,
                 [Retriever.source_of section_number section])) as Hd.
  cbv zeta in Hd. destruct Hd as (_ & _ & Hd).
  destruct (Retriever.get_citations r section_number) as [citations|];
    cbn [from_option foldl] in Hd;
    (destruct (foldl _ _ _) as [[direct total] srcs] in Hd |- * ||
     idtac).
  all: cbn [fst snd] in Hd; change (Retriever.snapshot_words []) with 0 in Hd.
  all: destruct include_chain;
    try destruct (Retriever.get_chain r section_number) as [chain|].
  all: intros [= <-]; cbn [Retriever.direct_citations Retriever.total_context_words
                            Retriever.citation_chain Retriever.ctx_chain_depth
                            Retriever.ctx_primary_section Retriever.snap_word_count
                            from_option fmap option_fmap option_map].
  all: rewrite ?chain_words_fold; change (Retriever.chain_words section_number []) with 0.
  all: split_ands; try reflexivity.
  all: try (simpl; lia).
  all: try intros Hdepth; unfold Retriever.slice_to.
  all: destruct (Z.leb_spec 0 max_chain_depth); rewrite ?take_nil;
    (reflexivity || lia).
Qed.

Lemma context_word_total_witness :
  exists bundle,
    Retriever.get_complete_context Scenario.store "3701-17-01" true true (-1)
    = Some bundle
    /\ Retriever.total_context_words bundle
       = default 0 (Retriever.snap_word_count (Retriever.ctx_primary_section bundle))
         + Retriever.snapshot_words (Retriever.direct_citations bundle)
         + Retriever.chain_words "3701-17-01" (Retriever.citation_chain bundle)
    /\ Retriever.citation_chain bundle
       = Retriever.slice_to (-1)
           (from_option LMDBBuilder.complete_chain []
              (Retriever.get_chain Scenario.store "3701-17-01")).
Proof.
  eexists. split; [vm_compute; reflexivity|].
  refine (let H := context_word_total Scenario.store "3701-17-01" true true (-1) _ _ in
          conj (proj1 H) (proj1 (proj2 H))).
  vm_compute. reflexivity.
Defined.

(** *** Related sections *)

Lemma slice_to_sublist {A : Type} (n : Z) (l : list A) :
  Retriever.slice_to n l `sublist_of` l.
Proof. unfold Retriever.slice_to. destruct (0 <=? n); apply sublist_take. Qed.

Lemma slice_to_length {A : Type} (n : Z) (l : list A) :
  0 <= n -> Z.of_nat (length (Retriever.slice_to n l)) <= n.
Proof.
  intros Hn. unfold Retriever.slice_to.
  destruct (Z.leb_spec 0 n); [|lia]. rewrite length_take. lia.
Qed.

Lemma slice_to_nil {A : Type} (n : Z) : Retriever.slice_to n ([] : list A) = [].
Proof. unfold Retriever.slice_to. destruct (0 <=? n); apply take_nil. Qed.

(** One pass of [add_related] over [refs]: the sections of [related] stay
    distinct, [seen] holds the primary section and the sections of
    [related], and an entry is added only for a reference that was not
    seen before the pass. *)
Lemma add_related_fold (r : Retriever.retriever) (section_number relationship : string)
    (P : Retriever.related_entry -> Prop) :
  forall (refs : list string) (acc : list Retriever.related_entry * gset string),
    (forall ref section_data,
       ref ∈ refs -> Retriever.get_section r ref = Some section_data ->
       ref ∉ acc.2 ->
       P {| Retriever.rel_section := ref;
            Retriever.rel_title := LMDBBuilder.section_title section_data;
            Retriever.rel_relationship := relationship;
            Retriever.rel_url := LMDBBuilder.url section_data |}) ->
    NoDup (Retriever.rel_section <$> acc.1) ->
    (forall x, x ∈ acc.2 <-> x = section_number \/ x ∈ (Retriever.rel_section <$> acc.1)) ->
    (section_number ∉ (Retriever.rel_section <$> acc.1)) ->
    Forall P acc.1 ->
    let out := foldl (Retriever.add_related r relationship) acc refs in
    NoDup (Retriever.rel_section <$> out.1)
    /\ (forall x, x ∈ out.2 <-> x = section_number \/ x ∈ (Retriever.rel_section <$> out.1))
    /\ (section_number ∉ (Retriever.rel_section <$> out.1))
    /\ Forall P out.1
    /\ (forall ref, ref ∈ refs -> ref ∈ out.2 \/ Retriever.get_section r ref = None)
    /\ acc.2 ⊆ out.2.
Proof.
  induction refs as [|ref refs IH]; intros [related seen] HP Hnd Hseen Hs Hall; cbv zeta.
  - cbn [foldl]. split_ands; auto. intros ref Href. inversion Href.
  - cbn [foldl]. cbn [fst snd] in *.
    assert (Hstep : seen ⊆ (Retriever.add_related r relationship (related, seen) ref).2
                    /\ (ref ∈ (Retriever.add_related r relationship (related, seen) ref).2
                        \/ Retriever.get_section r ref = None)
                    /\ NoDup (Retriever.rel_section
                                <$> (Retriever.add_related r relationship (related, seen) ref).1)
                    /\ (forall x, x ∈ (Retriever.add_related r relationship (related, seen) ref).2
                                  <-> x = section_number
                                      \/ x ∈ (Retriever.rel_section
                                               <$> (Retriever.add_related r relationship
                                                      (related, seen) ref).1))
                    /\ (section_number
                          ∉ (Retriever.rel_section
                               <$> (Retriever.add_related r relationship (related, seen) ref).1))
                    /\ Forall P (Retriever.add_related r relationship (related, seen) ref).1).
    { unfold Retriever.add_related.
      destruct (bool_decide (ref ∈ seen)) eqn:Eseen.
      { apply bool_decide_eq_true in Eseen. cbn [fst snd]. split_ands; auto. }
      apply bool_decide_eq_false in Eseen.
      destruct (Retriever.get_section r ref) as [sd|] eqn:Esec; cbn [fst snd];
        [|split_ands; auto].
      assert (Hne : ref <> section_number).
      { intros ->. apply Eseen, Hseen. auto. }
      assert (Hnew : ref ∉ (Retriever.rel_section <$> related)).
      { intros Hin. apply Eseen, Hseen. auto. }
      rewrite fmap_app. cbn [fmap list_fmap Retriever.rel_section].
      split_ands.
      - apply union_subseteq_r.
      - left. apply elem_of_union_l, elem_of_singleton. reflexivity.
      - apply NoDup_app. split_ands; [exact Hnd| |apply NoDup_singleton].
        intros x Hx ->%list_elem_of_singleton. auto.
      - intros x. rewrite elem_of_union, elem_of_singleton, Hseen, elem_of_app,
          list_elem_of_singleton. tauto.
      - rewrite elem_of_app, list_elem_of_singleton. intros [?|?]; [auto|].
        apply Hne. congruence.
      - apply Forall_app. split; [exact Hall|]. constructor; [|constructor].
        apply HP; [apply elem_of_cons; auto|exact Esec|exact Eseen]. }
    destruct Hstep as (Hsub & Hin & Hnd' & Hseen' & Hs' & Hall').
    assert (HP' : forall ref0 section_data,
               ref0 ∈ refs -> Retriever.get_section r ref0 = Some section_data ->
               ref0 ∉ (Retriever.add_related r relationship (related, seen) ref).2 ->
               P {| Retriever.rel_section := ref0;
                    Retriever.rel_title := LMDBBuilder.section_title section_data;
                    Retriever.rel_relationship := relationship;
                    Retriever.rel_url := LMDBBuilder.url section_data |}).
    { intros ref0 sd Hin0 Hsec Hnot. apply HP; [apply elem_of_cons; auto|exact Hsec|].
      intros Hold. apply Hnot, Hsub, Hold. }
    destruct (IH _ HP' Hnd' Hseen' Hs' Hall') as (R1 & R2 & R3 & R4 & R5 & R6).
    split_ands; auto.
    + intros ref0 [->|Hin0]%elem_of_cons; [|auto].
      destruct Hin as [Hin|Hin]; [left; apply R6, Hin|right; exact Hin].
    + etransitivity; [exact Hsub|exact R6].
Qed.

(** The entries of [get_related_sections]. *)
Lemma get_related_sections_entries (r : Retriever.retriever) (section_number : string)
    (max_related : Z) :
  NoDup (Retriever.rel_section <$> Retriever.get_related_sections r section_number max_related)
  /\ (section_number
        ∉ (Retriever.rel_section
             <$> Retriever.get_related_sections r section_number max_related))
  /\ Forall
       (fun entry =>
          exists section_data,
            Retriever.get_section r (Retriever.rel_section entry) = Some section_data
            /\ Retriever.rel_title entry = LMDBBuilder.section_title section_data
            /\ Retriever.rel_url entry = LMDBBuilder.url section_data
            /\ (Retriever.rel_relationship entry = "cited_by_primary"
                /\ Retriever.rel_section entry
                     ∈ from_option LMDBBuilder.direct_references []
                         (Retriever.get_citations r section_number)
                \/ Retriever.rel_relationship entry = "cites_primary"
                   /\ Retriever.rel_section entry
                        ∈ from_option LMDBBuilder.cited_by []
                            (Retriever.get_reverse_citations r section_number)
                   /\ (Retriever.rel_section entry
                         ∉ Retriever.slice_to max_related
                             (from_option LMDBBuilder.direct_references []
                                (Retriever.get_citations r section_number)))))
       (Retriever.get_related_sections r section_number max_related).
Proof.
  unfold Retriever.get_related_sections.
  set (P := fun entry : Retriever.related_entry => exists section_data, _).
  set (acc0 := (([] : list Retriever.related_entry), ({[ section_number ]} : gset string))).
  set (refs1 := from_option LMDBBuilder.direct_references []
                  (Retriever.get_citations r section_number)).
  set (refs2 := from_option LMDBBuilder.cited_by []
                  (Retriever.get_reverse_citations r section_number)).
  assert (H0 : NoDup (Retriever.rel_section <$> acc0.1)
               /\ (forall x, x ∈ acc0.2
                             <-> x = section_number \/ x ∈ (Retriever.rel_section <$> acc0.1))
               /\ (section_number ∉ (Retriever.rel_section <$> acc0.1))
               /\ Forall P acc0.1).
  { subst acc0. cbn [fst snd fmap list_fmap]. split_ands.
    - constructor.
    - intros x. rewrite elem_of_singleton, elem_of_nil. tauto.
    - apply not_elem_of_nil.
    - constructor. }
  destruct H0 as (N0 & S0 & E0 & F0).
  pose proof (add_related_fold r section_number "cited_by_primary" P
                (Retriever.slice_to max_related refs1) acc0) as H1.
  cbv zeta in H1.
  assert (HP1 : forall ref section_data,
             ref ∈ Retriever.slice_to max_related refs1 ->
             Retriever.get_section r ref = Some section_data ->
             ref ∉ acc0.2 ->
             P {| Retriever.rel_section := ref;
                  Retriever.rel_title := LMDBBuilder.section_title section_data;
                  Retriever.rel_relationship := "cited_by_primary";
                  Retriever.rel_url := LMDBBuilder.url section_data |}).
  { intros ref sd Hin Hsec _. exists sd.
    cbn [Retriever.rel_section Retriever.rel_title Retriever.rel_url
         Retriever.rel_relationship].
    split_ands; auto. left. split; [reflexivity|].
    eapply elem_of_sublist; [exact Hin|apply slice_to_sublist]. }
  destruct (H1 HP1 N0 S0 E0 F0) as (N1 & S1 & E1 & F1 & C1 & _).
  clear H1.
  set (acc1 := match Retriever.get_citations r section_number with
               | Some citations =>
                   foldl (Retriever.add_related r "cited_by_primary") acc0
                     (Retriever.slice_to max_related
                        (LMDBBuilder.direct_references citations))
               | None => acc0
               end).
  assert (Hacc1 : acc1 = foldl (Retriever.add_related r "cited_by_primary") acc0
                           (Retriever.slice_to max_related refs1)).
  { subst acc1 refs1. destruct (Retriever.get_citations r section_number);
      cbn [from_option]; [reflexivity|]. rewrite slice_to_nil. reflexivity. }
  rewrite <- Hacc1 in N1, S1, E1, F1, C1.
  set (n2 := max_related - Z.of_nat (length acc1.1)).
  pose proof (add_related_fold r section_number "cites_primary" P
                (Retriever.slice_to n2 refs2) acc1) as H2.
  cbv zeta in H2.
  assert (HP2 : forall ref section_data,
             ref ∈ Retriever.slice_to n2 refs2 ->
             Retriever.get_section r ref = Some section_data ->
             ref ∉ acc1.2 ->
             P {| Retriever.rel_section := ref;
                  Retriever.rel_title := LMDBBuilder.section_title section_data;
                  Retriever.rel_relationship := "cites_primary";
                  Retriever.rel_url := LMDBBuilder.url section_data |}).
  { intros ref sd Hin Hsec Hnot. exists sd.
    cbn [Retriever.rel_section Retriever.rel_title Retriever.rel_url
         Retriever.rel_relationship].
    split_ands; auto. right. split_ands; [reflexivity| |].
    - eapply elem_of_sublist; [exact Hin|apply slice_to_sublist].
    - intros Hin1. destruct (C1 _ Hin1) as [Hseen|Hnone]; [auto|congruence]. }
  destruct (H2 HP2 N1 S1 E1 F1) as (N2 & S2 & E2 & F2 & _ & _).
  clear H2.
  set (acc2 := match Retriever.get_reverse_citations r section_number with
               | Some reverse =>
                   if Z.of_nat (length acc1.1) <? max_related
                   then foldl (Retriever.add_related r "cites_primary") acc1
                          (Retriever.slice_to n2 (LMDBBuilder.cited_by reverse))
                   else acc1
               | None => acc1
               end).
  assert (Hacc2 : NoDup (Retriever.rel_section <$> acc2.1)
                  /\ (section_number ∉ (Retriever.rel_section <$> acc2.1))
                  /\ Forall P acc2.1).
  { subst acc2 refs2. destruct (Retriever.get_reverse_citations r section_number);
      cbn [from_option] in *; [|auto].
    destruct (_ <? _); auto. }
  destruct Hacc2 as (N3 & E3 & F3).
  pose proof (slice_to_sublist max_related acc2.1) as Hsub.
  split_ands.
  - eapply sublist_NoDup; [exact N3|apply fmap_sublist, Hsub].
  - intros Hin. apply E3. eapply elem_of_sublist; [exact Hin|]. apply fmap_sublist, Hsub.
  - apply Forall_forall. intros entry Hin.
    apply (proj1 (Forall_forall _ _) F3). eapply elem_of_sublist; [exact Hin|exact Hsub].
Qed.

(** X17: the sections returned by [get_related_sections] are pairwise
    distinct and never include the section asked about; each one is in the
    primary table and carries its title and url; an entry labelled
    [cited_by_primary] is a direct reference of the section, an entry
    labelled [cites_primary] is one of its citing sections and is not among
    the direct references that were looked at (a section that both cites
    and is cited by the primary is listed once, as [cited_by_primary]). *)
Theorem related_sections_distinct (r : Retriever.retriever) (section_number : string)
    (max_related : Z) :
  NoDup (Retriever.rel_section <$> Retriever.get_related_sections r section_number max_related)
  /\ (section_number
        ∉ (Retriever.rel_section
             <$> Retriever.get_related_sections r section_number max_related))
  /\ Forall
       (fun entry =>
          exists section_data,
            Retriever.get_section r (Retriever.rel_section entry) = Some section_data
            /\ Retriever.rel_title entry = LMDBBuilder.section_title section_data
            /\ Retriever.rel_url entry = LMDBBuilder.url section_data
            /\ (Retriever.rel_relationship entry = "cited_by_primary"
                /\ Retriever.rel_section entry
                     ∈ from_option LMDBBuilder.direct_references []
                         (Retriever.get_citations r section_number)
                \/ Retriever.rel_relationship entry = "cites_primary"
                   /\ Retriever.rel_section entry
                        ∈ from_option LMDBBuilder.cited_by []
                            (Retriever.get_reverse_citations r section_number)
                   /\ (Retriever.rel_section entry
                         ∉ Retriever.slice_to max_related
                             (from_option LMDBBuilder.direct_references []
                                (Retriever.get_citations r section_number)))))
       (Retriever.get_related_sections r section_number max_related).
Proof. apply get_related_sections_entries. Qed.

Lemma add_related_fold_length (r : Retriever.retriever) (relationship : string) :
  forall (refs : list string) (acc : list Retriever.related_entry * gset string),
    (length (foldl (Retriever.add_related r relationship) acc refs).1
     <= length acc.1 + length refs)%nat.
Proof.
  induction refs as [|ref refs IH]; intros [related seen]; cbn [foldl length fst]; [lia|].
  etransitivity; [apply IH|].
  unfold Retriever.add_related.
  destruct (bool_decide _); [cbn [fst]; lia|].
  destruct (Retriever.get_section r ref); cbn [fst]; [|lia].
  rewrite length_app. cbn [length]. lia.
Qed.

(** X18: for a non-negative [max_related], [get_related_sections] returns
    at most [max_related] entries, and every direct reference among the
    first [max_related] that is in the primary table (the section itself
    apart) is returned, labelled [cited_by_primary]: direct references are
    never displaced by citing sections. *)
Theorem related_sections_bound (r : Retriever.retriever) (section_number : string)
    (max_related : Z) :
  0 <= max_related ->
  Z.of_nat (length (Retriever.get_related_sections r section_number max_related))
    <= max_related
  /\ forall ref,
       ref ∈ Retriever.slice_to max_related
               (from_option LMDBBuilder.direct_references []
                  (Retriever.get_citations r section_number)) ->
       ref <> section_number ->
       is_Some (Retriever.get_section r ref) ->
       exists entry,
         entry ∈ Retriever.get_related_sections r section_number max_related
         /\ Retriever.rel_section entry = ref
         /\ Retriever.rel_relationship entry = "cited_by_primary".
Proof.
  intros Hmax.
  split; [apply slice_to_length, Hmax|].
  intros ref Hin Hne [section_data Hsec].
  destruct (get_related_sections_entries r section_number max_related) as (_ & _ & Hall).
  revert Hall Hin. unfold Retriever.get_related_sections.
  set (acc0 := (([] : list Retriever.related_entry), ({[ section_number ]} : gset string))).
  set (refs1 := from_option LMDBBuilder.direct_references []
                  (Retriever.get_citations r section_number)).
  set (acc1 := match Retriever.get_citations r section_number with
               | Some citations =>
                   foldl (Retriever.add_related r "cited_by_primary") acc0
                     (Retriever.slice_to max_related
                        (LMDBBuilder.direct_references citations))
               | None => acc0
               end).
  assert (Hacc1 : acc1 = foldl (Retriever.add_related r "cited_by_primary") acc0
                           (Retriever.slice_to max_related refs1)).
  { subst acc1 refs1. destruct (Retriever.get_citations r section_number);
      cbn [from_option]; [reflexivity|]. rewrite slice_to_nil. reflexivity. }
  set (acc2 := match Retriever.get_reverse_citations r section_number with
               | Some reverse =>
                   if Z.of_nat (length acc1.1) <? max_related
                   then foldl (Retriever.add_related r "cites_primary") acc1
                          (Retriever.slice_to (max_related - Z.of_nat (length acc1.1))
                             (LMDBBuilder.cited_by reverse))
                   else acc1
               | None => acc1
               end).
  intros Hall Hin.
  pose proof (add_related_fold r section_number "cited_by_primary" (fun _ => True)
                (Retriever.slice_to max_related refs1) acc0) as H1.
  cbv zeta in H1.
  destruct H1 as (N1 & S1 & E1 & _ & C1 & _).
  { auto. }
  { constructor. }
  { intros x. subst acc0. cbn [fst snd fmap list_fmap].
    rewrite elem_of_singleton, elem_of_nil. tauto. }
  { apply not_elem_of_nil. }
  { constructor. }
  rewrite <- Hacc1 in N1, S1, E1, C1.
  assert (Hlen1 : Z.of_nat (length acc1.1) <= max_related).
  { rewrite Hacc1.
    pose proof (add_related_fold_length r "cited_by_primary"
                  (Retriever.slice_to max_related refs1) acc0) as Hl.
    pose proof (slice_to_length max_related refs1 Hmax) as Hs.
    subst acc0. cbn [fst length] in Hl. lia. }
  assert (Hacc2 : (Z.of_nat (length acc2.1) <= max_related)
                  /\ acc1.2 ⊆ acc2.2
                  /\ forall x, x ∈ acc2.2
                               <-> x = section_number
                                   \/ x ∈ (Retriever.rel_section <$> acc2.1)).
  { subst acc2. destruct (Retriever.get_reverse_citations r section_number) as [reverse|];
      [|auto].
    destruct (Z.ltb_spec (Z.of_nat (length acc1.1)) max_related) as [Hlt|Hge]; [|auto].
    pose proof (add_related_fold r section_number "cites_primary" (fun _ => True)
                  (Retriever.slice_to (max_related - Z.of_nat (length acc1.1))
                     (LMDBBuilder.cited_by reverse)) acc1) as H2.
    cbv zeta in H2.
    destruct H2 as (_ & S2 & _ & _ & _ & M2); auto.
    { apply Forall_forall. auto. }
    split_ands; auto.
    pose proof (add_related_fold_length r "cites_primary"
                  (Retriever.slice_to (max_related - Z.of_nat (length acc1.1))
                     (LMDBBuilder.cited_by reverse)) acc1) as Hl.
    pose proof (slice_to_length (max_related - Z.of_nat (length acc1.1))
                  (LMDBBuilder.cited_by reverse)) as Hs.
    lia. }
  destruct Hacc2 as (Hlen2 & M2 & S2).
  assert (Hid : Retriever.slice_to max_related acc2.1 = acc2.1).
  { unfold Retriever.slice_to. destruct (Z.leb_spec 0 max_related); [|lia].
    apply take_ge. lia. }
  rewrite Hid in Hall |- *.
  destruct (C1 _ Hin) as [Hseen|Hnone]; [|congruence].
  apply M2, S2 in Hseen. destruct Hseen as [->|Hseen]; [congruence|].
  apply list_elem_of_fmap in Hseen. destruct Hseen as (entry & -> & Hentry).
  exists entry. split_ands; auto.
  destruct (proj1 (Forall_forall _ _) Hall _ Hentry) as (sd & _ & _ & _ & Hrel).
  destruct Hrel as [[Hrel _]|(_ & _ & Hnot)]; [exact Hrel|].
  exfalso. apply Hnot, Hin.
Qed.

Lemma related_sections_bound_witness :
  Z.of_nat (length (Retriever.get_related_sections
                      (Retriever.open_tables
                         (LMDBBuilder.build_all true Scenario.cross_cited))
                      "3701-17-01" 1)) <= 1.
Proof.
  refine (proj1 (related_sections_bound
                   (Retriever.open_tables
                      (LMDBBuilder.build_all true Scenario.cross_cited))
                   "3701-17-01" 1 _)).
  lia.
Defined.

(** *** Keyword search *)

Lemma lower_char_idempotent (c : ascii) :
  PyStr.lower_char (PyStr.lower_char c) = PyStr.lower_char c.
Proof. destruct c as [[] [] [] [] [] [] [] []]; reflexivity. Qed.

Lemma lower_idempotent (s : string) : PyStr.lower (PyStr.lower s) = PyStr.lower s.
Proof.
  induction s as [|c s IH]; cbn [PyStr.lower]; [reflexivity|].
  now rewrite lower_char_idempotent, IH.
Qed.

(** The loop of the search: it appends the entries that match, in the
    order of the cursor, and stops after the entry that brings [results]
    to [max_results] entries or more. *)
Lemma search_cursor_fmap {B : Type} (f : Retriever.search_result -> B)
    (g : LMDBBuilder.OhioSectionDict -> B) (keyword_lower : string) (max_results : Z) :
  (forall section_data,
     f {| Retriever.res_section := LMDBBuilder.section_number section_data;
          Retriever.res_title := LMDBBuilder.section_title section_data;
          Retriever.res_url := LMDBBuilder.url section_data;
          Retriever.res_relevance :=
            if PyStr.contains keyword_lower
                 (PyStr.lower (LMDBBuilder.section_title section_data))
            then "title" else "text";
          Retriever.res_preview :=
            PyStr.take 200 (LMDBBuilder.full_text section_data) ++ "..." |}
     = g section_data) ->
  forall (entries : list (string * LMDBBuilder.OhioSectionDict))
         (results : list Retriever.search_result),
    f <$> Retriever.search_cursor keyword_lower max_results entries results
    = ((f <$> results)
         ++ take (Z.to_nat (Z.max 1 (max_results - Z.of_nat (length results))))
              (g <$> filter
                       (fun section_data =>
                          PyStr.contains keyword_lower
                            (PyStr.lower (LMDBBuilder.section_title section_data))
                          || PyStr.contains keyword_lower
                               (PyStr.lower (LMDBBuilder.full_text section_data))
                          = true)
                       entries.*2))%list.
Proof.
  intros Hfg. induction entries as [|[key section_data] entries IH]; intros results.
  - cbn [Retriever.search_cursor fmap list_fmap filter list_filter].
    rewrite take_nil, app_nil_r. reflexivity.
  - cbn [Retriever.search_cursor]. rewrite fmap_cons, filter_cons. cbn [snd].
    destruct (PyStr.contains keyword_lower _ || PyStr.contains keyword_lower _) eqn:E.
    + rewrite decide_True by reflexivity. rewrite fmap_cons.
      rewrite length_app. cbn [length].
      destruct (Z.leb_spec max_results (Z.of_nat (length results + 1))) as [Hle|Hgt].
      * replace (Z.to_nat (Z.max 1 (max_results - Z.of_nat (length results))))
          with 1%nat by lia.
        cbn [take firstn]. rewrite take_0, fmap_app.
        cbn [fmap list_fmap]. now rewrite Hfg.
      * rewrite IH, fmap_app, length_app, <- app_assoc. cbn [length fmap list_fmap app].
        rewrite Hfg.
        replace (Z.to_nat (Z.max 1 (max_results - Z.of_nat (length results))))
          with (S (Z.to_nat (Z.max 1 (max_results - Z.of_nat (length results + 1)))))
          by lia.
        reflexivity.
    + rewrite decide_False by (intros H; discriminate H). apply IH.
Qed.

(** X19: [search_sections_by_keyword] returns, in the key order of the
    primary table, the first [max(1, max_results)] sections whose title or
    text contains the keyword, case ignored (so a [max_results] of zero or
    less still returns one match); the relevance of a result is [title]
    exactly when the keyword occurs in its title, its preview has at most
    203 characters, and lower-casing the keyword does not change the
    result. *)
Theorem search_returns_first_matches (r : Retriever.retriever) (keyword : string)
    (max_results : Z) :
  Retriever.res_section <$> Retriever.search_sections_by_keyword r keyword max_results
  = take (Z.to_nat (Z.max 1 max_results))
      (LMDBBuilder.section_number
         <$> filter
               (fun section_data =>
                  PyStr.contains (PyStr.lower keyword)
                    (PyStr.lower (LMDBBuilder.section_title section_data))
                  || PyStr.contains (PyStr.lower keyword)
                       (PyStr.lower (LMDBBuilder.full_text section_data))
                  = true)
               (LMDBBuilder.cursor (Retriever.r_sections_db r)).*2)
  /\ Forall
       (fun result =>
          Retriever.res_relevance result
          = (if PyStr.contains (PyStr.lower keyword)
                  (PyStr.lower (Retriever.res_title result))
             then "title" else "text")
          /\ (String.length (Retriever.res_preview result) <= 203)%nat)
       (Retriever.search_sections_by_keyword r keyword max_results)
  /\ Retriever.search_sections_by_keyword r (PyStr.lower keyword) max_results
     = Retriever.search_sections_by_keyword r keyword max_results.
Proof.
  unfold Retriever.search_sections_by_keyword. split_ands.
  - rewrite (search_cursor_fmap Retriever.res_section LMDBBuilder.section_number)
      by reflexivity.
    cbn [fmap list_fmap length app]. now rewrite Z.sub_0_r.
  - rewrite <- (list_fmap_id (Retriever.search_cursor _ _ _ _)).
    rewrite (search_cursor_fmap id _ (PyStr.lower keyword) max_results
               (fun section_data => eq_refl)).
    cbn [fmap list_fmap app]. apply Forall_take, Forall_fmap, Forall_forall.
    intros section_data _. unfold compose, id.
    cbn [Retriever.res_relevance Retriever.res_title Retriever.res_preview].
    split; [reflexivity|]. rewrite length_append.
    pose proof (take_length_le 200 (LMDBBuilder.full_text section_data)).
    cbn [String.length]. lia.
  - now rewrite lower_idempotent.
Qed.

(** *** Most cited sections *)

Lemma insert_by_count_Permutation (x : Retriever.cited_entry) :
  forall l, Retriever.insert_by_count x l ≡ₚ x :: l.
Proof.
  induction l as [|y l IH]; cbn [Retriever.insert_by_count]; [reflexivity|].
  destruct (_ <? _); [|reflexivity].
  rewrite IH. apply Permutation_swap.
Qed.

Lemma sort_by_count_Permutation : forall l, Retriever.sort_by_count l ≡ₚ l.
Proof.
  unfold Retriever.sort_by_count.
  induction l as [|x l IH]; cbn [foldr]; [reflexivity|].
  rewrite insert_by_count_Permutation. now rewrite IH.
Qed.

Lemma insert_by_count_sorted (x : Retriever.cited_entry) : forall l,
  StronglySorted (fun a b => Retriever.mc_cited_by_count b <= Retriever.mc_cited_by_count a) l ->
  StronglySorted (fun a b => Retriever.mc_cited_by_count b <= Retriever.mc_cited_by_count a)
    (Retriever.insert_by_count x l).
Proof.
  induction l as [|y l IH]; intros Hs; cbn [Retriever.insert_by_count].
  - repeat constructor.
  - apply StronglySorted_inv in Hs. destruct Hs as [Hs Hy].
    destruct (Z.ltb_spec (Retriever.mc_cited_by_count x) (Retriever.mc_cited_by_count y)).
    + constructor; [apply IH, Hs|].
      rewrite insert_by_count_Permutation. constructor; [lia|exact Hy].
    + constructor; [constructor; assumption|].
      constructor; [lia|]. eapply Forall_impl; [exact Hy|].
      cbn beta. intros z Hz. lia.
Qed.

Lemma sort_by_count_sorted : forall l,
  StronglySorted (fun a b => Retriever.mc_cited_by_count b <= Retriever.mc_cited_by_count a)
    (Retriever.sort_by_count l).
Proof.
  unfold Retriever.sort_by_count.
  induction l as [|x l IH]; cbn [foldr]; [constructor|].
  apply insert_by_count_sorted, IH.
Qed.

Lemma StronglySorted_take {A : Type} (R : relation A) (n : nat) : forall l,
  StronglySorted R l -> StronglySorted R (take n l).
Proof.
  induction n as [|n IH]; intros [|x l] Hs; cbn [take firstn]; try constructor.
  - apply IH. now apply StronglySorted_inv in Hs.
  - apply Forall_take. now apply StronglySorted_inv in Hs.
Qed.

Lemma cursor_elem_of {V : Type} (db : gmap string V) (key : string) (value : V) :
  (key, value) ∈ LMDBBuilder.cursor db <-> db !! key = Some value.
Proof.
  unfold LMDBBuilder.cursor. rewrite merge_sort_Permutation.
  apply elem_of_map_to_list.
Qed.

Lemma most_cited_candidates (r : Retriever.retriever) (entry : Retriever.cited_entry) :
  entry ∈ omap (fun item : string * LMDBBuilder.ReverseCitationDataDict =>
                  match Retriever.get_section r (LMDBBuilder.rev_section item.2) with
                  | Some section_data =>
                      Some {| Retriever.mc_section := LMDBBuilder.rev_section item.2;
                              Retriever.mc_title := LMDBBuilder.section_title section_data;
                              Retriever.mc_cited_by_count := LMDBBuilder.cited_by_count item.2;
                              Retriever.mc_url := LMDBBuilder.url section_data |}
                  | None => None
                  end)
            (LMDBBuilder.cursor (Retriever.r_reverse_citations_db r))
  <-> exists key reverse_data section_data,
        Retriever.r_reverse_citations_db r !! key = Some reverse_data
        /\ Retriever.get_section r (LMDBBuilder.rev_section reverse_data) = Some section_data
        /\ entry = {| Retriever.mc_section := LMDBBuilder.rev_section reverse_data;
                      Retriever.mc_title := LMDBBuilder.section_title section_data;
                      Retriever.mc_cited_by_count := LMDBBuilder.cited_by_count reverse_data;
                      Retriever.mc_url := LMDBBuilder.url section_data |}.
Proof.
  rewrite list_elem_of_omap. split.
  - intros ([key reverse_data] & Hin & Hentry). apply cursor_elem_of in Hin.
    cbn [snd] in Hentry.
    destruct (Retriever.get_section r _) as [section_data|] eqn:E; [|discriminate].
    exists key, reverse_data, section_data. split_ands; congruence.
  - intros (key & reverse_data & section_data & Hdb & Hsec & ->).
    exists (key, reverse_data). split; [now apply cursor_elem_of|].
    cbn [snd]. now rewrite Hsec.
Qed.

(** X20: [get_most_cited_sections] returns entries in descending order of
    [cited_by_count], for every [limit]; each entry repeats the section and
    count of an entry of the reverse citations table whose section is in
    the primary table, with that section's title and url (reverse entries
    of sections outside the primary table are left out). *)
Theorem most_cited_sorted (r : Retriever.retriever) (limit : Z) :
  StronglySorted
    (fun a b => Retriever.mc_cited_by_count b <= Retriever.mc_cited_by_count a)
    (Retriever.get_most_cited_sections r limit)
  /\ Forall
       (fun entry =>
          exists key reverse_data section_data,
            Retriever.r_reverse_citations_db r !! key = Some reverse_data
            /\ Retriever.get_section r (LMDBBuilder.rev_section reverse_data)
               = Some section_data
            /\ Retriever.mc_section entry = LMDBBuilder.rev_section reverse_data
            /\ Retriever.mc_cited_by_count entry = LMDBBuilder.cited_by_count reverse_data
            /\ Retriever.mc_title entry = LMDBBuilder.section_title section_data
            /\ Retriever.mc_url entry = LMDBBuilder.url section_data)
       (Retriever.get_most_cited_sections r limit).
Proof.
  unfold Retriever.get_most_cited_sections. cbv zeta. split.
  - unfold Retriever.slice_to. destruct (0 <=? limit);
      apply StronglySorted_take, sort_by_count_sorted.
  - apply Forall_forall. intros entry Hin.
    eapply elem_of_sublist in Hin; [|apply slice_to_sublist].
    rewrite sort_by_count_Permutation in Hin.
    apply most_cited_candidates in Hin.
    destruct Hin as (key & reverse_data & section_data & Hdb & Hsec & ->).
    exists key, reverse_data, section_data. split_ands; auto.
Qed.

(** X21: for a positive [limit], [get_most_cited_sections] returns at most
    [limit] entries and, when some reverse entry names a section of the
    primary table, its first entry has a count at least as large as that
    of every such reverse entry. *)
Theorem most_cited_first (r : Retriever.retriever) (limit : Z) (key : string)
    (reverse_data : LMDBBuilder.ReverseCitationDataDict) :
  0 < limit ->
  Retriever.r_reverse_citations_db r !! key = Some reverse_data ->
  is_Some (Retriever.get_section r (LMDBBuilder.rev_section reverse_data)) ->
  Z.of_nat (length (Retriever.get_most_cited_sections r limit)) <= limit
  /\ exists top,
       head (Retriever.get_most_cited_sections r limit) = Some top
       /\ LMDBBuilder.cited_by_count reverse_data <= Retriever.mc_cited_by_count top.
Proof.
  intros Hlimit Hdb [section_data Hsec].
  split; [apply slice_to_length; lia|].
  unfold Retriever.get_most_cited_sections. cbv zeta.
  set (candidates := omap _ _).
  assert (Hin : {| Retriever.mc_section := LMDBBuilder.rev_section reverse_data;
                   Retriever.mc_title := LMDBBuilder.section_title section_data;
                   Retriever.mc_cited_by_count := LMDBBuilder.cited_by_count reverse_data;
                   Retriever.mc_url := LMDBBuilder.url section_data |}
                ∈ Retriever.sort_by_count candidates).
  { rewrite sort_by_count_Permutation. apply most_cited_candidates. eauto 6. }
  pose proof (sort_by_count_sorted candidates) as Hsorted.
  unfold Retriever.slice_to. destruct (Z.leb_spec 0 limit); [|lia].
  destruct (Retriever.sort_by_count candidates) as [|top rest]; [inversion Hin|].
  destruct (Z.to_nat limit) as [|n] eqn:En; [lia|].
  exists top. split; [reflexivity|].
  apply StronglySorted_inv in Hsorted. destruct Hsorted as [_ Htop].
  apply elem_of_cons in Hin. destruct Hin as [<-|Hin]; [cbn; lia|].
  apply (proj1 (Forall_forall _ _) Htop) in Hin. exact Hin.
Qed.

Lemma most_cited_first_witness :
  exists reverse_data,
    Retriever.r_reverse_citations_db
      (Retriever.open_tables (LMDBBuilder.build_all true Scenario.cross_cited))
      !! "3701-17-01" = Some reverse_data
    /\ exists top,
         head (Retriever.get_most_cited_sections
                 (Retriever.open_tables
                    (LMDBBuilder.build_all true Scenario.cross_cited)) 1) = Some top
         /\ LMDBBuilder.cited_by_count reverse_data <= Retriever.mc_cited_by_count top.
Proof.
  eexists. split; [vm_compute; reflexivity|].
  refine (proj2 (most_cited_first
                   (Retriever.open_tables
                      (LMDBBuilder.build_all true Scenario.cross_cited))
                   1 "3701-17-01" _ _ _ _)).
  - lia.
  - vm_compute. reflexivity.
  - vm_compute. eauto.
Defined.

(** ** The enricher: practice areas and offense degree *)

Lemma startswith_prefix p q s :
  PyStr.startswith (p ++ q) s = true -> PyStr.startswith p s = true.
Proof.
  revert s. induction p as [|a p IH]; intros s H; [reflexivity|].
  destruct s as [|b s]; [discriminate|].
  cbn [PyStr.startswith] in *. change (String a p ++ q) with (String a (p ++ q)) in H.
  cbn [PyStr.startswith] in H.
  apply andb_true_iff in H as [Hab Hp]. rewrite Hab. cbn. apply IH, Hp.
Qed.

Lemma contains_prefix p q s :
  PyStr.contains (p ++ q) s = true -> PyStr.contains p s = true.
Proof.
  induction s as [|c s IH]; cbn [PyStr.contains]; intros H.
  - apply orb_true_iff in H as [H|H]; [|discriminate].
    rewrite (startswith_prefix _ _ _ H). reflexivity.
  - apply orb_true_iff in H as [H|H].
    + rewrite (startswith_prefix _ _ _ H). reflexivity.
    + rewrite (IH H). apply orb_true_r.
Qed.

Lemma filter_sublist_mono {A : Type} (P : A -> Prop) `{forall x, Decision (P x)}
    (l1 l2 : list A) :
  l1 `sublist_of` l2 -> filter P l1 `sublist_of` filter P l2.
Proof.
  induction 1 as [|x l1 l2 _ IH|x l1 l2 _ IH]; [constructor| |].
  - rewrite !filter_cons. destruct (decide (P x)); [constructor|]; exact IH.
  - rewrite filter_cons. destruct (decide (P x)); [constructor|]; exact IH.
Qed.

(** Two keywords of an area that occur in the text are two matches. *)
Lemma keyword_matches_two (keywords : list string) (k1 k2 text : string) :
  [k1; k2] `sublist_of` keywords ->
  PyStr.contains k1 text = true -> PyStr.contains k2 text = true ->
  (2 <= Enricher.keyword_matches keywords text)%nat.
Proof.
  intros Hsub H1 H2. unfold Enricher.keyword_matches.
  apply (filter_sublist_mono (fun keyword => PyStr.contains keyword text = true)) in Hsub.
  apply sublist_length in Hsub.
  rewrite !filter_cons, decide_True, decide_True in Hsub by assumption.
  exact Hsub.
Qed.

Lemma conditional_append_fold {A : Type} (test : A -> bool) (name : A -> string) :
  forall (l : list A) (acc : list string),
    foldl (fun areas entry => if test entry then (areas ++ [name entry])%list else areas)
          acc l
    = (acc ++ (name <$> filter (fun entry => test entry = true) l))%list.
Proof.
  induction l as [|x l IH]; intros acc; cbn [foldl].
  - cbn. now rewrite app_nil_r.
  - rewrite IH, filter_cons. destruct (test x) eqn:E.
    + rewrite decide_True by reflexivity. rewrite fmap_cons, <- app_assoc. reflexivity.
    + rewrite decide_False by discriminate. reflexivity.
Qed.

Lemma keyword_areas_filter (text : string) :
  Enricher.keyword_areas text
  = fst <$> filter (fun entry => (2 <=? Enricher.keyword_matches entry.2 text)%nat = true)
              Enricher.PRACTICE_AREA_KEYWORDS.
Proof.
  unfold Enricher.keyword_areas.
  exact (conditional_append_fold
           (fun entry => (2 <=? Enricher.keyword_matches entry.2 text)%nat) fst
           Enricher.PRACTICE_AREA_KEYWORDS []).
Qed.

Lemma practice_area_names_NoDup : NoDup (Enricher.PRACTICE_AREA_KEYWORDS.*1).
Proof. apply (bool_decide_unpack _). vm_compute. exact I. Qed.

Lemma keyword_areas_sublist (text : string) :
  Enricher.keyword_areas text `sublist_of` Enricher.PRACTICE_AREA_KEYWORDS.*1.
Proof. rewrite keyword_areas_filter. apply fmap_sublist, sublist_filter. Qed.

Lemma add_title_area_elem lo hi area title_num areas x :
  x ∈ Enricher.add_title_area lo hi area title_num areas
  <-> x ∈ areas \/ (x = area /\ lo <= title_num < hi).
Proof.
  unfold Enricher.add_title_area.
  destruct (Z.leb_spec lo title_num), (Z.ltb_spec title_num hi); cbn [andb];
    try (split; [auto|intros [?|[_ ?]]; [assumption|lia]]).
  destruct (bool_decide (area ∈ areas)) eqn:E.
  - apply bool_decide_eq_true in E. split; [auto|]. intros [?|[-> _]]; assumption.
  - rewrite elem_of_app, list_elem_of_singleton.
    split; (intros [Hx|Hx]; [left; exact Hx|right]); [split; [exact Hx|lia]|apply Hx].
Qed.

Lemma add_title_area_NoDup lo hi area title_num areas :
  NoDup areas -> NoDup (Enricher.add_title_area lo hi area title_num areas).
Proof.
  intros Hnd. unfold Enricher.add_title_area.
  destruct (_ && _); [|exact Hnd].
  destruct (bool_decide (area ∈ areas)) eqn:E; [exact Hnd|].
  apply bool_decide_eq_false in E.
  apply NoDup_app. split_ands; [exact Hnd| |apply NoDup_singleton].
  intros x Hx ->%list_elem_of_singleton. auto.
Qed.

(** X22: [_identify_practice_areas] never returns an empty list and never
    lists an area twice; it returns either [general] alone or names taken
    from the keys of [PRACTICE_AREA_KEYWORDS]. *)
Theorem practice_areas_shape (text section_num : string) :
  Enricher._identify_practice_areas text section_num <> []
  /\ NoDup (Enricher._identify_practice_areas text section_num)
  /\ (Enricher._identify_practice_areas text section_num = ["general"]
      \/ Forall (fun area => area ∈ Enricher.PRACTICE_AREA_KEYWORDS.*1)
           (Enricher._identify_practice_areas text section_num)).
Proof.
  unfold Enricher._identify_practice_areas.
  set (areas := match Enricher.title_number section_num with
                | Some title_num => _
                | None => _
                end).
  assert (Hareas : NoDup areas
                   /\ Forall (fun area => area ∈ Enricher.PRACTICE_AREA_KEYWORDS.*1) areas).
  { pose proof (keyword_areas_sublist text) as Hsub.
    assert (Hnd : NoDup (Enricher.keyword_areas text)).
    { eapply sublist_NoDup; [apply practice_area_names_NoDup|exact Hsub]. }
    assert (Hvoc : Forall (fun area => area ∈ Enricher.PRACTICE_AREA_KEYWORDS.*1)
                     (Enricher.keyword_areas text)).
    { apply Forall_forall. intros x Hx. eapply elem_of_sublist; eauto. }
    subst areas. destruct (Enricher.title_number section_num) as [title_num|]; [|auto].
    split; [repeat apply add_title_area_NoDup; exact Hnd|].
    apply Forall_forall. intros x Hx.
    repeat (apply add_title_area_elem in Hx;
            destruct Hx as [Hx|[-> _]];
            [|apply (bool_decide_unpack _); vm_compute; exact I]).
    apply (proj1 (Forall_forall _ _) Hvoc), Hx. }
  destruct Hareas as [Hnd Hvoc].
  destruct areas as [|area areas'].
  - split_ands; [discriminate|apply NoDup_singleton|left; reflexivity].
  - split_ands; [discriminate|exact Hnd|right; exact Hvoc].
Qed.

Lemma practice_areas_elem (text section_num area : string) :
  area ∈ Enricher.keyword_areas text
  \/ (exists title_num,
        Enricher.title_number section_num = Some title_num
        /\ (area = "criminal_law" /\ 2900 <= title_num < 3000
            \/ area = "family_law" /\ 3100 <= title_num < 3200
            \/ area = "tax_law" /\ 5500 <= title_num < 5800
            \/ area = "business_law" /\ 1700 <= title_num < 1800)) ->
  area ∈ Enricher._identify_practice_areas text section_num.
Proof.
  intros H. unfold Enricher._identify_practice_areas.
  set (areas := match Enricher.title_number section_num with
                | Some title_num => _
                | None => _
                end).
  assert (Hin : area ∈ areas).
  { subst areas. destruct H as [H|(title_num & -> & H)].
    - destruct (Enricher.title_number section_num); [|exact H].
      rewrite !add_title_area_elem. tauto.
    - rewrite !add_title_area_elem. tauto. }
  destruct areas; [inversion Hin|exact Hin].
Qed.

Lemma split_char_head (sep : ascii) (rest : string) : forall a : string,
  PyStr.contains (String sep EmptyString) a = false ->
  nth 0 (PyStr.split_char sep (a ++ String sep rest)) "" = a.
Proof.
  induction a as [|c a IH]; intros H.
  - rewrite append_nil. cbn [PyStr.split_char]. rewrite Ascii.eqb_refl. reflexivity.
  - cbn [PyStr.contains PyStr.startswith] in H.
    apply orb_false_iff in H as [Hc Ha]. rewrite andb_true_r in Hc.
    rewrite append_cons. cbn [PyStr.split_char]. rewrite Ascii.eqb_sym, Hc.
    specialize (IH Ha).
    destruct (PyStr.split_char sep (a ++ String sep rest)) as [|w ws];
      cbn [nth] in *; now rewrite IH.
Qed.

Lemma title_number_chapter (a rest : string) :
  PyStr.contains "." a = false ->
  Enricher.title_number (a ++ "." ++ rest) = Enricher.int_of_str a.
Proof.
  intros Ha. unfold Enricher.title_number.
  rewrite (contains_skip "." a ("." ++ rest)) by reflexivity.
  change ("." ++ rest) with (String "." rest).
  now rewrite (split_char_head "." rest a Ha).
Qed.

(** The numerals of the chapters 1700 to 5799 are read back by [int]. *)
Lemma chapter_numerals (chapter : Z) :
  1700 <= chapter < 5800 ->
  PyStr.contains "." (PyStr.of_Z chapter) = false
  /\ Enricher.int_of_str (PyStr.of_Z chapter) = Some chapter.
Proof.
  intros Hrange.
  assert (Hall : forallb (fun i =>
                            let k := 1700 + Z.of_nat i in
                            negb (PyStr.contains "." (PyStr.of_Z k))
                            && match Enricher.int_of_str (PyStr.of_Z k) with
                               | Some v => v =? k
                               | None => false
                               end) (seq 0 (Z.to_nat 4100)) = true).
  { vm_compute. reflexivity. }
  rewrite forallb_forall in Hall.
  specialize (Hall (Z.to_nat (chapter - 1700))). cbv zeta in Hall.
  rewrite in_seq in Hall.
  replace (1700 + Z.of_nat (Z.to_nat (chapter - 1700))) with chapter in Hall by lia.
  apply andb_true_iff in Hall as [H1 H2]; [|lia].
  apply negb_true_iff in H1. split; [exact H1|].
  destruct (Enricher.int_of_str _); [|discriminate].
  apply Z.eqb_eq in H2. now subst.
Qed.

(** X23: the chapter of a section number decides a practice area whatever
    the text says: for a chapter from 2900 to 2999 the result contains
    [criminal_law], from 3100 to 3199 [family_law], from 5500 to 5799
    [tax_law] and from 1700 to 1799 [business_law], both for a number
    [chapter.rest] and for the chapter alone. *)
Theorem chapter_decides_practice_area (text rest area : string) (chapter lo hi : Z) :
  (lo, hi, area) ∈ [(2900, 3000, "criminal_law"); (3100, 3200, "family_law");
                    (5500, 5800, "tax_law"); (1700, 1800, "business_law")] ->
  lo <= chapter < hi ->
  area ∈ Enricher._identify_practice_areas text (PyStr.of_Z chapter ++ "." ++ rest)
  /\ area ∈ Enricher._identify_practice_areas text (PyStr.of_Z chapter).
Proof.
  intros Htable Hrange.
  assert (Harea : area = "criminal_law" /\ 2900 <= chapter < 3000
                  \/ area = "family_law" /\ 3100 <= chapter < 3200
                  \/ area = "tax_law" /\ 5500 <= chapter < 5800
                  \/ area = "business_law" /\ 1700 <= chapter < 1800).
  { repeat (apply elem_of_cons in Htable;
            destruct Htable as [[= -> -> ->]|Htable]; [tauto|]).
    inversion Htable. }
  destruct (chapter_numerals chapter) as [Hdot Hint]; [lia|].
  split; apply practice_areas_elem; right; exists chapter; split; auto.
  - rewrite title_number_chapter by exact Hdot. exact Hint.
  - unfold Enricher.title_number. rewrite Hdot. exact Hint.
Qed.

Lemma chapter_decides_practice_area_witness :
  "criminal_law" ∈ Enricher._identify_practice_areas "" "2913.02".
Proof.
  refine (proj1 (chapter_decides_practice_area "" "02" "criminal_law" 2913 2900 3000 _ _)).
  - apply elem_of_cons. left. reflexivity.
  - lia.
Defined.

Lemma contains_infix p m q s :
  PyStr.contains (p ++ m ++ q) s = true -> PyStr.contains m s = true.
Proof. intros H. apply contains_suffix in H. now apply contains_prefix in H. Qed.

(** An area two of whose keywords occur in the text is reported. *)
Lemma two_keywords_area (text area : string) (keywords : list string)
    (k1 k2 : string) (i : nat) :
  Enricher.PRACTICE_AREA_KEYWORDS !! i = Some (area, keywords) ->
  [k1; k2] `sublist_of` keywords ->
  PyStr.contains k1 text = true -> PyStr.contains k2 text = true ->
  area ∈ Enricher.keyword_areas text.
Proof.
  intros Hi Hsub H1 H2. rewrite keyword_areas_filter.
  apply list_elem_of_fmap. exists (area, keywords). split; [reflexivity|].
  apply list_elem_of_filter. split; [|eapply list_elem_of_lookup_2, Hi].
  apply Nat.leb_le. cbn [snd]. eapply keyword_matches_two; eauto.
Qed.

Ltac sublist_of_list :=
  repeat first [apply sublist_nil | apply sublist_skip | apply sublist_cons].

(** X24: keywords are counted as substrings of the text, so one word can
    be two matches: a text in which [imprisonment] occurs is classified
    [criminal_law] (it also contains [prison]), one with [taxation],
    [taxable], [income tax], [sales tax] or [property tax] is classified
    [tax_law] (each contains [tax]), and one with [unemployment] is
    classified [employment_law] (it contains [employment]). *)
Theorem one_word_two_matches (text section_num word area : string) :
  (word, area) ∈ [("imprisonment", "criminal_law"); ("taxation", "tax_law");
                  ("taxable", "tax_law"); ("income tax", "tax_law");
                  ("sales tax", "tax_law"); ("property tax", "tax_law");
                  ("unemployment", "employment_law")] ->
  PyStr.contains word text = true ->
  area ∈ Enricher._identify_practice_areas text section_num.
Proof.
  intros Htable Hword. apply practice_areas_elem. left.
  repeat (apply elem_of_cons in Htable; destruct Htable as [[= -> ->]|Htable]);
    [| | | | | | |inversion Htable].
  - eapply (two_keywords_area text _ _ "imprisonment" "prison" 0);
      [reflexivity|sublist_of_list|exact Hword|].
    exact (contains_infix "im" "prison" "ment" text Hword).
  - eapply (two_keywords_area text _ _ "tax" "taxation" 4);
      [reflexivity|sublist_of_list| |exact Hword].
    exact (contains_infix "" "tax" "ation" text Hword).
  - eapply (two_keywords_area text _ _ "tax" "taxable" 4);
      [reflexivity|sublist_of_list| |exact Hword].
    exact (contains_infix "" "tax" "able" text Hword).
  - eapply (two_keywords_area text _ _ "tax" "income tax" 4);
      [reflexivity|sublist_of_list| |exact Hword].
    exact (contains_infix "income " "tax" "" text Hword).
  - eapply (two_keywords_area text _ _ "tax" "sales tax" 4);
      [reflexivity|sublist_of_list| |exact Hword].
    exact (contains_infix "sales " "tax" "" text Hword).
  - eapply (two_keywords_area text _ _ "tax" "property tax" 4);
      [reflexivity|sublist_of_list| |exact Hword].
    exact (contains_infix "property " "tax" "" text Hword).
  - eapply (two_keywords_area text _ _ "employment" "unemployment" 5);
      [reflexivity|sublist_of_list| |exact Hword].
    exact (contains_infix "un" "employment" "" text Hword).
Qed.

Lemma one_word_two_matches_witness :
  "tax_law" ∈ Enricher._identify_practice_areas "rules of taxation" "101.01".
Proof.
  refine (one_word_two_matches "rules of taxation" "101.01" "taxation" "tax_law" _ _).
  - apply elem_of_cons. right. apply elem_of_cons. left. reflexivity.
  - reflexivity.
Defined.

Lemma search_degree_sound (prefix : string) (words : list string) :
  forall (text_lower word : string),
    Enricher.search_degree prefix words text_lower = Some word ->
    word ∈ words
    /\ PyStr.contains (prefix ++ word ++ " degree") text_lower = true.
Proof.
  induction text_lower as [|c text_lower IH]; intros word H; cbn [Enricher.search_degree] in H.
  - destruct (find _ words) as [w|] eqn:E; [|discriminate].
    injection H as <-. apply find_some in E. destruct E as [Hin Hstart].
    split; [now apply list_elem_of_In|].
    cbn [PyStr.contains]. now rewrite Hstart.
  - destruct (find _ words) as [w|] eqn:E.
    + injection H as <-. apply find_some in E. destruct E as [Hin Hstart].
      split; [now apply list_elem_of_In|].
      cbn [PyStr.contains]. now rewrite Hstart.
    + destruct (IH _ H) as [Hin Hc]. split; [exact Hin|].
      cbn [PyStr.contains]. rewrite Hc. apply orb_true_r.
Qed.

(** X25: the offense degree agrees with the offense level read from the
    same text: a degree F1 to F5 comes with the level [felony]; a degree M1
    to M4 is returned only when no felony degree is found, and the level is
    then [felony] or [misdemeanor]; a degree is never returned with the
    level absent. *)
Theorem offense_degree_agrees_with_level (text degree : string) :
  Enricher._extract_offense_degree text = Some degree ->
  (degree ∈ ["F1"; "F2"; "F3"; "F4"; "F5"]
   /\ Enricher._extract_offense_level text = Some "felony")
  \/ (degree ∈ ["M1"; "M2"; "M3"; "M4"]
      /\ (Enricher._extract_offense_level text = Some "felony"
          \/ Enricher._extract_offense_level text = Some "misdemeanor")
      /\ Enricher.search_degree "felony of the "
           ["first"; "second"; "third"; "fourth"; "fifth"] (PyStr.lower text) = None).
Proof.
  unfold Enricher._extract_offense_degree.
  destruct (Enricher.search_degree "felony of the " _ _) as [word|] eqn:Ef.
  - intros Hd. left. apply search_degree_sound in Ef. destruct Ef as [Hin Hc].
    assert (Hfelony : Enricher._extract_offense_level text = Some "felony").
    { unfold Enricher._extract_offense_level, PyStr.re_search_ignorecase.
      change (PyStr.lower "felony") with "felony".
      change ("felony of the " ++ word ++ " degree")
        with ("felony" ++ (" of the " ++ word ++ " degree")) in Hc.
      now rewrite (contains_prefix _ _ _ Hc). }
    split; [|exact Hfelony].
    repeat (apply elem_of_cons in Hin; destruct Hin as [->|Hin];
            [injection Hd as <-; apply (bool_decide_unpack _); vm_compute; exact I|]).
    inversion Hin.
  - destruct (Enricher.search_degree "misdemeanor of the " _ _) as [word|] eqn:Em;
      [|discriminate].
    intros Hd. right. apply search_degree_sound in Em. destruct Em as [Hin Hc].
    split_ands; [| |reflexivity].
    + repeat (apply elem_of_cons in Hin; destruct Hin as [->|Hin];
              [injection Hd as <-; apply (bool_decide_unpack _); vm_compute; exact I|]).
      inversion Hin.
    + unfold Enricher._extract_offense_level, PyStr.re_search_ignorecase.
      change (PyStr.lower "felony") with "felony".
      change (PyStr.lower "misdemeanor") with "misdemeanor".
      destruct (PyStr.contains "felony" (PyStr.lower text)); [left; reflexivity|].
      change ("misdemeanor of the " ++ word ++ " degree")
        with ("misdemeanor" ++ (" of the " ++ word ++ " degree")) in Hc.
      rewrite (contains_prefix _ _ _ Hc). right. reflexivity.
Qed.

Lemma offense_degree_agrees_with_level_witness :
  ("F3" ∈ ["F1"; "F2"; "F3"; "F4"; "F5"]
   /\ Enricher._extract_offense_level "a felony of the third degree" = Some "felony")
  \/ ("F3" ∈ ["M1"; "M2"; "M3"; "M4"]
      /\ (Enricher._extract_offense_level "a felony of the third degree" = Some "felony"
          \/ Enricher._extract_offense_level "a felony of the third degree"
             = Some "misdemeanor")
      /\ Enricher.search_degree "felony of the "
           ["first"; "second"; "third"; "fourth"; "fifth"]
           (PyStr.lower "a felony of the third degree") = None).
Proof.
  apply (offense_degree_agrees_with_level "a felony of the third degree" "F3").
  reflexivity.
Defined.

(** ** Section numbers *)

Lemma append_empty_r (s : string) : s ++ "" = s.
Proof. induction s as [|c s IH]; [reflexivity|]. rewrite append_cons. now rewrite IH. Qed.

Lemma append_assoc_string (a b c : string) : (a ++ b) ++ c = a ++ (b ++ c).
Proof.
  induction a as [|x a IH]; [now rewrite !append_nil|].
  rewrite !append_cons. now rewrite IH.
Qed.

Lemma isdigit_not_space (c : ascii) : PyStr.isdigit c = true -> PyStr.isspace c = false.
Proof. destruct c as [[] [] [] [] [] [] [] []]; cbn; intros H; (reflexivity || discriminate H). Qed.

Lemma isdigit_not_char (c o : ascii) :
  PyStr.isdigit c = true -> PyStr.isdigit o = false -> Ascii.eqb o c = false.
Proof.
  intros Hc Ho. destruct (Ascii.eqb_spec o c) as [->|]; [congruence|reflexivity].
Qed.

(** A string of digits: [leading_digits s = String.length s]. *)
Lemma digits_cons (c : ascii) (s : string) :
  CitationMapper.leading_digits (String c s) = String.length (String c s) ->
  PyStr.isdigit c = true /\ CitationMapper.leading_digits s = String.length s.
Proof.
  cbn [CitationMapper.leading_digits String.length].
  destruct (PyStr.isdigit c); [|discriminate]. intros [= H]. auto.
Qed.

Lemma leading_digits_app (n rest : string) :
  CitationMapper.leading_digits n = String.length n ->
  CitationMapper.leading_digits (n ++ rest)
  = (String.length n + CitationMapper.leading_digits rest)%nat.
Proof.
  induction n as [|c n IH]; intros H; [reflexivity|].
  apply digits_cons in H as [Hc Hn]. rewrite append_cons.
  cbn [CitationMapper.leading_digits String.length]. rewrite Hc. now rewrite IH.
Qed.

Lemma string_drop_app (n rest : string) : CitationMapper.drop (String.length n) (n ++ rest) = rest.
Proof.
  induction n as [|c n IH]; [now destruct rest|].
  rewrite append_cons. cbn [String.length CitationMapper.drop]. exact IH.
Qed.

Lemma string_take_app (n rest : string) : PyStr.take (String.length n) (n ++ rest) = n.
Proof.
  induction n as [|c n IH]; [now destruct rest|].
  rewrite append_cons. cbn [String.length PyStr.take]. now rewrite IH.
Qed.

Lemma section_number_at_header (digits decimals rest : string) :
  digits <> "" -> decimals <> "" ->
  CitationMapper.leading_digits digits = String.length digits ->
  CitationMapper.leading_digits decimals = String.length decimals ->
  CitationMapper.leading_digits rest = 0%nat ->
  CitationMapper.section_number_at ("Section " ++ digits ++ "." ++ decimals ++ rest)
  = Some (digits ++ "." ++ decimals).
Proof.
  intros Hd He Hdigits Hdecimals Hrest.
  unfold CitationMapper.section_number_at.
  change ("Section " ++ digits ++ "." ++ decimals ++ rest)
    with (String "S" (String "e" (String "c" (String "t" (String "i" (String "o"
            (String "n" (String " " (digits ++ "." ++ decimals ++ rest))))))))).
  cbn [PyStr.startswith Ascii.eqb Bool.eqb andb CitationMapper.drop].
  cbv zeta.
  assert (Hsp : CitationMapper.leading_spaces (String " " (digits ++ "." ++ decimals ++ rest))
                = 1%nat).
  { cbn [CitationMapper.leading_spaces]. change (PyStr.isspace " ") with true. cbv iota.
    destruct digits as [|c digits]; [congruence|].
    apply digits_cons in Hdigits as [Hc _]. rewrite append_cons.
    cbn [CitationMapper.leading_spaces]. now rewrite (isdigit_not_space c Hc). }
  rewrite Hsp. cbn [CitationMapper.drop].
  assert (Hn : CitationMapper.leading_digits (digits ++ "." ++ decimals ++ rest)
               = String.length digits).
  { rewrite leading_digits_app by exact Hdigits.
    change ("." ++ decimals ++ rest) with (String "." (decimals ++ rest)).
    change (CitationMapper.leading_digits (String "." (decimals ++ rest))) with 0%nat.
    lia. }
  rewrite Hn, string_drop_app, string_take_app.
  change ("." ++ decimals ++ rest) with (String "." (decimals ++ rest)).
  cbv iota beta.
  rewrite leading_digits_app by exact Hdecimals. rewrite Hrest, Nat.add_0_r, string_take_app.
  destruct digits; [congruence|]. destruct decimals; [congruence|].
  reflexivity.
Qed.

Lemma contains_char_digits (o : ascii) (n : string) :
  PyStr.isdigit o = false ->
  CitationMapper.leading_digits n = String.length n ->
  PyStr.contains (String o "") n = false.
Proof.
  intros Ho. induction n as [|c n IH]; intros H; [reflexivity|].
  apply digits_cons in H as [Hc Hn].
  cbn [PyStr.contains PyStr.startswith]. rewrite (isdigit_not_char c o Hc Ho).
  cbn. apply IH, Hn.
Qed.

Lemma contains_char_app (o : ascii) (a b : string) :
  PyStr.contains (String o "") a = false ->
  PyStr.contains (String o "") b = false ->
  PyStr.contains (String o "") (a ++ b) = false.
Proof.
  intros Ha Hb. induction a as [|c a IH]; [now rewrite append_nil|].
  rewrite append_cons. cbn [PyStr.contains PyStr.startswith] in *.
  apply orb_false_iff in Ha as [Hc Ha]. rewrite Hc. cbn. apply IH, Ha.
Qed.

Lemma replace_go_digits (old new : string) (o : ascii) (n rest : string) :
  PyStr.isdigit o = false ->
  CitationMapper.leading_digits n = String.length n ->
  PyStr.replace_go (String o old) new 0 (n ++ rest)
  = n ++ PyStr.replace_go (String o old) new 0 rest.
Proof.
  intros Ho. induction n as [|c n IH]; intros H; [now rewrite !append_nil|].
  apply digits_cons in H as [Hc Hn]. rewrite !append_cons.
  cbn [PyStr.replace_go PyStr.startswith]. rewrite (isdigit_not_char c o Hc Ho).
  cbn [andb]. now rewrite IH.
Qed.

Lemma replace_digits_dot (old new : string) (o : ascii) (digits decimals : string) :
  PyStr.isdigit o = false -> Ascii.eqb o "." = false ->
  CitationMapper.leading_digits digits = String.length digits ->
  CitationMapper.leading_digits decimals = String.length decimals ->
  PyStr.replace_go (String o old) new 0 (digits ++ "." ++ decimals)
  = digits ++ "." ++ decimals.
Proof.
  intros Ho Hdot Hdigits Hdecimals.
  rewrite replace_go_digits by assumption.
  change ("." ++ decimals) with (String "." decimals).
  cbn [PyStr.replace_go PyStr.startswith]. rewrite Hdot. cbn [andb].
  rewrite <- (append_empty_r decimals) at 1.
  rewrite replace_go_digits by assumption.
  cbn [PyStr.replace_go]. now rewrite append_empty_r.
Qed.

Lemma rstrip_cons_nonspace (c : ascii) (s : string) :
  PyStr.isspace c = false -> PyStr.rstrip (String c s) = String c (PyStr.rstrip s).
Proof. intros Hc. cbn [PyStr.rstrip]. rewrite Hc. now destruct (PyStr.rstrip s). Qed.

Lemma rstrip_digits (n rest : string) :
  CitationMapper.leading_digits n = String.length n ->
  PyStr.rstrip (n ++ rest) = n ++ PyStr.rstrip rest.
Proof.
  induction n as [|c n IH]; intros H; [now rewrite !append_nil|].
  apply digits_cons in H as [Hc Hn]. rewrite !append_cons.
  rewrite rstrip_cons_nonspace by (apply isdigit_not_space, Hc). now rewrite IH.
Qed.

Lemma strip_digits_dot (digits decimals : string) :
  CitationMapper.leading_digits digits = String.length digits ->
  CitationMapper.leading_digits decimals = String.length decimals ->
  PyStr.strip (digits ++ "." ++ decimals) = digits ++ "." ++ decimals.
Proof.
  intros Hdigits Hdecimals. unfold PyStr.strip.
  assert (Hl : PyStr.lstrip (digits ++ "." ++ decimals) = digits ++ "." ++ decimals).
  { destruct digits as [|c digits]; [reflexivity|].
    apply digits_cons in Hdigits as [Hc _]. rewrite append_cons.
    cbn [PyStr.lstrip]. now rewrite (isdigit_not_space c Hc). }
  rewrite Hl, rstrip_digits by assumption.
  change ("." ++ decimals) with (String "." decimals).
  rewrite rstrip_cons_nonspace by reflexivity.
  rewrite <- (append_empty_r decimals) at 1.
  rewrite rstrip_digits by assumption. cbn [PyStr.rstrip]. now rewrite append_empty_r.
Qed.

Lemma extract_section_number_header (digits decimals rest : string) :
  digits <> "" -> decimals <> "" ->
  CitationMapper.leading_digits digits = String.length digits ->
  CitationMapper.leading_digits decimals = String.length decimals ->
  CitationMapper.leading_digits rest = 0%nat ->
  CitationMapper.extract_section_number ("Section " ++ digits ++ "." ++ decimals ++ rest)
  = Some (digits ++ "." ++ decimals).
Proof.
  intros Hd He Hdigits Hdecimals Hrest.
  pose proof (section_number_at_header digits decimals rest
                Hd He Hdigits Hdecimals Hrest) as Hat.
  change ("Section " ++ digits ++ "." ++ decimals ++ rest)
    with (String "S" ("ection " ++ digits ++ "." ++ decimals ++ rest)) in *.
  cbn [CitationMapper.extract_section_number]. now rewrite Hat.
Qed.

(** X26: the mapper and the builder name a section of the Revised Code
    alike: for a header [Section <digits>.<digits>|<title>] the key under
    which [extract_section_number] records the section in the citation map
    and the key under which [build_sections_database] stores it are both
    [<digits>.<digits>]. *)
Theorem section_number_agreement (d : LMDBBuilder.doc) (digits decimals title : string) :
  digits <> "" -> decimals <> "" ->
  CitationMapper.leading_digits digits = String.length digits ->
  CitationMapper.leading_digits decimals = String.length decimals ->
  LMDBBuilder.doc_header d = "Section " ++ digits ++ "." ++ decimals ++ "|" ++ title ->
  CitationMapper.extract_section_number (LMDBBuilder.doc_header d)
  = Some (digits ++ "." ++ decimals)
  /\ LMDBBuilder.section_key d = digits ++ "." ++ decimals.
Proof.
  intros Hd He Hdigits Hdecimals Hheader. split.
  - rewrite Hheader. now apply extract_section_number_header.
  - unfold LMDBBuilder.section_key. rewrite Hheader.
    replace ("Section " ++ digits ++ "." ++ decimals ++ "|" ++ title)
      with (("Section " ++ digits ++ "." ++ decimals) ++ String "|" title).
    2:{ rewrite !append_assoc_string. reflexivity. }
    rewrite split_char_head.
    2:{ apply (contains_char_app "|" "Section "); [reflexivity|].
        apply contains_char_app; [now apply contains_char_digits|].
        change ("." ++ decimals) with (String "." decimals).
        cbn [PyStr.contains PyStr.startswith Ascii.eqb Bool.eqb andb orb].
        now apply contains_char_digits. }
    unfold PyStr.replace at 2.
    change ("Section " ++ digits ++ "." ++ decimals)
      with (String "S" (String "e" (String "c" (String "t" (String "i" (String "o"
              (String "n" (String " " (digits ++ "." ++ decimals))))))))).
    cbn [PyStr.replace_go PyStr.startswith Ascii.eqb Bool.eqb andb String.length Nat.sub].
    rewrite append_nil.
    change "Section " with (String "S" "ection ").
    rewrite replace_digits_dot by (assumption || reflexivity).
    unfold PyStr.replace. change "Rule " with (String "R" "ule ").
    rewrite replace_digits_dot by (assumption || reflexivity).
    now apply strip_digits_dot.
Qed.

Lemma section_number_agreement_witness :
  CitationMapper.extract_section_number (LMDBBuilder.doc_header Scenario.section_theft)
  = Some ("2913" ++ "." ++ "02")
  /\ LMDBBuilder.section_key Scenario.section_theft = "2913" ++ "." ++ "02".
Proof.
  apply (section_number_agreement Scenario.section_theft "2913" "02" "Theft");
    (discriminate || reflexivity).
Defined.

(** ** The format of references *)

Lemma take_drop_string (n : nat) : forall s : string,
  s = PyStr.take n s ++ CitationMapper.drop n s.
Proof.
  induction n as [|n IH]; intros [|c s]; cbn [PyStr.take CitationMapper.drop];
    try reflexivity.
  rewrite append_cons. now rewrite <- IH.
Qed.

Lemma take_leading_digits : forall s : string,
  CitationMapper.leading_digits (PyStr.take (CitationMapper.leading_digits s) s)
  = CitationMapper.leading_digits s
  /\ String.length (PyStr.take (CitationMapper.leading_digits s) s)
     = CitationMapper.leading_digits s.
Proof.
  induction s as [|c s [IH1 IH2]]; [split; reflexivity|].
  cbn [CitationMapper.leading_digits]. destruct (PyStr.isdigit c) eqn:E; [|split; reflexivity].
  cbn [PyStr.take CitationMapper.leading_digits String.length]. rewrite E. auto.
Qed.

Lemma valid_section_format_shape (ref : string) :
  CitationMapper.valid_section_format ref = true ->
  exists chapter decimals,
    ref = chapter ++ "." ++ decimals
    /\ (String.length chapter = 3 \/ String.length chapter = 4)%nat
    /\ CitationMapper.leading_digits chapter = String.length chapter
    /\ decimals <> ""
    /\ CitationMapper.leading_digits decimals = String.length decimals.
Proof.
  unfold CitationMapper.valid_section_format. cbv zeta. intros H.
  apply andb_true_iff in H as [Hn H].
  destruct (CitationMapper.drop _ ref) as [|c rest] eqn:Edrop; [discriminate|].
  destruct (Ascii.eqb_spec c ".") as [->|Hc].
  2:{ exfalso. revert H. destruct c as [[] [] [] [] [] [] [] []];
        try discriminate. congruence. }
  apply andb_true_iff in H as [Hrest Hdec].
  apply negb_true_iff, String.eqb_neq in Hrest. apply Nat.eqb_eq in Hdec.
  destruct (take_leading_digits ref) as [Ht1 Ht2].
  exists (PyStr.take (CitationMapper.leading_digits ref) ref), rest.
  split_ands; auto.
  - rewrite (take_drop_string (CitationMapper.leading_digits ref) ref) at 1.
    now rewrite Edrop.
  - rewrite Ht2. apply orb_true_iff in Hn as [Hn|Hn]; apply Nat.eqb_eq in Hn; auto.
  - now rewrite Ht1, Ht2.
Qed.

(** The references of a text have passed the format check. *)
Lemma extracted_reference_shape
    (findall : string -> string -> list CitationMapper.re_match) (fuel : nat)
    (text : string) (references : gset string) (ref : string) :
  CitationMapper.extract_cross_references findall fuel text = Some references ->
  ref ∈ references ->
  exists chapter decimals,
    ref = chapter ++ "." ++ decimals
    /\ (String.length chapter = 3 \/ String.length chapter = 4)%nat
    /\ CitationMapper.leading_digits chapter = String.length chapter
    /\ decimals <> ""
    /\ CitationMapper.leading_digits decimals = String.length decimals.
Proof.
  unfold CitationMapper.extract_cross_references.
  destruct (CitationMapper.scan_patterns _ _ _ _ _) as [found|]; [|discriminate].
  intros [= <-] Hin. apply elem_of_filter in Hin as [Hvalid _].
  now apply valid_section_format_shape.
Qed.

(** X27: whatever the reference patterns match in a text, every reference
    that [extract_cross_references] returns is a chapter of three or four
    digits, a dot, and one or more digits. *)
Theorem references_have_section_format
    (findall : string -> string -> list CitationMapper.re_match) (fuel : nat)
    (text : string) (references : gset string) (ref : string) :
  CitationMapper.extract_cross_references findall fuel text = Some references ->
  ref ∈ references ->
  exists chapter decimals,
    ref = chapter ++ "." ++ decimals
    /\ (String.length chapter = 3 \/ String.length chapter = 4)%nat
    /\ CitationMapper.leading_digits chapter = String.length chapter
    /\ decimals <> ""
    /\ CitationMapper.leading_digits decimals = String.length decimals.
Proof. apply extracted_reference_shape. Qed.

Lemma references_have_section_format_witness :
  exists chapter decimals,
    "2913.02" = chapter ++ "." ++ decimals
    /\ (String.length chapter = 3 \/ String.length chapter = 4)%nat
    /\ CitationMapper.leading_digits chapter = String.length chapter
    /\ decimals <> ""
    /\ CitationMapper.leading_digits decimals = String.length decimals.
Proof.
  refine (references_have_section_format
            (fun _ _ => [CitationMapper.MatchStr " 2913.02"; CitationMapper.MatchStr "1.01"])
            0 "as provided in section 2913.02 or 1.01" {[ "2913.02" ]} "2913.02" _ _).
  - vm_compute. reflexivity.
  - apply elem_of_singleton. reflexivity.
Defined.

(** X28: a section whose chapter has fewer than three or more than four
    digits is recorded by [extract_section_number] under its number, but
    that number is never among the references extracted from any text: such
    a section can be a key of the citation map and never a target. *)
Theorem short_chapter_never_referenced
    (findall : string -> string -> list CitationMapper.re_match) (fuel : nat)
    (text digits decimals rest : string) (references : gset string) :
  digits <> "" -> decimals <> "" ->
  CitationMapper.leading_digits digits = String.length digits ->
  CitationMapper.leading_digits decimals = String.length decimals ->
  CitationMapper.leading_digits rest = 0%nat ->
  (String.length digits < 3 \/ 4 < String.length digits)%nat ->
  CitationMapper.extract_cross_references findall fuel text = Some references ->
  CitationMapper.extract_section_number ("Section " ++ digits ++ "." ++ decimals ++ rest)
  = Some (digits ++ "." ++ decimals)
  /\ digits ++ "." ++ decimals ∉ references.
Proof.
  intros Hd He Hdigits Hdecimals Hrest Hshort Hrefs.
  split; [now apply extract_section_number_header|].
  intros Hin.
  destruct (extracted_reference_shape findall fuel text references _ Hrefs Hin)
    as (chapter & decimals' & Heq & Hlen & Hchapter & _).
  assert (Hsame : CitationMapper.leading_digits (digits ++ "." ++ decimals)
                  = CitationMapper.leading_digits (chapter ++ "." ++ decimals'))
    by now rewrite Heq.
  rewrite (leading_digits_app digits) in Hsame by exact Hdigits.
  rewrite (leading_digits_app chapter) in Hsame by exact Hchapter.
  change (CitationMapper.leading_digits ("." ++ decimals)) with 0%nat in Hsame.
  change (CitationMapper.leading_digits ("." ++ decimals')) with 0%nat in Hsame.
  lia.
Qed.

Lemma short_chapter_never_referenced_witness :
  CitationMapper.extract_section_number ("Section " ++ "1" ++ "." ++ "01" ++ "|Definitions")
  = Some ("1" ++ "." ++ "01")
  /\ "1" ++ "." ++ "01" ∉ ({[ "2913.02" ]} : gset string).
Proof.
  refine (short_chapter_never_referenced
            (fun _ _ => [CitationMapper.MatchStr " 2913.02"; CitationMapper.MatchStr "1.01"])
            0 "as provided in section 2913.02 or 1.01" "1" "01" "|Definitions"
            {[ "2913.02" ]} _ _ _ _ _ _ _).
  - discriminate.
  - discriminate.
  - reflexivity.
  - reflexivity.
  - reflexivity.
  - left. cbn. lia.
  - vm_compute. reflexivity.
Defined.

(** ** The most referenced section *)

Lemma count_reference_keys (ref : string) : forall counts k,
  k ∈ (CitationMapper.count_reference ref counts).*1 <-> k = ref \/ k ∈ counts.*1.
Proof.
  induction counts as [|[r n] counts IH]; intros k; cbn [CitationMapper.count_reference].
  - cbn. rewrite list_elem_of_singleton, elem_of_nil. tauto.
  - destruct (String.eqb_spec r ref) as [->|Hne].
    + rewrite !fmap_cons. cbn [fst]. rewrite elem_of_cons. tauto.
    + rewrite !fmap_cons. cbn [fst]. rewrite !elem_of_cons, IH. tauto.
Qed.

Lemma count_reference_NoDup (ref : string) : forall counts,
  NoDup counts.*1 -> NoDup (CitationMapper.count_reference ref counts).*1.
Proof.
  induction counts as [|[r n] counts IH]; intros Hnd; cbn [CitationMapper.count_reference].
  - cbn. apply NoDup_singleton.
  - rewrite fmap_cons in Hnd. apply NoDup_cons in Hnd as [Hr Hnd]. cbn [fst] in Hr.
    destruct (String.eqb_spec r ref) as [->|Hne].
    + rewrite fmap_cons. apply NoDup_cons. auto.
    + rewrite fmap_cons. apply NoDup_cons. split; [|auto].
      cbn [fst]. rewrite count_reference_keys. intros [?|?]; auto.
Qed.

Lemma count_reference_map (ref : string) : forall counts : list (string * Z),
  (list_to_map (CitationMapper.count_reference ref counts) : gmap string Z)
  = <[ ref := default 0 ((list_to_map counts : gmap string Z) !! ref) + 1 ]>
      (list_to_map counts).
Proof.
  induction counts as [|[r n] counts IH]; cbn [CitationMapper.count_reference].
  - reflexivity.
  - destruct (String.eqb_spec r ref) as [->|Hne]; cbn [list_to_map foldr uncurry fst snd].
    + rewrite lookup_insert_eq, insert_insert_eq. reflexivity.
    + rewrite IH, lookup_insert_ne by exact Hne. apply insert_insert_ne. exact Hne.
Qed.

Lemma count_reference_fold (t : string) : forall (refs : list string) (counts : list (string * Z)),
  (list_to_map (foldl (fun c ref => CitationMapper.count_reference ref c) counts refs)
     : gmap string Z) !! t
  = match length (filter (fun ref => ref = t) refs) with
    | O => (list_to_map counts : gmap string Z) !! t
    | S n => Some (default 0 ((list_to_map counts : gmap string Z) !! t) + Z.of_nat (S n))
    end.
Proof.
  induction refs as [|r refs IH]; intros counts; cbn [foldl]; [reflexivity|].
  rewrite IH, count_reference_map, filter_cons.
  destruct (decide (r = t)) as [->|Hne].
  - rewrite lookup_insert_eq. cbn [length].
    destruct (length (filter _ refs)); cbn [default from_option id]; f_equal; lia.
  - rewrite lookup_insert_ne by exact Hne. reflexivity.
Qed.

Lemma count_reference_fold_NoDup : forall (refs : list string) (counts : list (string * Z)),
  NoDup counts.*1 ->
  NoDup (foldl (fun c ref => CitationMapper.count_reference ref c) counts refs).*1.
Proof.
  induction refs as [|r refs IH]; intros counts Hnd; cbn [foldl]; [exact Hnd|].
  apply IH, count_reference_NoDup, Hnd.
Qed.

Lemma reference_counts_concat : forall (items : list (string * list string))
    (counts : list (string * Z)),
  foldl (fun counts item =>
           foldl (fun c ref => CitationMapper.count_reference ref c) counts item.2)
        counts items
  = foldl (fun c ref => CitationMapper.count_reference ref c) counts (concat items.*2).
Proof.
  induction items as [|item items IH]; intros counts; [reflexivity|].
  cbn [foldl]. rewrite fmap_cons. cbn [concat]. now rewrite foldl_app, IH.
Qed.

Lemma first_max_spec : forall (items : list (string * Z)) (best : string * Z),
  CitationMapper.first_max best items ∈ best :: items
  /\ forall x, x ∈ best :: items -> x.2 <= (CitationMapper.first_max best items).2.
Proof.
  induction items as [|y items IH]; intros best; cbn [CitationMapper.first_max].
  - split; [apply list_elem_of_here|]. intros x ->%list_elem_of_singleton. lia.
  - destruct (IH (if best.2 <? y.2 then y else best)) as [Hin Hmax]. split.
    + apply elem_of_cons in Hin as [->|Hin].
      * destruct (best.2 <? y.2); [apply list_elem_of_further|]; apply list_elem_of_here.
      * now do 2 apply list_elem_of_further.
    + intros x [->|[->|Hx]%elem_of_cons]%elem_of_cons.
      * etransitivity; [|apply Hmax, list_elem_of_here].
        destruct (Z.ltb_spec best.2 y.2); lia.
      * etransitivity; [|apply Hmax, list_elem_of_here].
        destruct (Z.ltb_spec best.2 y.2); lia.
      * apply Hmax. now apply list_elem_of_further.
Qed.

(** X29: [most_referenced_section] of an analysis is [None] exactly when
    no section of the map has a reference; otherwise it is an id that
    occurs in the reference lists and no id occurs in them more often. *)
Theorem most_referenced_section_is_maximal (items : list (string * list string))
    (analysis : CitationMapper.CitationAnalysis) :
  CitationMapper.analyze_citation_patterns items = Some analysis ->
  (concat items.*2 = []
   /\ CitationMapper.most_referenced_section analysis = "None")
  \/ (CitationMapper.most_referenced_section analysis ∈ concat items.*2
      /\ forall ref,
           (length (filter (fun r => r = ref) (concat items.*2))
            <= length (filter
                         (fun r => r = CitationMapper.most_referenced_section analysis)
                         (concat items.*2)))%nat).
Proof.
  unfold CitationMapper.analyze_citation_patterns. cbv zeta.
  destruct (CitationMapper.analyze_sections _ _ _) as [[[visited simple] complex]|];
    [|discriminate].
  intros [= <-]. cbn [CitationMapper.most_referenced_section].
  rewrite reference_counts_concat.
  set (refs := concat items.*2).
  set (counts := foldl _ [] refs).
  assert (Hnd : NoDup counts.*1).
  { apply count_reference_fold_NoDup. constructor. }
  assert (Hcount : forall t n,
             (t, n) ∈ counts
             <-> (0 < length (filter (fun r => r = t) refs))%nat
                 /\ n = Z.of_nat (length (filter (fun r => r = t) refs))).
  { intros t n. rewrite (elem_of_list_to_map (M := gmap string)) by exact Hnd.
    subst counts. rewrite count_reference_fold. cbn [list_to_map foldr]. rewrite lookup_empty.
    destruct (length (filter _ refs)) as [|m]; cbn [default from_option id].
    - split; [discriminate|lia].
    - split; [intros [= <-]; lia|intros [_ ->]; f_equal; lia]. }
  destruct counts as [|x rest] eqn:Ecounts.
  - left. split; [|reflexivity].
    destruct refs as [|r refs'] eqn:Erefs; [reflexivity|]. exfalso.
    assert (Hin : (r, Z.of_nat (length (filter (fun r0 => r0 = r) (r :: refs'))))
                  ∈ ([] : list (string * Z))).
    { apply Hcount. rewrite filter_cons, decide_True by reflexivity. cbn [length]. lia. }
    inversion Hin.
  - right. destruct (first_max_spec rest x) as [Hin Hmax].
    destruct (CitationMapper.first_max x rest) as [k n] eqn:Emax. cbn [fst snd] in *.
    apply Hcount in Hin as [Hpos ->]. split.
    + destruct (filter (fun r => r = k) refs) as [|r l] eqn:Ef; [cbn in Hpos; lia|].
      assert (Hr : r ∈ filter (fun r => r = k) refs) by (rewrite Ef; apply list_elem_of_here).
      apply list_elem_of_filter in Hr as [-> Hr]. exact Hr.
    + intros ref.
      destruct (length (filter (fun r => r = ref) refs)) as [|m] eqn:Eref; [lia|].
      assert (Hin : (ref, Z.of_nat (S m)) ∈ x :: rest).
      { apply Hcount. rewrite Eref. split; [lia|reflexivity]. }
      apply Hmax in Hin. cbn [snd] in Hin. lia.
Qed.

Lemma most_referenced_section_is_maximal_witness :
  exists analysis,
    CitationMapper.analyze_citation_patterns Scenario.small_map = Some analysis
    /\ ((concat Scenario.small_map.*2 = []
         /\ CitationMapper.most_referenced_section analysis = "None")
        \/ (CitationMapper.most_referenced_section analysis ∈ concat Scenario.small_map.*2
            /\ forall ref,
                 (length (filter (fun r => r = ref) (concat Scenario.small_map.*2))
                  <= length (filter
                               (fun r => r = CitationMapper.most_referenced_section analysis)
                               (concat Scenario.small_map.*2)))%nat)).
Proof.
  eexists. split; [vm_compute; reflexivity|].
  apply most_referenced_section_is_maximal. vm_compute. reflexivity.
Defined.
